(** * Secsync: message codecs, ephemeral sessions, server update store

    A shallow embedding of the parts of secsync that its specification makes
    claims about:

    - [Ephemeral]: [verifyAndDecryptEphemeralMessage]
      (packages/secsync/src/ephemeralMessage/verifyAndDecryptEphemeralMessage.ts);
    - [Server]: the backend's transactional [createUpdate]
      (demos/backend/src/database/createUpdate.ts);
    - [UpdateCodec]: [createUpdate] / [verifyAndDecryptUpdate] of the client
      package, whose sources are exercised by update.test.ts;
    - [SyncMachine]: the fragment of the sync machine's context that the
      document loading and the error buffers live in;
    - [Backend]: the document id the backend reads from a request
      (demos/backend/src/index.ts);
    - [WebsocketService]: the client's websocket service
      (packages/secsync/src/utils/websocketService.ts), as a transition
      system in which suspended calls resume in any order.

    JavaScript objects used as dictionaries are [gmap string _], which holds
    their own properties; where the source reads a property without asking
    whether it is an own one (the clocks of the server), the names every
    object inherits are modelled too.  [Uint8Array]s are [list byte];
    JavaScript numbers that hold clocks, counters and versions are [Z]; a
    [throw] is the [None] of the option monad, caught where the source has
    its [try]/[catch]. *)

From Stdlib Require Import ZArith List Ascii String Bool Lia.
From Stdlib.Strings Require Import Byte.
From stdpp Require Import base option list gmap strings pretty countable.

Local Open Scope string_scope.
Local Open Scope Z_scope.

Abbreviation bytes := (list byte).

(** A libsodium key pair ([KeyPair] of libsodium-wrappers). *)
Record KeyPair := {
  publicKey : bytes;
  privateKey : bytes;
  keyType : string
}.

(** The object that is signed and verified: [{ nonce, ciphertext, publicData }],
    where [publicData] is the base64 of the canonical JSON. *)
Record SignedContent := {
  sc_nonce : string;
  sc_ciphertext : string;
  sc_publicData : string
}.

(** An update as it travels on the wire ([Update] and [UpdatePublicData] of
    the package's types): the public data names the snapshot the update is
    anchored to, the document, the author's public key and the author's
    clock. *)
Record UpdatePublicData := {
  refSnapshotId : string;
  docId : string;
  pubKey : string;
  clock : Z
}.

Record Update := {
  ciphertext : string;
  nonce : string;
  signature : string;
  publicData : UpdatePublicData
}.

(* ===================================================================== *)
(** ** Ephemeral messages *)
(* ===================================================================== *)

Module Ephemeral.

Record EphemeralMessagePublicData := {
  docId : string;
  pubKey : string
}.

Record EphemeralMessage := {
  ciphertext : string;
  nonce : string;
  signature : string;
  publicData : EphemeralMessagePublicData
}.

(** One entry of [validSessions]. *)
Record Session := {
  sessionId : string;
  sessionCounter : Z
}.

Record EphemeralMessagesSession := {
  id : string;
  counter : Z;
  validSessions : gmap string Session
}.

(** The functions [verifyAndDecryptEphemeralMessage] imports or receives and
    whose sources are not embedded here: libsodium's base64
    codecs, [canonicalize], and the helpers of ../crypto, ../utils and
    ./createEphemeralSessionProof.  They are parameters of the embedding.
    A result in [option] is a call that may throw: [verifySignature] says
    whether the signature is valid, or throws (on a signature it cannot
    read). *)
Record Deps := {
  canonicalize : EphemeralMessagePublicData -> string;
  string_to_base64 : string -> string;
  to_base64 : bytes -> string;
  from_base64 : string -> option bytes;
  verifySignature : SignedContent -> string -> bytes -> option bool;
  decryptAead : bytes -> string -> bytes -> string -> option bytes;
  extractPrefixFromUint8Array : bytes -> nat -> option (bytes * bytes);
  createEphemeralMessageProof : string -> string -> KeyPair -> bytes;
  verifyEphemeralSessionProof : bytes -> string -> string -> bytes -> bool
}.

(** Modelled from the spec: [idLength] of ../crypto/generateId, "id
    generation (24-byte random, base64url)". *)
Definition idLength : nat := 24.

(** Modelled from the spec: [messageTypes] of ./createEphemeralMessage,
    "messageType ∈ {initialize=0, proof=1, proofAndRequestProof=2,
    message=3}". *)
Module messageTypes.
Definition initialize : Z := 0.
Definition proof : Z := 1.
Definition proofAndRequestProof : Z := 2.
Definition message : Z := 3.
End messageTypes.

(** Modelled from the spec: [uint8ArrayToNumber] of ../utils/uint8ArrayToInt,
    "sessionCounter: 4 bytes big-endian". *)
Definition uint8ArrayToNumber (bs : bytes) : Z :=
  fold_left (fun acc b => acc * 256 + Z.of_N (Byte.to_N b)) bs 0.

(** The object the function returns; an absent property is [None]. *)
Record Result := {
  r_error : option string;
  r_content : option bytes;
  r_proof : option bytes;
  r_requestProof : option bool;
  r_validSessions : option (gmap string Session)
}.

(** [{ error: new Error(code) }] *)
Definition errorResult (code : string) : Result :=
  {| r_error := Some code; r_content := None; r_proof := None;
     r_requestProof := None; r_validSessions := None |}.

(** [type === messageTypes.x], where [type] is [undefined] when the prefix
    is empty. *)
Definition typeIs (type : option Z) (t : Z) : bool :=
  match type with
  | Some v => v =? t
  | None => false
  end.

(** Lines 46-61: the inner [try] around [decryptAead]; [None] is its
    [catch]. *)
Definition decryptContent (D : Deps) (m : EphemeralMessage) (key : bytes)
  : option bytes :=
  ct ← from_base64 D (ciphertext m);
  decryptAead D ct (string_to_base64 D (canonicalize D (publicData m)))
    key (nonce m).

(** Lines 63-71: message type, session id, session counter and the rest. *)
Definition decodeHeader (D : Deps) (content : bytes)
  : option (option Z * string * Z * bytes) :=
  '(messageTypeAsUint8Array, tmpValue) ← extractPrefixFromUint8Array D content 1;
  let type := (fun b => Z.of_N (Byte.to_N b)) <$> head messageTypeAsUint8Array in
  '(sessionIdAsUint8Array, tmp2Value) ← extractPrefixFromUint8Array D tmpValue idLength;
  let sessionId := to_base64 D sessionIdAsUint8Array in
  '(sessionCounterAsUint8Array, value) ← extractPrefixFromUint8Array D tmp2Value 4;
  let sessionCounter := uint8ArrayToNumber sessionCounterAsUint8Array in
  Some (type, sessionId, sessionCounter, value).

(** Lines 73-166: what is done with a decrypted and decoded message. *)
Definition dispatch (D : Deps) (m : EphemeralMessage) (currentDocId : string)
    (ephemeralMessagesSession : EphemeralMessagesSession)
    (authorSignatureKeyPair : KeyPair) (publicKey : bytes)
    (type : option Z) (sessionId : string) (sessionCounter : Z)
    (value : bytes) : Result :=
  let publicKeyAsBase64 := to_base64 D publicKey in
  let validSessions := validSessions ephemeralMessagesSession in
  if negb (String.eqb (docId (publicData m)) currentDocId) then
    {| r_error := None; r_content := None; r_proof := None;
       r_requestProof := None; r_validSessions := Some validSessions |}
  else if typeIs type messageTypes.initialize then
    let proof := createEphemeralMessageProof D sessionId
                   (id ephemeralMessagesSession) authorSignatureKeyPair in
    {| r_error := None; r_content := None; r_proof := Some proof;
       r_requestProof := Some true; r_validSessions := Some validSessions |}
  else if typeIs type messageTypes.proof
          || typeIs type messageTypes.proofAndRequestProof then
    let isValid := verifyEphemeralSessionProof D value
                     (id ephemeralMessagesSession) sessionId publicKey in
    if isValid then
      let newValidSessions :=
        <[publicKeyAsBase64 :=
            {| sessionId := sessionId; sessionCounter := sessionCounter |}]>
          validSessions in
      let proof :=
        if typeIs type messageTypes.proofAndRequestProof
        then Some (createEphemeralMessageProof D sessionId
                     (id ephemeralMessagesSession) authorSignatureKeyPair)
        else None in
      {| r_error := None; r_content := None; r_proof := proof;
         r_requestProof := Some false;
         r_validSessions := Some newValidSessions |}
    else
      {| r_error := None; r_content := None; r_proof := None;
         r_requestProof := None; r_validSessions := Some validSessions |}
  else if typeIs type messageTypes.message then
    match validSessions !! publicKeyAsBase64 with
    | Some stored =>
        if negb (String.eqb (Ephemeral.sessionId stored) sessionId) then
          {| r_error := Some "SECSYNC_ERROR_22"; r_content := None;
             r_proof := Some (createEphemeralMessageProof D sessionId
                                (id ephemeralMessagesSession)
                                authorSignatureKeyPair);
             r_requestProof := Some true;
             r_validSessions := Some validSessions |}
        else if Ephemeral.sessionCounter stored >=? sessionCounter then
          errorResult "SECSYNC_ERROR_23"
        else
          let newValidSessions :=
            <[publicKeyAsBase64 :=
                {| sessionId := sessionId;
                   sessionCounter := sessionCounter |}]>
              validSessions in
          {| r_error := None; r_content := Some value; r_proof := None;
             r_requestProof := None;
             r_validSessions := Some newValidSessions |}
    | None =>
        {| r_error := Some "SECSYNC_ERROR_22"; r_content := None;
           r_proof := Some (createEphemeralMessageProof D sessionId
                              (id ephemeralMessagesSession)
                              authorSignatureKeyPair);
           r_requestProof := Some true;
           r_validSessions := Some validSessions |}
    end
  else
    errorResult "SECSYNC_ERROR_25".

(** The body of the outer [try]; [None] is an exception that reaches the
    outer [catch]. *)
Definition verifyAndDecryptEphemeralMessage_try (D : Deps)
    (ephemeralMessage : EphemeralMessage) (key : bytes)
    (currentDocId : string)
    (ephemeralMessagesSession : EphemeralMessagesSession)
    (authorSignatureKeyPair : KeyPair) : option Result :=
  let publicDataAsBase64 :=
    string_to_base64 D (canonicalize D (publicData ephemeralMessage)) in
  publicKey ← from_base64 D (pubKey (publicData ephemeralMessage));
  isValid ←
    verifySignature D
      {| sc_nonce := nonce ephemeralMessage;
         sc_ciphertext := ciphertext ephemeralMessage;
         sc_publicData := publicDataAsBase64 |}
      (signature ephemeralMessage) publicKey;
  if negb isValid then Some (errorResult "SECSYNC_ERROR_38")
  else
    match decryptContent D ephemeralMessage key with
    | None => Some (errorResult "SECSYNC_ERROR_21")
    | Some content =>
        '(type, sessionId, sessionCounter, value) ← decodeHeader D content;
        Some (dispatch D ephemeralMessage currentDocId
                ephemeralMessagesSession authorSignatureKeyPair publicKey
                type sessionId sessionCounter value)
    end.

Definition verifyAndDecryptEphemeralMessage (D : Deps)
    (ephemeralMessage : EphemeralMessage) (key : bytes)
    (currentDocId : string)
    (ephemeralMessagesSession : EphemeralMessagesSession)
    (authorSignatureKeyPair : KeyPair) : Result :=
  default (errorResult "SECSYNC_ERROR_36")
    (verifyAndDecryptEphemeralMessage_try D ephemeralMessage key
       currentDocId ephemeralMessagesSession authorSignatureKeyPair).

(** [opens D m key publicKey type sessionId sessionCounter value]: the
    message passes signature verification under its author's key
    [publicKey] and decryption under [key], and its plaintext has the header
    [type], [sessionId], [sessionCounter] and the body [value]. *)
Definition opens (D : Deps) (m : EphemeralMessage) (key : bytes)
    (publicKey : bytes) (type : option Z) (sessionId : string)
    (sessionCounter : Z) (value : bytes) : Prop :=
  from_base64 D (pubKey (publicData m)) = Some publicKey
  /\ verifySignature D
       {| sc_nonce := nonce m;
          sc_ciphertext := ciphertext m;
          sc_publicData := string_to_base64 D (canonicalize D (publicData m)) |}
       (signature m) publicKey = Some true
  /\ exists content,
       decryptContent D m key = Some content
       /\ decodeHeader D content = Some (type, sessionId, sessionCounter, value).

(** The object [{ validSessions }]. *)
Definition onlyValidSessions (validSessions : gmap string Session) : Result :=
  {| r_error := None; r_content := None; r_proof := None;
     r_requestProof := None; r_validSessions := Some validSessions |}.

End Ephemeral.

(* ===================================================================== *)
(** ** The backend's update store *)
(* ===================================================================== *)

Module Server.

(** A Prisma [JsonValue], the type of the [clocks] column.  The entries of
    an object are the clocks this function itself writes, which are
    numbers. *)
Inductive JsonValue :=
| JsonNull
| JsonBoolean (b : bool)
| JsonNumber (n : Z)
| JsonString (s : string)
| JsonArray (items : list Z)
| JsonObject (entries : gmap string Z).

Record DocumentRow := {
  activeSnapshotId : option string
}.

Record SnapshotRow := {
  documentId : string;
  latestVersion : Z;
  clocks : JsonValue
}.

Record UpdateRow := {
  data : Update;
  version : Z;
  snapshotId : string;
  snapshotVersion : Z;
  row_pubKey : string
}.

Record Database := {
  documents : gmap string DocumentRow;
  snapshots : gmap string SnapshotRow;
  updates : list UpdateRow
}.

(** A computation inside [prisma.$transaction]: it reads and writes the
    tables, and may throw. *)
Definition Tx (A : Type) : Type := Database -> string + (A * Database).

Definition throw {A} (e : string) : Tx A := fun _ => inl e.

#[export] Instance tx_ret : MRet Tx := fun A (a : A) db => inr (a, db).

#[export] Instance tx_bind : MBind Tx := fun A B (k : A -> Tx B) (m : Tx A) db =>
  match m db with
  | inl e => inl e
  | inr (a, db') => k a db'
  end.

(** [prisma.$transaction]: the writes of a body that throws are rolled
    back. *)
Definition transaction {A} (body : Tx A) (db : Database)
  : Database * (string + A) :=
  match body db with
  | inl e => (db, inl e)
  | inr (a, db') => (db', inr a)
  end.

(** [prisma.snapshot.findUniqueOrThrow] with the selection of the source:
    the snapshot's [latestVersion] and [clocks], and its document's
    [activeSnapshotId]. *)
Definition snapshot_findUniqueOrThrow (id : string)
  : Tx (SnapshotRow * DocumentRow) :=
  fun db =>
    match snapshots db !! id with
    | None => inl "NotFoundError"
    | Some s =>
        match documents db !! documentId s with
        | None => inl "NotFoundError"
        | Some d => inr ((s, d), db)
        end
    end.

(** [prisma.snapshot.update({ where: { id }, data: { latestVersion, clocks } })] *)
Definition snapshot_update (id : string) (newLatestVersion : Z)
    (newClocks : JsonValue) : Tx unit :=
  fun db =>
    match snapshots db !! id with
    | None => inl "NotFoundError"
    | Some s =>
        inr (tt,
             {| documents := documents db;
                snapshots :=
                  <[id := {| documentId := documentId s;
                             latestVersion := newLatestVersion;
                             clocks := newClocks |}]> (snapshots db);
                updates := updates db |})
    end.

(** [prisma.update.create({ data })] *)
Definition update_create (row : UpdateRow) : Tx UpdateRow :=
  fun db =>
    inr (row,
         {| documents := documents db;
            snapshots := snapshots db;
            updates := updates db ++ [row] |}).

(** The property names every plain object inherits from [Object.prototype]
    (ECMAScript 20.1.3 and B.2.2): the stored clocks are such an object. *)
Definition objectPrototypeNames : list string :=
  ["constructor"; "hasOwnProperty"; "isPrototypeOf"; "propertyIsEnumerable";
   "toLocaleString"; "toString"; "valueOf"; "__proto__";
   "__defineGetter__"; "__defineSetter__"; "__lookupGetter__";
   "__lookupSetter__"].

Definition isInherited (name : string) : bool :=
  existsb (String.eqb name) objectPrototypeNames.

(** What [snapshot.clocks[name]] reads from a clocks object with the own
    entries [entries]: the own entry when there is one; otherwise the
    inherited function (for [__proto__], the prototype) when [name] is
    inherited; otherwise [undefined]. *)
Inductive PropertyRead :=
| Undefined
| OwnNumber (n : Z)
| Inherited.

Definition getProperty (entries : gmap string Z) (name : string)
  : PropertyRead :=
  match entries !! name with
  | Some n => OwnNumber n
  | None => if isInherited name then Inherited else Undefined
  end.

(** Lines 26-48: the clock of the author is checked and advanced when the
    stored [clocks] is a JSON object (not [null], not an array, not a
    primitive); any other stored value is passed through unchanged.  Line 31
    compares what the property read gives with [undefined], so an inherited
    value takes the branch of line 38, where [value + 1] is a string and
    never [===] the update's clock. *)
Definition checkClocks (stored : JsonValue) (update : Update)
  : Tx JsonValue :=
  match stored with
  | JsonObject entries =>
      match getProperty entries (pubKey (publicData update)) with
      | Undefined =>
          if negb (clock (publicData update) =? 0)
          then throw "Update clock incorrect."
          else mret (JsonObject
                      (<[pubKey (publicData update) :=
                           clock (publicData update)]> entries))
      | OwnNumber storedClock =>
          if negb (storedClock + 1 =? clock (publicData update))
          then throw "Update clock incorrect."
          else mret (JsonObject
                      (<[pubKey (publicData update) :=
                           clock (publicData update)]> entries))
      | Inherited => throw "Update clock incorrect."
      end
  | other => mret other
  end.

(** The body handed to [prisma.$transaction]. *)
Definition createUpdate_body (update : Update) : Tx UpdateRow :=
  '(snapshotRow, document) ←
    snapshot_findUniqueOrThrow (refSnapshotId (publicData update));
  if negb (bool_decide (activeSnapshotId document
                        = Some (refSnapshotId (publicData update))))
  then throw "Update referencing an out of date snapshot."
  else
    newClocks ← checkClocks (clocks snapshotRow) update;
    snapshot_update (refSnapshotId (publicData update))
      (latestVersion snapshotRow + 1) newClocks;;
    update_create
      {| data := update;
         version := latestVersion snapshotRow + 1;
         snapshotId := refSnapshotId (publicData update);
         snapshotVersion := clock (publicData update);
         row_pubKey := pubKey (publicData update) |}.

(** [createUpdate({ update })]; [serializeUpdate] (../utils/serialize) is a
    parameter. *)
Definition createUpdate {A} (serializeUpdate : UpdateRow -> A)
    (update : Update) (db : Database) : Database * (string + A) :=
  transaction (row ← createUpdate_body update;
               mret (serializeUpdate row)) db.

(** The row that is created for an accepted [update] on the snapshot row
    [s], and the store once it is accepted with the new clocks
    [newClocks]: used to state what [createUpdate] persists. *)
Definition acceptedRow (s : SnapshotRow) (update : Update) : UpdateRow :=
  {| data := update;
     version := latestVersion s + 1;
     snapshotId := refSnapshotId (publicData update);
     snapshotVersion := clock (publicData update);
     row_pubKey := pubKey (publicData update) |}.

Definition acceptedStore (db : Database) (s : SnapshotRow) (update : Update)
    (newClocks : JsonValue) : Database :=
  {| documents := documents db;
     snapshots :=
       <[refSnapshotId (publicData update) :=
           {| documentId := documentId s;
              latestVersion := latestVersion s + 1;
              clocks := newClocks |}]> (snapshots db);
     updates := updates db ++ [acceptedRow s update] |}.

(** The updates of a list submitted one after the other, as the backend
    does for the update messages it receives: the store after all of them
    and the outcome of each. *)
Fixpoint createUpdates {A} (serializeUpdate : UpdateRow -> A)
    (updates : list Update) (db : Database)
  : Database * list (string + A) :=
  match updates with
  | [] => (db, [])
  | update :: rest =>
      let '(db', outcome) := createUpdate serializeUpdate update db in
      let '(db'', outcomes) := createUpdates serializeUpdate rest db' in
      (db'', outcome :: outcomes)
  end.

(** Whether a stored clocks value is a JSON object. *)
Definition isJsonObject (v : JsonValue) : bool :=
  match v with
  | JsonObject _ => true
  | _ => false
  end.

(** The rows that are stored for a list of updates accepted one after the
    other on a snapshot whose [latestVersion] was [latest]. *)
Definition acceptedRows (latest : Z) (updates : list Update)
  : list UpdateRow :=
  imap (fun i update =>
          {| data := update;
             version := latest + 1 + Z.of_nat i;
             snapshotId := refSnapshotId (publicData update);
             snapshotVersion := clock (publicData update);
             row_pubKey := pubKey (publicData update) |}) updates.

(** The updates are all of [author] on the snapshot [ref], with the clocks
    [next], [next + 1], ... in this order. *)
Definition consecutiveFrom (ref author : string) (next : Z)
    (updates : list Update) : Prop :=
  forall i update,
    updates !! i = Some update ->
    refSnapshotId (publicData update) = ref
    /\ pubKey (publicData update) = author
    /\ clock (publicData update) = next + Z.of_nat i.

(** The clock [next] is the one the stored entries expect of [author]: 0
    without an entry, for an author whose key is not an inherited property
    name, and the stored clock + 1 with an entry. *)
Definition expectsClock (entries : gmap string Z) (author : string)
    (next : Z) : Prop :=
  (entries !! author = None /\ isInherited author = false /\ next = 0)
  \/ entries !! author = Some (next - 1).

End Server.


(* ===================================================================== *)
(** ** The update codec *)
(* ===================================================================== *)

Module UpdateCodec.

(** The cryptographic collaborators of the codec: libsodium's base64 codecs,
    detached Ed25519 signatures and XChaCha20-Poly1305, and [canonicalize].
    The nonce that [createUpdate] draws at random is an argument here. *)
Record Deps := {
  canonicalize : UpdatePublicData -> string;
  string_to_base64 : string -> string;
  to_base64 : bytes -> string;
  from_base64 : string -> option bytes;
  derivePublicKey : bytes -> bytes;
  sign : SignedContent -> bytes -> string;
  verifySignature : SignedContent -> string -> bytes -> bool;
  encryptAead : bytes -> string -> bytes -> string -> bytes;
  decryptAead : bytes -> string -> bytes -> string -> option bytes
}.

(** What the codec relies on from its collaborators.  The signature scheme
    is idealised: a signature verifies under a public key only if it is the
    signature of that very content with the matching private key. *)
Record Laws (D : Deps) : Prop := {
  from_to_base64 : forall b, from_base64 D (to_base64 D b) = Some b;
  verify_sign : forall c sk,
    verifySignature D c (sign D c sk) (derivePublicKey D sk) = true;
  verify_unique : forall c s sk,
    verifySignature D c s (derivePublicKey D sk) = true -> s = sign D c sk;
  sign_inj : forall c c' sk, sign D c sk = sign D c' sk -> c = c';
  decrypt_encrypt : forall m ad k n,
    decryptAead D (encryptAead D m ad k n) ad k n = Some m
}.

(** The object [verifyAndDecryptUpdate] returns; an absent property is
    [None], and the object with no property at all means "ignore". *)
Record Result := {
  u_content : option bytes;
  u_clock : option Z;
  u_error : option string
}.

Definition ignored : Result :=
  {| u_content := None; u_clock := None; u_error := None |}.

Definition errorResult (code : string) : Result :=
  {| u_content := None; u_clock := None; u_error := Some code |}.

Definition signedContent (D : Deps) (update : Update) : SignedContent :=
  {| sc_nonce := nonce update;
     sc_ciphertext := ciphertext update;
     sc_publicData := string_to_base64 D (canonicalize D (publicData update)) |}.

(** Modelled from the spec: [createUpdate] of ./createUpdate, whose source
    is not embedded here.  "createUpdate(content, publicData, key,
    signingKey, clock) sets publicData.clock = clock, encrypts and signs as
    above", that is: encrypts the content under the key with a fresh nonce
    and the base64 of the canonical public data as associated data, and signs
    [{nonce, ciphertext, ADbase64}]. *)
Definition createUpdate (D : Deps) (content : bytes)
    (publicData : UpdatePublicData) (key : bytes)
    (signatureKeyPair : KeyPair) (clock : Z) (publicNonce : string)
  : Update :=
  let publicDataWithClock :=
    {| refSnapshotId := refSnapshotId publicData;
       docId := docId publicData;
       pubKey := pubKey publicData;
       clock := clock |} in
  let publicDataAsBase64 :=
    string_to_base64 D (canonicalize D publicDataWithClock) in
  let ciphertext :=
    to_base64 D (encryptAead D content publicDataAsBase64 key publicNonce) in
  {| ciphertext := ciphertext;
     nonce := publicNonce;
     signature :=
       sign D {| sc_nonce := publicNonce;
                 sc_ciphertext := ciphertext;
                 sc_publicData := publicDataAsBase64 |}
         (privateKey signatureKeyPair);
     publicData := publicDataWithClock |}.

(** Modelled from the spec: [verifyAndDecryptUpdate] of
    ./verifyAndDecryptUpdate, whose source is not embedded here.
    "verifyAndDecryptUpdate(update, key, currentActiveSnapshotId,
    authorPubKey, currentClock, skipIfCurrentClockIsHigher,
    skipIfUpdateAuthoredByCurrentClient, ...) returns one of: {content,
    clock} on success; {error} with a tagged error code on failure; or an
    empty object to signal ignore (e.g. client authored it, or clock below
    current and skip flag set)", with SECSYNC_ERROR_212 for "signature
    invalid OR AEAD tag mismatch", SECSYNC_ERROR_213 for a [refSnapshotId]
    that is not the caller's active snapshot and SECSYNC_ERROR_214 for a
    clock that "is not exactly currentClock + 1".

    The checks are taken in the order the spec gives for the sibling
    [verifyAndDecryptSnapshot] (signature first, decryption last) and in
    which [Ephemeral.verifyAndDecryptEphemeralMessage] takes them; the
    signature is verified under [publicData.pubKey], as it is there.  The
    tests of update.test.ts fix the rest: a foreign snapshot id is reported
    before the clock is looked at, and the fourth argument is the base64
    public key an update's author is compared with when
    [skipIfUpdateAuthoredByCurrentClient] is set. *)
Definition verifyAndDecryptUpdate (D : Deps) (update : Update) (key : bytes)
    (currentActiveSnapshotId : string) (authorPubKey : string)
    (currentClock : Z) (skipIfCurrentClockIsHigher : bool)
    (skipIfUpdateAuthoredByCurrentClient : bool) : Result :=
  match from_base64 D (pubKey (publicData update)) with
  | None => errorResult "SECSYNC_ERROR_212"
  | Some publicKey =>
      if negb (verifySignature D (signedContent D update)
                 (signature update) publicKey)
      then errorResult "SECSYNC_ERROR_212"
      else if negb (String.eqb currentActiveSnapshotId
                      (refSnapshotId (publicData update)))
      then errorResult "SECSYNC_ERROR_213"
      else if skipIfUpdateAuthoredByCurrentClient
              && String.eqb authorPubKey (pubKey (publicData update))
      then ignored
      else if skipIfCurrentClockIsHigher
              && (clock (publicData update) <? currentClock)
      then ignored
      else if negb (currentClock + 1 =? clock (publicData update))
      then errorResult "SECSYNC_ERROR_214"
      else
        match
          ct ← from_base64 D (ciphertext update);
          decryptAead D ct (sc_publicData (signedContent D update)) key
            (nonce update)
        with
        | Some content =>
            {| u_content := Some content;
               u_clock := Some (clock (publicData update));
               u_error := None |}
        | None => errorResult "SECSYNC_ERROR_212"
        end
  end.

(** [authentic D update]: the signature of the update verifies under the
    public key its public data names. *)
Definition authentic (D : Deps) (update : Update) : Prop :=
  exists publicKey,
    from_base64 D (pubKey (publicData update)) = Some publicKey
    /\ verifySignature D (signedContent D update) (signature update) publicKey
       = true.

(** [decryptsTo D update key content]: the ciphertext of the update decrypts
    under [key], with the update's public data as associated data, to
    [content]. *)
Definition decryptsTo (D : Deps) (update : Update) (key : bytes)
    (content : bytes) : Prop :=
  exists ct,
    from_base64 D (ciphertext update) = Some ct
    /\ decryptAead D ct (sc_publicData (signedContent D update)) key
         (nonce update) = Some content.

(** The update with another signature, and with another ciphertext. *)
Definition withSignature (update : Update) (s : string) : Update :=
  {| ciphertext := ciphertext update; nonce := nonce update;
     signature := s; publicData := publicData update |}.

Definition withCiphertext (update : Update) (c : string) : Update :=
  {| ciphertext := c; nonce := nonce update;
     signature := signature update; publicData := publicData update |}.

End UpdateCodec.


(* ===================================================================== *)
(** ** The sync machine: document loading and the ephemeral error buffers *)
(* ===================================================================== *)

Module SyncMachine.

Inductive DocumentDecryptionState := pending | partial | complete | failed.

Inductive MachineState :=
| Disconnected
| Connecting
| ConnectedIdle
| Failed.

(** A snapshot as delivered in a [document] frame: the client only looks at
    its id here; opening it is a collaborator's work. *)
Record Snapshot := {
  snapshotId : string;
  snapshotAuthor : string;
  snapshotCiphertext : string
}.

(** An update of a [document] frame with its [serverData.version]. *)
Record ServerUpdate := {
  update : Update;
  serverVersion : Z
}.

(** What the host observes: the calls of its apply callbacks, oldest
    first. *)
Inductive HostCall :=
| applySnapshot (plaintext : bytes)
| applyChanges (changes : bytes)
| applyEphemeralMessage (content : bytes) (senderPubKey : string).

(** The machine's configuration and collaborators.
    [verifyAndDecryptSnapshot] stands for the whole opening of a snapshot
    (key lookup, author check, signature, parent proof, decryption): its
    result is the plaintext or an error code. *)
Record Env := {
  updateDeps : UpdateCodec.Deps;
  ephemeralDeps : Ephemeral.Deps;
  documentId : string;
  signatureKeyPair : KeyPair;
  snapshotKey : bytes;
  ephemeralMessageKey : bytes;
  isValidClient : string -> bool;
  verifyAndDecryptSnapshot : Snapshot -> string + bytes
}.

Record Context := {
  _documentDecryptionState : DocumentDecryptionState;
  _activeSnapshotId : option string;
  _latestServerVersion : option Z;
  _snapshotInfosWithUpdateClocks : gmap string Z;
  _updatesLocalClock : Z;
  _ephemeralMessagesSession : Ephemeral.EphemeralMessagesSession;
  _ephemeralMessageReceivingErrors : list string;
  _ephemeralMessageAuthoringErrors : list string;
  hostCalls : list HostCall
}.

(** Modelled from the spec: the capacity of the two error buffers, "two
    ring-buffers of size 20 for receiving and authoring ephemeral errors". *)
Definition errorBufferCapacity : nat := 20.

(** Modelled from the spec: recording an error, "appends to the
    authoring-error ring buffer (capacity 20, oldest dropped)".  The newest
    error is kept at index 0, as the test "store not more than 20 failed
    creating ephemeral message errors" reads the buffer. *)
Definition recordError (error : string) (errors : list string) : list string :=
  take errorBufferCapacity (error :: errors).

(** Modelled from the spec: "Reset on (re)connect": the per-connection
    context is cleared, with a fresh ephemeral session. *)
Definition resetContext (freshSession : Ephemeral.EphemeralMessagesSession)
    (ctx : Context) : Context :=
  {| _documentDecryptionState := pending;
     _activeSnapshotId := _activeSnapshotId ctx;
     _latestServerVersion := _latestServerVersion ctx;
     _snapshotInfosWithUpdateClocks := ∅;
     _updatesLocalClock := -1;
     _ephemeralMessagesSession := freshSession;
     _ephemeralMessageReceivingErrors := [];
     _ephemeralMessageAuthoringErrors := [];
     hostCalls := hostCalls ctx |}.

Definition initialContext (session : Ephemeral.EphemeralMessagesSession)
  : Context :=
  {| _documentDecryptionState := pending;
     _activeSnapshotId := None;
     _latestServerVersion := None;
     _snapshotInfosWithUpdateClocks := ∅;
     _updatesLocalClock := -1;
     _ephemeralMessagesSession := session;
     _ephemeralMessageReceivingErrors := [];
     _ephemeralMessageAuthoringErrors := [];
     hostCalls := [] |}.

(** The context after an update of the active snapshot was applied. *)
Definition updateApplied (ctx : Context) (u : ServerUpdate)
    (content : bytes) (clock : Z) : Context :=
  {| _documentDecryptionState := _documentDecryptionState ctx;
     _activeSnapshotId := _activeSnapshotId ctx;
     _latestServerVersion := Some (serverVersion u);
     _snapshotInfosWithUpdateClocks :=
       <[pubKey (publicData (update u)) := clock]>
         (_snapshotInfosWithUpdateClocks ctx);
     _updatesLocalClock := _updatesLocalClock ctx;
     _ephemeralMessagesSession := _ephemeralMessagesSession ctx;
     _ephemeralMessageReceivingErrors := _ephemeralMessageReceivingErrors ctx;
     _ephemeralMessageAuthoringErrors := _ephemeralMessageAuthoringErrors ctx;
     hostCalls := hostCalls ctx ++ [applyChanges content] |}.

(** One attached update is verified and decrypted "against
    (activeSnapshotId, authorPubKey, perAuthorClock)"; an author without an
    entry has clock -1, so that the first update is expected with clock 0. *)
Definition verifyAttachedUpdate (E : Env) (ctx : Context) (u : ServerUpdate)
  : UpdateCodec.Result :=
  UpdateCodec.verifyAndDecryptUpdate (updateDeps E) (update u) (snapshotKey E)
    (default "" (_activeSnapshotId ctx))
    (pubKey (publicData (update u)))
    (default (-1) (_snapshotInfosWithUpdateClocks ctx
                     !! pubKey (publicData (update u))))
    false false.

(** Modelled from the spec: the loop over the updates of a [document] frame,
    "iterate the attached updates in order ... the first failure stops
    iteration".  The result is the context after the updates that were
    applied, and the error of the update that stopped the loop, if any. *)
Fixpoint processUpdates (E : Env) (ctx : Context) (updates : list ServerUpdate)
  : Context * option string :=
  match updates with
  | [] => (ctx, None)
  | u :: rest =>
      let result := verifyAttachedUpdate E ctx u in
      match UpdateCodec.u_error result with
      | Some e => (ctx, Some e)
      | None =>
          match UpdateCodec.u_content result, UpdateCodec.u_clock result with
          | Some content, Some clock =>
              processUpdates E (updateApplied ctx u content clock) rest
          | _, _ => processUpdates E ctx rest
          end
      end
  end.

Definition setDocumentDecryptionState (s : DocumentDecryptionState)
    (ctx : Context) : Context :=
  {| _documentDecryptionState := s;
     _activeSnapshotId := _activeSnapshotId ctx;
     _latestServerVersion := _latestServerVersion ctx;
     _snapshotInfosWithUpdateClocks := _snapshotInfosWithUpdateClocks ctx;
     _updatesLocalClock := _updatesLocalClock ctx;
     _ephemeralMessagesSession := _ephemeralMessagesSession ctx;
     _ephemeralMessageReceivingErrors := _ephemeralMessageReceivingErrors ctx;
     _ephemeralMessageAuthoringErrors := _ephemeralMessageAuthoringErrors ctx;
     hostCalls := hostCalls ctx |}.

(** The context once the snapshot of a [document] frame was opened: "set
    activeSnapshotId and reset updatesLocalClock=-1". *)
Definition snapshotApplied (ctx : Context) (snapshot : Snapshot)
    (plaintext : bytes) : Context :=
  {| _documentDecryptionState := _documentDecryptionState ctx;
     _activeSnapshotId := Some (snapshotId snapshot);
     _latestServerVersion := None;
     _snapshotInfosWithUpdateClocks := ∅;
     _updatesLocalClock := -1;
     _ephemeralMessagesSession := _ephemeralMessagesSession ctx;
     _ephemeralMessageReceivingErrors := _ephemeralMessageReceivingErrors ctx;
     _ephemeralMessageAuthoringErrors := _ephemeralMessageAuthoringErrors ctx;
     hostCalls := hostCalls ctx ++ [applySnapshot plaintext] |}.

(** Modelled from the spec: the handling of a [document] frame that carries
    a snapshot.  "verify&decrypt the snapshot (failure → failed,
    documentDecryptionState=failed) ... then iterate the attached updates in
    order ... the first failure stops iteration, records
    documentDecryptionState=partial, and transitions to failed.  If all
    succeed, documentDecryptionState=complete." *)
Definition handleDocument (E : Env) (ctx : Context) (snapshot : Snapshot)
    (updates : list ServerUpdate) : MachineState * Context :=
  match verifyAndDecryptSnapshot E snapshot with
  | inl _ => (Failed, setDocumentDecryptionState failed ctx)
  | inr plaintext =>
      match processUpdates E (snapshotApplied ctx snapshot plaintext) updates with
      | (ctx', Some _) => (Failed, setDocumentDecryptionState partial ctx')
      | (ctx', None) => (ConnectedIdle, setDocumentDecryptionState complete ctx')
      end
  end.

Definition setReceivingErrors (errors : list string) (ctx : Context)
  : Context :=
  {| _documentDecryptionState := _documentDecryptionState ctx;
     _activeSnapshotId := _activeSnapshotId ctx;
     _latestServerVersion := _latestServerVersion ctx;
     _snapshotInfosWithUpdateClocks := _snapshotInfosWithUpdateClocks ctx;
     _updatesLocalClock := _updatesLocalClock ctx;
     _ephemeralMessagesSession := _ephemeralMessagesSession ctx;
     _ephemeralMessageReceivingErrors := errors;
     _ephemeralMessageAuthoringErrors := _ephemeralMessageAuthoringErrors ctx;
     hostCalls := hostCalls ctx |}.

Definition setAuthoringErrors (errors : list string) (ctx : Context)
  : Context :=
  {| _documentDecryptionState := _documentDecryptionState ctx;
     _activeSnapshotId := _activeSnapshotId ctx;
     _latestServerVersion := _latestServerVersion ctx;
     _snapshotInfosWithUpdateClocks := _snapshotInfosWithUpdateClocks ctx;
     _updatesLocalClock := _updatesLocalClock ctx;
     _ephemeralMessagesSession := _ephemeralMessagesSession ctx;
     _ephemeralMessageReceivingErrors := _ephemeralMessageReceivingErrors ctx;
     _ephemeralMessageAuthoringErrors := errors;
     hostCalls := hostCalls ctx |}.

(** The context after an ephemeral message was decoded without an error:
    the valid sessions the codec returned replace the stored ones, and a
    decoded content is handed to the host. *)
Definition ephemeralMessageHandled (ctx : Context)
    (m : Ephemeral.EphemeralMessage) (r : Ephemeral.Result) : Context :=
  let session := _ephemeralMessagesSession ctx in
  {| _documentDecryptionState := _documentDecryptionState ctx;
     _activeSnapshotId := _activeSnapshotId ctx;
     _latestServerVersion := _latestServerVersion ctx;
     _snapshotInfosWithUpdateClocks := _snapshotInfosWithUpdateClocks ctx;
     _updatesLocalClock := _updatesLocalClock ctx;
     _ephemeralMessagesSession :=
       {| Ephemeral.id := Ephemeral.id session;
          Ephemeral.counter := Ephemeral.counter session;
          Ephemeral.validSessions :=
            default (Ephemeral.validSessions session)
              (Ephemeral.r_validSessions r) |};
     _ephemeralMessageReceivingErrors := _ephemeralMessageReceivingErrors ctx;
     _ephemeralMessageAuthoringErrors := _ephemeralMessageAuthoringErrors ctx;
     hostCalls :=
       match Ephemeral.r_content r with
       | Some content =>
           hostCalls ctx
           ++ [applyEphemeralMessage content
                 (Ephemeral.pubKey (Ephemeral.publicData m))]
       | None => hostCalls ctx
       end |}.

(** Modelled from the spec: an incoming [ephemeral-message] "is decoded per
    §4.1 ... any decoded content is passed to the host's
    applyEphemeralMessage.  Errors land in the receiving-error ring buffer
    (capacity 20)"; a sender that [isValidClient] refuses is
    SECSYNC_ERROR_24. *)
Definition handleEphemeralMessage (E : Env) (ctx : Context)
    (m : Ephemeral.EphemeralMessage) : Context :=
  if negb (isValidClient E (Ephemeral.pubKey (Ephemeral.publicData m))) then
    setReceivingErrors
      (recordError "SECSYNC_ERROR_24" (_ephemeralMessageReceivingErrors ctx))
      ctx
  else
    let r :=
      Ephemeral.verifyAndDecryptEphemeralMessage (ephemeralDeps E) m
        (ephemeralMessageKey E) (documentId E)
        (_ephemeralMessagesSession ctx) (signatureKeyPair E) in
    let ctx' := ephemeralMessageHandled ctx m r in
    match Ephemeral.r_error r with
    | Some e =>
        setReceivingErrors
          (recordError e (_ephemeralMessageReceivingErrors ctx')) ctx'
    | None => ctx'
    end.

(** The events of the machine that touch the document state and the error
    buffers.  An event that enters [connecting] carries the freshly drawn
    ephemeral session. *)
Inductive Event :=
| WEBSOCKET_RETRY (freshSession : Ephemeral.EphemeralMessagesSession)
| WEBSOCKET_CONNECTED
| WEBSOCKET_DISCONNECTED (freshSession : Ephemeral.EphemeralMessagesSession)
| INCOMING_DOCUMENT (snapshot : Snapshot) (updates : list ServerUpdate)
| INCOMING_EPHEMERAL_MESSAGE (m : Ephemeral.EphemeralMessage)
| FAILED_CREATING_EPHEMERAL_UPDATE (error : string).

Record Machine := {
  state : MachineState;
  context : Context
}.

(** Modelled from the spec: the transition function, one queued event
    processed to completion.  [Failed] is terminal. *)
Definition step (E : Env) (m : Machine) (ev : Event) : Machine :=
  match state m, ev with
  | Failed, _ => m
  | _, WEBSOCKET_RETRY fresh
  | _, WEBSOCKET_DISCONNECTED fresh =>
      {| state := Connecting; context := resetContext fresh (context m) |}
  | Connecting, WEBSOCKET_CONNECTED =>
      {| state := ConnectedIdle; context := context m |}
  | ConnectedIdle, INCOMING_DOCUMENT snapshot updates =>
      let '(s, ctx) := handleDocument E (context m) snapshot updates in
      {| state := s; context := ctx |}
  | ConnectedIdle, INCOMING_EPHEMERAL_MESSAGE msg =>
      {| state := ConnectedIdle;
         context := handleEphemeralMessage E (context m) msg |}
  | s, FAILED_CREATING_EPHEMERAL_UPDATE error =>
      {| state := s;
         context :=
           setAuthoringErrors
             (recordError error
                (_ephemeralMessageAuthoringErrors (context m)))
             (context m) |}
  | _, _ => m
  end.

Definition run (E : Env) (m : Machine) (events : list Event) : Machine :=
  fold_left (step E) events m.

Definition initialMachine (session : Ephemeral.EphemeralMessagesSession)
  : Machine :=
  {| state := Disconnected; context := initialContext session |}.

(** The states the machine can be in: those some run from the initial
    machine ends in. *)
Definition reachable (E : Env) (m : Machine) : Prop :=
  exists session events, m = run E (initialMachine session) events.

(** [appliesAll E ctx updates contents ctx']: starting in [ctx], every update
    of [updates] in turn verifies and decrypts, to the respective element of
    [contents], and [ctx'] is the context after all of them were applied. *)
Inductive appliesAll (E : Env)
  : Context -> list ServerUpdate -> list bytes -> Context -> Prop :=
| appliesAll_nil ctx : appliesAll E ctx [] [] ctx
| appliesAll_cons ctx u content clock rest contents ctx' :
    verifyAttachedUpdate E ctx u
    = {| UpdateCodec.u_content := Some content;
         UpdateCodec.u_clock := Some clock;
         UpdateCodec.u_error := None |} ->
    appliesAll E (updateApplied ctx u content clock) rest contents ctx' ->
    appliesAll E ctx (u :: rest) (content :: contents) ctx'.

(** Both buffers are within the capacity. *)
Definition withinCapacity (ctx : Context) : Prop :=
  (length (_ephemeralMessageReceivingErrors ctx) <= 20)%nat
  /\ (length (_ephemeralMessageAuthoringErrors ctx) <= 20)%nat.

(** Recording the errors of a list one after the other, the first of the
    list first. *)
Definition recordErrors (errors : list string) (buffer : list string)
  : list string :=
  fold_left (fun buf e => recordError e buf) errors buffer.

(** The error an incoming ephemeral message fails with in the context
    [ctx], if it fails: SECSYNC_ERROR_24 for a sender that is not a valid
    client, otherwise the error of the codec's result. *)
Definition receivingFailure (E : Env) (ctx : Context)
    (m : Ephemeral.EphemeralMessage) : option string :=
  if negb (isValidClient E (Ephemeral.pubKey (Ephemeral.publicData m))) then
    Some "SECSYNC_ERROR_24"
  else
    Ephemeral.r_error
      (Ephemeral.verifyAndDecryptEphemeralMessage (ephemeralDeps E) m
         (ephemeralMessageKey E) (documentId E)
         (_ephemeralMessagesSession ctx) (signatureKeyPair E)).

(** The errors of the messages of a list that fail, in the order of the
    messages, when they are handled one after the other from [ctx]. *)
Fixpoint receivingFailures (E : Env) (ctx : Context)
    (msgs : list Ephemeral.EphemeralMessage) : list string :=
  match msgs with
  | [] => []
  | m :: rest =>
      match receivingFailure E ctx m with
      | Some e => e :: receivingFailures E (handleEphemeralMessage E ctx m) rest
      | None => receivingFailures E (handleEphemeralMessage E ctx m) rest
      end
  end.

End SyncMachine.

(* ===================================================================== *)
(** ** A small executable instance of the collaborators *)
(* ===================================================================== *)

(** The theorems below hold for any collaborators (that satisfy the laws a
    theorem names).  This instance makes them run: base64 is the identity
    on byte strings, a signature is the binary code of what is signed
    and of the key (the public key of a private key is the key
    itself), a ciphertext is the key followed by the plaintext, and a
    session proof is the two session ids followed by the key. *)
Module Toy.

Fixpoint bits (p : positive) : string :=
  match p with
  | xH => ""
  | xO q => String "0"%char (bits q)
  | xI q => String "1"%char (bits q)
  end.

Definition sign (c : SignedContent) (sk : bytes) : string :=
  bits (encode (sc_nonce c, sc_ciphertext c, sc_publicData c,
                string_of_list_byte sk)).

Definition verifySignature (c : SignedContent) (s : string) (pk : bytes)
  : bool :=
  String.eqb s (sign c pk).

(** The verification the ephemeral codec calls.  The library's helper
    decodes the signature before it verifies it and throws when it cannot;
    here the signatures that decode are the strings of binary digits. *)
Fixpoint isBits (s : string) : bool :=
  match s with
  | EmptyString => true
  | String c rest =>
      (Ascii.eqb c "0" || Ascii.eqb c "1") && isBits rest
  end.

Definition verifySignatureOrThrow (c : SignedContent) (s : string)
    (pk : bytes) : option bool :=
  if isBits s then Some (verifySignature c s pk) else None.

Fixpoint stripPrefix (p l : bytes) : option bytes :=
  match p, l with
  | [], _ => Some l
  | a :: p', b :: l' => if Byte.eqb a b then stripPrefix p' l' else None
  | _ :: _, [] => None
  end.

Definition encryptAead (m : bytes) (ad : string) (k : bytes) (n : string)
  : bytes := k ++ m.

Definition decryptAead (ct : bytes) (ad : string) (k : bytes) (n : string)
  : option bytes := stripPrefix k ct.

Definition extractPrefix (bs : bytes) (amount : nat) : option (bytes * bytes) :=
  if (amount <=? length bs)%nat then Some (take amount bs, drop amount bs)
  else None.

Definition sessionProof (receiverSessionId senderSessionId : string)
    (sk : bytes) : bytes :=
  list_byte_of_string (receiverSessionId ++ senderSessionId)%string ++ sk.

Definition ephemeral : Ephemeral.Deps :=
  {| Ephemeral.canonicalize := fun pd =>
       (Ephemeral.docId pd ++ "|" ++ Ephemeral.pubKey pd)%string;
     Ephemeral.string_to_base64 := fun s => s;
     Ephemeral.to_base64 := string_of_list_byte;
     Ephemeral.from_base64 := fun s => Some (list_byte_of_string s);
     Ephemeral.verifySignature := verifySignatureOrThrow;
     Ephemeral.decryptAead := decryptAead;
     Ephemeral.extractPrefixFromUint8Array := extractPrefix;
     Ephemeral.createEphemeralMessageProof := fun receiver sender kp =>
       sessionProof receiver sender (privateKey kp);
     Ephemeral.verifyEphemeralSessionProof := fun proof receiver sender pk =>
       String.eqb (string_of_list_byte proof)
         (string_of_list_byte (sessionProof receiver sender pk)) |}.

Definition codec : UpdateCodec.Deps :=
  {| UpdateCodec.canonicalize := fun pd =>
       (refSnapshotId pd ++ "|" ++ docId pd ++ "|" ++ pubKey pd ++ "|"
        ++ pretty (clock pd))%string;
     UpdateCodec.string_to_base64 := fun s => s;
     UpdateCodec.to_base64 := string_of_list_byte;
     UpdateCodec.from_base64 := fun s => Some (list_byte_of_string s);
     UpdateCodec.derivePublicKey := fun sk => sk;
     UpdateCodec.sign := sign;
     UpdateCodec.verifySignature := verifySignature;
     UpdateCodec.encryptAead := encryptAead;
     UpdateCodec.decryptAead := decryptAead |}.

(** Two clients and a key. *)
Definition aliceKey : bytes := list_byte_of_string "alice".
Definition alice : KeyPair :=
  {| publicKey := aliceKey; privateKey := aliceKey; keyType := "ed25519" |}.
Definition bobKey : bytes := list_byte_of_string "bob".
Definition bob : KeyPair :=
  {| publicKey := bobKey; privateKey := bobKey; keyType := "ed25519" |}.
Definition key : bytes := list_byte_of_string "k".

(** Session ids are 24 bytes. *)
Definition aliceSessionId : string := "AAAAAAAAAAAAAAAAAAAAAAAA".
Definition bobSessionId : string := "BBBBBBBBBBBBBBBBBBBBBBBB".

(** An ephemeral message of [alice]: the plaintext has the layout
    [type | session id | counter, 4 bytes big-endian | body]. *)
Definition plaintext (type : byte) (counter : bytes) (body : bytes) : bytes :=
  type :: list_byte_of_string aliceSessionId ++ counter ++ body.

Definition ephemeralMessage (type : byte) (counter : bytes) (body : bytes)
    (docId : string) : Ephemeral.EphemeralMessage :=
  let publicData :=
    {| Ephemeral.docId := docId;
       Ephemeral.pubKey := string_of_list_byte aliceKey |} in
  let ciphertext :=
    string_of_list_byte
      (encryptAead (plaintext type counter body)
         (Ephemeral.canonicalize ephemeral publicData) key "n") in
  {| Ephemeral.ciphertext := ciphertext;
     Ephemeral.nonce := "n";
     Ephemeral.signature :=
       sign {| sc_nonce := "n"; sc_ciphertext := ciphertext;
               sc_publicData := Ephemeral.canonicalize ephemeral publicData |}
         aliceKey;
     Ephemeral.publicData := publicData |}.

(** A message of [alice] that seals an arbitrary plaintext, with or without
    a header. *)
Definition sealedMessage (content : bytes) (docId : string)
  : Ephemeral.EphemeralMessage :=
  let publicData :=
    {| Ephemeral.docId := docId;
       Ephemeral.pubKey := string_of_list_byte aliceKey |} in
  let ciphertext :=
    string_of_list_byte
      (encryptAead content (Ephemeral.canonicalize ephemeral publicData)
         key "n") in
  {| Ephemeral.ciphertext := ciphertext;
     Ephemeral.nonce := "n";
     Ephemeral.signature :=
       sign {| sc_nonce := "n"; sc_ciphertext := ciphertext;
               sc_publicData := Ephemeral.canonicalize ephemeral publicData |}
         aliceKey;
     Ephemeral.publicData := publicData |}.

(** The message [m] with the signature replaced. *)
Definition withSignature (m : Ephemeral.EphemeralMessage) (s : string)
  : Ephemeral.EphemeralMessage :=
  {| Ephemeral.ciphertext := Ephemeral.ciphertext m;
     Ephemeral.nonce := Ephemeral.nonce m;
     Ephemeral.signature := s;
     Ephemeral.publicData := Ephemeral.publicData m |}.

(** Bob's session, in which alice's session is valid with counter [c]. *)
Definition bobSession (c : Z) : Ephemeral.EphemeralMessagesSession :=
  {| Ephemeral.id := bobSessionId;
     Ephemeral.counter := 0;
     Ephemeral.validSessions :=
       {[ string_of_list_byte aliceKey :=
            {| Ephemeral.sessionId := aliceSessionId;
               Ephemeral.sessionCounter := c |} ]} |}.

(** A third client, and bob's session with the sessions of both alice
    (counter [c]) and carol (counter 40) valid. *)
Definition carolKey : bytes := list_byte_of_string "carol".
Definition carolSessionId : string := "CCCCCCCCCCCCCCCCCCCCCCCC".

Definition bobSessionWithCarol (c : Z) : Ephemeral.EphemeralMessagesSession :=
  {| Ephemeral.id := bobSessionId;
     Ephemeral.counter := 0;
     Ephemeral.validSessions :=
       <[ string_of_list_byte carolKey :=
            {| Ephemeral.sessionId := carolSessionId;
               Ephemeral.sessionCounter := 40 |} ]>
         (Ephemeral.validSessions (bobSession c)) |}.

End Toy.

(* ===================================================================== *)
(** ** A small store for the backend *)
(* ===================================================================== *)

Module Store.

(** A store with one document ["doc"] whose active snapshot ["snap"] is at
    version 3 and holds [clocks]. *)
Definition withClocks (clocks : Server.JsonValue) : Server.Database :=
  {| Server.documents :=
       {[ "doc" := {| Server.activeSnapshotId := Some "snap" |} ]};
     Server.snapshots :=
       {[ "snap" := {| Server.documentId := "doc";
                       Server.latestVersion := 3;
                       Server.clocks := clocks |} ]};
     Server.updates := [] |}.

(** An update of ["alice"] on ["snap"] with the given clock. *)
Definition updateWithClock (c : Z) : Update :=
  {| ciphertext := "c"; nonce := "n"; signature := "s";
     publicData := {| refSnapshotId := "snap"; docId := "doc";
                      pubKey := "alice"; clock := c |} |}.

(** An update of [author] on ["snap"] with the given clock. *)
Definition updateOf (author : string) (c : Z) : Update :=
  {| ciphertext := "c"; nonce := "n"; signature := "s";
     publicData := {| refSnapshotId := "snap"; docId := "doc";
                      pubKey := author; clock := c |} |}.

(** The row the backend stores for [updateWithClock c] at version 4. *)
Definition rowWithClock (c : Z) : Server.UpdateRow :=
  {| Server.data := updateWithClock c;
     Server.version := 4;
     Server.snapshotId := "snap";
     Server.snapshotVersion := c;
     Server.row_pubKey := "alice" |}.

End Store.

(* ===================================================================== *)
(** ** Sample updates *)
(* ===================================================================== *)

Module Sample.

(** Alice's updates of "Hello World" on the snapshot ["snap"], as the tests
    of the codec make them. *)
Definition publicData : UpdatePublicData :=
  {| refSnapshotId := "snap"; docId := "doc";
     pubKey := string_of_list_byte Toy.aliceKey; clock := 0 |}.

Definition helloWorld : bytes := list_byte_of_string "Hello World".

Definition update (c : Z) : Update :=
  UpdateCodec.createUpdate Toy.codec helloWorld publicData Toy.key Toy.alice
    c "n".

End Sample.

(* ===================================================================== *)
(** ** A sample machine *)
(* ===================================================================== *)

Module SampleMachine.

(** Bob's machine on the document ["doc"], with the executable
    collaborators; a snapshot opens to its ciphertext unless that is
    ["broken"]. *)
Definition env : SyncMachine.Env :=
  {| SyncMachine.updateDeps := Toy.codec;
     SyncMachine.ephemeralDeps := Toy.ephemeral;
     SyncMachine.documentId := "doc";
     SyncMachine.signatureKeyPair := Toy.bob;
     SyncMachine.snapshotKey := Toy.key;
     SyncMachine.ephemeralMessageKey := Toy.key;
     SyncMachine.isValidClient := fun pk =>
       String.eqb pk (string_of_list_byte Toy.aliceKey);
     SyncMachine.verifyAndDecryptSnapshot := fun s =>
       if String.eqb (SyncMachine.snapshotCiphertext s) "broken"
       then inl "SECSYNC_ERROR_101"
       else inr (list_byte_of_string (SyncMachine.snapshotCiphertext s)) |}.

Definition session : Ephemeral.EphemeralMessagesSession :=
  {| Ephemeral.id := Toy.bobSessionId; Ephemeral.counter := 0;
     Ephemeral.validSessions := ∅ |}.

Definition snapshot : SyncMachine.Snapshot :=
  {| SyncMachine.snapshotId := "snap";
     SyncMachine.snapshotAuthor := string_of_list_byte Toy.aliceKey;
     SyncMachine.snapshotCiphertext := "Hello World" |}.

(** The update of clock [c] as the server delivers it. *)
Definition serverUpdate (c : Z) : SyncMachine.ServerUpdate :=
  {| SyncMachine.update := Sample.update c; SyncMachine.serverVersion := c |}.

(** The machine once it is connected. *)
Definition connected : SyncMachine.Machine :=
  SyncMachine.run env (SyncMachine.initialMachine session)
    [SyncMachine.WEBSOCKET_RETRY session; SyncMachine.WEBSOCKET_CONNECTED].

(** The errors "Wrong ephemeral message key #0", ..., numbered from [from],
    [n] of them. *)
Fixpoint keyErrors (from : nat) (n : nat) : list string :=
  match n with
  | O => []
  | S n' => ("Wrong ephemeral message key #" ++ pretty from)%string
            :: keyErrors (S from) n'
  end.

End SampleMachine.

(* ===================================================================== *)
(** ** The backend's websocket endpoint *)
(* ===================================================================== *)

Module Backend.

(** [s.slice(1)]: the string without its first character. *)
Definition slice1 (s : string) : string :=
  match s with
  | EmptyString => ""
  | String _ rest => rest
  end.

(** [s.split(sep)[0]] for a separator of one character: the part of [s]
    before the first [sep], all of [s] when there is none. *)
Fixpoint splitHead (sep : ascii) (s : string) : string :=
  match s with
  | EmptyString => ""
  | String c rest =>
      if Ascii.eqb c sep then "" else String c (splitHead sep rest)
  end.

(** Whether the character occurs in the string. *)
Fixpoint occurs (c : ascii) (s : string) : bool :=
  match s with
  | EmptyString => false
  | String c' rest => Ascii.eqb c' c || occurs c rest
  end.

(** [request.url?.slice(1)?.split("?")[0] || ""], the document id a
    connection is for; [None] is a request without url. *)
Definition documentIdOfUrl (url : option string) : string :=
  match url with
  | None => ""
  | Some u =>
      let head := splitHead "?" (slice1 u) in
      if String.eqb head "" then "" else head
  end.

End Backend.

(* ===================================================================== *)
(** ** The client's websocket service *)
(* ===================================================================== *)

Module WebsocketService.

(** What [JSON.parse(event.data)] of line 63 gives for a frame: it throws
    a [SyntaxError]; or it gives [null], on which reading [data.type]
    throws; or it gives another value, of which [type] is [data.type] when
    that is a string and [None] otherwise (the [switch] compares with
    [===], so any other [data.type] takes the [default] case). *)
Inductive Parsed (Json : Type) :=
| ParseError
| ParsedNull
| ParsedValue (type : option string) (data : Json).

Arguments ParseError {Json}.
Arguments ParsedNull {Json}.
Arguments ParsedValue {Json} type data.

(** What the service sends to the sync machine with [send]. *)
Inductive MachineEvent (Json : Type) :=
| WEBSOCKET_CONNECTED
| WEBSOCKET_DISCONNECTED
| WEBSOCKET_DOCUMENT_NOT_FOUND
| WEBSOCKET_UNAUTHORIZED
| WEBSOCKET_DOCUMENT_ERROR
| WEBSOCKET_ADD_TO_INCOMING_QUEUE (data : Json)
| WEBSOCKET_ADD_TO_CUSTOM_MESSAGE_QUEUE (data : Json)
| SEND (message : string)
| FAILED_CREATING_EPHEMERAL_UPDATE (error : string).

Arguments WEBSOCKET_CONNECTED {Json}.
Arguments WEBSOCKET_DISCONNECTED {Json}.
Arguments WEBSOCKET_DOCUMENT_NOT_FOUND {Json}.
Arguments WEBSOCKET_UNAUTHORIZED {Json}.
Arguments WEBSOCKET_DOCUMENT_ERROR {Json}.
Arguments WEBSOCKET_ADD_TO_INCOMING_QUEUE {Json} data.
Arguments WEBSOCKET_ADD_TO_CUSTOM_MESSAGE_QUEUE {Json} data.
Arguments SEND {Json} message.
Arguments FAILED_CREATING_EPHEMERAL_UPDATE {Json} error.

Definition isSend {Json : Type} (e : MachineEvent Json) : bool :=
  match e with
  | SEND _ => true
  | _ => false
  end.

(** The [case] labels that share the incoming queue with [document]. *)
Definition incomingTypes : list string :=
  ["snapshot"; "snapshot-saved"; "snapshot-save-failed";
   "update"; "update-saved"; "update-save-failed"; "ephemeral-message"].

(** The collaborators of [prepareAndSendEphemeralMessage]:
    [createEphemeralMessage] of ../ephemeralMessage/createEphemeralMessage
    (a result in the left summand is a thrown error), [JSON.stringify] and
    libsodium's [to_base64]. *)
Record Deps := {
  createEphemeralMessage :
    bytes -> string -> Ephemeral.EphemeralMessagePublicData -> bytes ->
    KeyPair -> string -> Z -> string + Ephemeral.EphemeralMessage;
  stringify : Ephemeral.EphemeralMessage -> string;
  to_base64 : bytes -> string
}.

(** The part of [SyncMachineConfig] the service reads. *)
Record Config := {
  documentId : string;
  signatureKeyPair : KeyPair
}.

(** A call [prepareAndSendEphemeralMessage(data, messageType)]. *)
Record Call := {
  data : bytes;
  messageType : string
}.

(** The state of a running service.  [ephemeralSessionCounter] (line 13)
    and [connected] (line 45) are its variables.  [awaiting] holds the calls
    of [prepareAndSendEphemeralMessage] that are suspended at the [await]
    of line 22, and [rejected] the reasons of the calls whose promise is
    rejected and whose [catch] handler has not run yet.  [sent] is the
    record of the calls of [send], oldest first, and [created] the record
    of the calls of [createEphemeralMessage] that returned a message, with
    the counter each was given. *)
Record Service (Json : Type) := {
  ephemeralSessionCounter : Z;
  connected : bool;
  awaiting : list Call;
  rejected : list string;
  sent : list (MachineEvent Json);
  created : list (Z * Ephemeral.EphemeralMessage)
}.

Arguments ephemeralSessionCounter {Json} _.
Arguments connected {Json} _.
Arguments awaiting {Json} _.
Arguments rejected {Json} _.
Arguments sent {Json} _.
Arguments created {Json} _.

(** What happens to a running service: the listeners of the socket
    (lines 101-120), the timeout of line 48, the [SEND_EPHEMERAL_UPDATE]
    event of the sync machine (line 126), the key lookup of the [i]-th
    suspended call settling (rejected with a reason, or fulfilled with the
    key), and the [catch] handler of the [i]-th rejected call running.
    Calls are suspended and resumed in any order, and a lookup that throws
    at once is one that is rejected.  The [SEND] event of the sync machine
    (line 123) writes to the socket only, which is not part of the state. *)
Inductive Step (Json : Type) :=
| SocketOpen
| SocketError
| SocketClose
| ConnectionTimeout
| SocketMessage (parsed : Parsed Json)
| SEND_EPHEMERAL_UPDATE (data : bytes) (messageType : string)
| KeySettled (i : nat) (outcome : string + bytes)
| Caught (i : nat).

Arguments SocketOpen {Json}.
Arguments SocketError {Json}.
Arguments SocketClose {Json}.
Arguments ConnectionTimeout {Json}.
Arguments SocketMessage {Json} parsed.
Arguments SEND_EPHEMERAL_UPDATE {Json} data messageType.
Arguments KeySettled {Json} i outcome.
Arguments Caught {Json} i.

Section Service.

Context {Json : Type}.

Variable D : Deps.
Variable context : Config.
Variable ephemeralMessagesSession : Ephemeral.EphemeralMessagesSession.

(** The service as it starts (lines 13 and 45). *)
Definition start : Service Json :=
  {| ephemeralSessionCounter := Ephemeral.counter ephemeralMessagesSession;
     connected := false;
     awaiting := [];
     rejected := [];
     sent := [];
     created := [] |}.

(** [send(event)] *)
Definition send (event : MachineEvent Json) (s : Service Json)
  : Service Json :=
  {| ephemeralSessionCounter := ephemeralSessionCounter s;
     connected := connected s;
     awaiting := awaiting s;
     rejected := rejected s;
     sent := sent s ++ [event];
     created := created s |}.

(** Lines 15-22: a call of [prepareAndSendEphemeralMessage] runs to the
    [await] of the key lookup and is suspended there; the counter is not
    read before. *)
Definition prepareAndSendEphemeralMessage_call (call : Call)
    (s : Service Json) : Service Json :=
  {| ephemeralSessionCounter := ephemeralSessionCounter s;
     connected := connected s;
     awaiting := awaiting s ++ [call];
     rejected := rejected s;
     sent := sent s;
     created := created s |}.

(** The promise of a call is rejected: its [catch] handler runs later. *)
Definition reject (reason : string) (s : Service Json) : Service Json :=
  {| ephemeralSessionCounter := ephemeralSessionCounter s;
     connected := connected s;
     awaiting := awaiting s;
     rejected := rejected s ++ [reason];
     sent := sent s;
     created := created s |}.

(** Lines 22-42: a suspended call resumes when its key lookup settles.  A
    rejected lookup and a [createEphemeralMessage] that throws reject the
    promise of the call, before the counter is raised.  Otherwise the
    message is created with the counter the service has now, the counter is
    raised and the message is sent, without interruption. *)
Definition prepareAndSendEphemeralMessage_resume (call : Call)
    (keyOutcome : string + bytes) (s : Service Json) : Service Json :=
  let publicData :=
    {| Ephemeral.docId := documentId context;
       Ephemeral.pubKey := to_base64 D (publicKey (signatureKeyPair context)) |} in
  match keyOutcome with
  | inl reason => reject reason s
  | inr ephemeralMessageKey =>
      match createEphemeralMessage D (data call) (messageType call)
              publicData ephemeralMessageKey (signatureKeyPair context)
              (Ephemeral.id ephemeralMessagesSession)
              (ephemeralSessionCounter s)
      with
      | inl reason => reject reason s
      | inr ephemeralMessage =>
          send (SEND (stringify D ephemeralMessage))
            {| ephemeralSessionCounter := ephemeralSessionCounter s + 1;
               connected := connected s;
               awaiting := awaiting s;
               rejected := rejected s;
               sent := sent s;
               created :=
                 created s ++ [(ephemeralSessionCounter s, ephemeralMessage)] |}
      end
  end.

(** Lines 62-99, [onWebsocketMessage].  A frame that does not parse, or
    parses to [null], makes the handler throw before it sends anything.
    The [document] case starts an [initialize] message and has no [break]:
    it falls through to the incoming queue. *)
Definition onWebsocketMessage (parsed : Parsed Json) (s : Service Json)
  : Service Json :=
  match parsed with
  | ParseError => s
  | ParsedNull => s
  | ParsedValue (Some t) data =>
      if String.eqb t "document-not-found" then
        send WEBSOCKET_DOCUMENT_NOT_FOUND s
      else if String.eqb t "unauthorized" then
        send WEBSOCKET_UNAUTHORIZED s
      else if String.eqb t "document-error" then
        send WEBSOCKET_DOCUMENT_ERROR s
      else if String.eqb t "document" then
        send (WEBSOCKET_ADD_TO_INCOMING_QUEUE data)
          (prepareAndSendEphemeralMessage_call
             {| data := []; messageType := "initialize" |} s)
      else if existsb (String.eqb t) incomingTypes then
        send (WEBSOCKET_ADD_TO_INCOMING_QUEUE data) s
      else
        send (WEBSOCKET_ADD_TO_CUSTOM_MESSAGE_QUEUE data) s
  | ParsedValue None data =>
      send (WEBSOCKET_ADD_TO_CUSTOM_MESSAGE_QUEUE data) s
  end.

(** The service without the [i]-th suspended call, and without the [i]-th
    rejection. *)
Definition resumed (i : nat) (s : Service Json) : Service Json :=
  {| ephemeralSessionCounter := ephemeralSessionCounter s;
     connected := connected s;
     awaiting := delete i (awaiting s);
     rejected := rejected s;
     sent := sent s;
     created := created s |}.

Definition handled (i : nat) (s : Service Json) : Service Json :=
  {| ephemeralSessionCounter := ephemeralSessionCounter s;
     connected := connected s;
     awaiting := awaiting s;
     rejected := delete i (rejected s);
     sent := sent s;
     created := created s |}.

Definition step (s : Service Json) (st : Step Json) : Service Json :=
  match st with
  | SocketOpen =>
      send WEBSOCKET_CONNECTED
        {| ephemeralSessionCounter := ephemeralSessionCounter s;
           connected := true;
           awaiting := awaiting s;
           rejected := rejected s;
           sent := sent s;
           created := created s |}
  | SocketError => send WEBSOCKET_DISCONNECTED s
  | SocketClose => send WEBSOCKET_DISCONNECTED s
  | ConnectionTimeout =>
      if negb (connected s) then send WEBSOCKET_DISCONNECTED s else s
  | SocketMessage parsed => onWebsocketMessage parsed s
  | SEND_EPHEMERAL_UPDATE data messageType =>
      prepareAndSendEphemeralMessage_call
        {| data := data; messageType := messageType |} s
  | KeySettled i outcome =>
      match awaiting s !! i with
      | Some call =>
          prepareAndSendEphemeralMessage_resume call outcome (resumed i s)
      | None => s
      end
  | Caught i =>
      match rejected s !! i with
      | Some reason =>
          send (FAILED_CREATING_EPHEMERAL_UPDATE reason) (handled i s)
      | None => s
      end
  end.

Definition run (s : Service Json) (steps : list (Step Json)) : Service Json :=
  fold_left step steps s.

(** The message of an entry of [created] was made by [createEphemeralMessage]
    with the counter of the entry. *)
Definition createdWith (entry : Z * Ephemeral.EphemeralMessage) : Prop :=
  exists data messageType ephemeralMessageKey,
    createEphemeralMessage D data messageType
      {| Ephemeral.docId := documentId context;
         Ephemeral.pubKey :=
           to_base64 D (publicKey (signatureKeyPair context)) |}
      ephemeralMessageKey (signatureKeyPair context)
      (Ephemeral.id ephemeralMessagesSession) entry.1
    = inr entry.2.

(** The counter and the two records of a service agree: the messages were
    created with the counters from the one of the session on, one after the
    other; the counter is the next one; and the [SEND] events are those of
    the created messages, in this order. *)
Definition consistent (s : Service Json) : Prop :=
  map fst (created s)
  = seqZ (Ephemeral.counter ephemeralMessagesSession)
      (Z.of_nat (length (created s)))
  /\ ephemeralSessionCounter s
     = Ephemeral.counter ephemeralMessagesSession
       + Z.of_nat (length (created s))
  /\ List.filter isSend (sent s)
     = map (fun entry => SEND (stringify D entry.2)) (created s)
  /\ Forall createdWith (created s).

End Service.

End WebsocketService.

(* ===================================================================== *)
(** ** A sample websocket service *)
(* ===================================================================== *)

Module SampleService.

(** Collaborators that run: a message is created for the four known
    message types; its ciphertext shows the data and its nonce the
    counter. *)
Definition deps : WebsocketService.Deps :=
  {| WebsocketService.createEphemeralMessage :=
       fun data messageType publicData key keyPair sessionId counter =>
         if existsb (String.eqb messageType)
              ["initialize"; "proof"; "proofAndRequestProof"; "message"]
         then inr {| Ephemeral.ciphertext := string_of_list_byte data;
                     Ephemeral.nonce := pretty counter;
                     Ephemeral.signature := sessionId;
                     Ephemeral.publicData := publicData |}
         else inl "Unknown message type";
     WebsocketService.stringify := fun m =>
       (Ephemeral.nonce m ++ ":" ++ Ephemeral.ciphertext m)%string;
     WebsocketService.to_base64 := string_of_list_byte |}.

Definition config : WebsocketService.Config :=
  {| WebsocketService.documentId := "doc";
     WebsocketService.signatureKeyPair := Toy.bob |}.

(** Three updates are handed to the service, ["a"], ["b"] and ["c"]; the
    key lookup of ["c"] settles first, the one of ["a"] is rejected, and
    the one of ["b"] settles last. *)
Definition schedule : list (WebsocketService.Step string) :=
  [ WebsocketService.SEND_EPHEMERAL_UPDATE (list_byte_of_string "a") "message";
    WebsocketService.SEND_EPHEMERAL_UPDATE (list_byte_of_string "b") "message";
    WebsocketService.SEND_EPHEMERAL_UPDATE (list_byte_of_string "c") "message";
    WebsocketService.KeySettled 2 (inr Toy.key);
    WebsocketService.KeySettled 0 (inl "Wrong ephemeral message key");
    WebsocketService.KeySettled 0 (inr Toy.key);
    WebsocketService.Caught 0 ].

End SampleService.

(* ===================================================================== *)
(** * Properties *)
(* ===================================================================== *)

(** ** Ephemeral messages *)

Section EphemeralProperties.

Import Ephemeral.

Variable D : Deps.

(** A message that opens is handed to [dispatch]. *)
Lemma opens_dispatch m key currentDocId session keyPair pk type sid ctr value :
  opens D m key pk type sid ctr value ->
  verifyAndDecryptEphemeralMessage D m key currentDocId session keyPair
  = dispatch D m currentDocId session keyPair pk type sid ctr value.
Proof.
  intros (Hpk & Hsig & content & Hdec & Hhdr).
  unfold verifyAndDecryptEphemeralMessage, verifyAndDecryptEphemeralMessage_try.
  rewrite Hpk; simpl. rewrite Hsig; simpl. rewrite Hdec, Hhdr. reflexivity.
Qed.

(** A message that fails one of the first checks yields an error and
    nothing else. *)
Lemma not_opened_is_error m key currentDocId session keyPair :
  (forall pk type sid ctr value, ~ opens D m key pk type sid ctr value) ->
  exists code,
    verifyAndDecryptEphemeralMessage D m key currentDocId session keyPair
    = errorResult code.
Proof.
  intros Hno.
  unfold verifyAndDecryptEphemeralMessage, verifyAndDecryptEphemeralMessage_try.
  destruct (from_base64 D (pubKey (publicData m))) as [pk|] eqn:Hpk; simpl;
    [|by eexists].
  destruct (verifySignature D _ (signature m) pk) as [[|]|] eqn:Hsig; simpl;
    [|by eexists..].
  destruct (decryptContent D m key) as [content|] eqn:Hdec; [|by eexists].
  destruct (decodeHeader D content) as [[[[type sid] ctr] value]|] eqn:Hhdr;
    simpl; [|by eexists].
  exfalso. apply (Hno pk type sid ctr value).
  split; [done|]. split; [done|]. by exists content.
Qed.

(** [dispatch] on a message of the current document whose type is
    [message] and whose sender has a valid session with that session id. *)
Lemma dispatch_message m currentDocId session keyPair pk sid c ctr value :
  docId (publicData m) = currentDocId ->
  validSessions session !! to_base64 D pk
  = Some {| sessionId := sid; sessionCounter := c |} ->
  dispatch D m currentDocId session keyPair pk (Some messageTypes.message)
    sid ctr value
  = if c >=? ctr then errorResult "SECSYNC_ERROR_23"
    else {| r_error := None; r_content := Some value; r_proof := None;
            r_requestProof := None;
            r_validSessions :=
              Some (<[to_base64 D pk :=
                        {| sessionId := sid; sessionCounter := ctr |}]>
                      (validSessions session)) |}.
Proof.
  intros Hdoc Hsess. unfold dispatch.
  rewrite Hdoc, String.eqb_refl; simpl.
  rewrite Hsess; simpl. rewrite String.eqb_refl; simpl. reflexivity.
Qed.

(** [dispatch] on a message of another document. *)
Lemma dispatch_other_document m currentDocId session keyPair pk type sid ctr value :
  docId (publicData m) <> currentDocId ->
  dispatch D m currentDocId session keyPair pk type sid ctr value
  = onlyValidSessions (validSessions session).
Proof.
  intros Hdoc. unfold dispatch.
  destruct (String.eqb_spec (docId (publicData m)) currentDocId); [done|].
  reflexivity.
Qed.

End EphemeralProperties.

(** Closes [opens] for a message of the executable instance, given its
    plaintext. *)
Ltac toy_opens plaintext :=
  split; [vm_compute; reflexivity|];
  split; [vm_compute; reflexivity|];
  exists plaintext; split; vm_compute; reflexivity.

(** C2 (as amended).  Replay: when the receiver holds a valid session
    [{sessionId, sessionCounter = c}] for a sender, a message-type ephemeral
    message of that sender with the same session id and a counter [<= c]
    yields no content and no advanced valid sessions; when it is addressed
    to the current document the result is the error SECSYNC_ERROR_23 and
    nothing else. *)
Theorem replayed_message_rejected
    (D : Ephemeral.Deps) (m : Ephemeral.EphemeralMessage) (key : bytes)
    (currentDocId : string) (session : Ephemeral.EphemeralMessagesSession)
    (keyPair : KeyPair) (pk : bytes) (sid : string) (c ctr : Z)
    (value : bytes) :
  Ephemeral.opens D m key pk (Some Ephemeral.messageTypes.message) sid ctr value ->
  Ephemeral.validSessions session !! Ephemeral.to_base64 D pk
  = Some {| Ephemeral.sessionId := sid; Ephemeral.sessionCounter := c |} ->
  ctr <= c ->
  let r := Ephemeral.verifyAndDecryptEphemeralMessage D m key currentDocId
             session keyPair in
  Ephemeral.r_content r = None
  /\ (Ephemeral.r_validSessions r = None
      \/ Ephemeral.r_validSessions r = Some (Ephemeral.validSessions session))
  /\ (Ephemeral.docId (Ephemeral.publicData m) = currentDocId ->
      r = Ephemeral.errorResult "SECSYNC_ERROR_23").
Proof.
  intros Hopen Hsess Hle r. subst r.
  rewrite (opens_dispatch D _ _ _ _ _ _ _ _ _ _ Hopen).
  destruct (decide (Ephemeral.docId (Ephemeral.publicData m) = currentDocId))
    as [Hdoc|Hdoc].
  - rewrite (dispatch_message D _ _ _ _ _ _ c _ _ Hdoc Hsess).
    assert ((c >=? ctr) = true) as -> by lia.
    split; [done|]. split; [by left|done].
  - rewrite (dispatch_other_document D _ _ _ _ _ _ _ _ _ Hdoc).
    split; [done|]. split; [by right|done].
Qed.

Lemma replayed_message_rejected_witness :
  let r := Ephemeral.verifyAndDecryptEphemeralMessage Toy.ephemeral
             (Toy.ephemeralMessage x03 [x00; x00; x00; x05] [x16] "doc")
             Toy.key "doc" (Toy.bobSession 5) Toy.bob in
  Ephemeral.r_content r = None
  /\ (Ephemeral.r_validSessions r = None
      \/ Ephemeral.r_validSessions r
         = Some (Ephemeral.validSessions (Toy.bobSession 5)))
  /\ r = Ephemeral.errorResult "SECSYNC_ERROR_23".
Proof.
  destruct (replayed_message_rejected Toy.ephemeral
              (Toy.ephemeralMessage x03 [x00; x00; x00; x05] [x16] "doc")
              Toy.key "doc" (Toy.bobSession 5) Toy.bob Toy.aliceKey
              Toy.aliceSessionId 5 5 [x16]) as (H1 & H2 & H3).
  - toy_opens (Toy.plaintext x03 [x00; x00; x00; x05] [x16]).
  - vm_compute; reflexivity.
  - lia.
  - split; [exact H1|]. split; [exact H2|]. apply H3. reflexivity.
Defined.

(** C2, the claim as stated, fails: a replayed message that names another
    document is dropped without any error, so no SECSYNC_ERROR_23 is
    returned for it. *)
Lemma replayed_message_other_document_no_error :
  let m := Toy.ephemeralMessage x03 [x00; x00; x00; x05] [x16] "another" in
  let r := Ephemeral.verifyAndDecryptEphemeralMessage Toy.ephemeral m
             Toy.key "doc" (Toy.bobSession 5) Toy.bob in
  Ephemeral.opens Toy.ephemeral m Toy.key Toy.aliceKey
    (Some Ephemeral.messageTypes.message) Toy.aliceSessionId 5 [x16]
  /\ Ephemeral.validSessions (Toy.bobSession 5)
       !! Ephemeral.to_base64 Toy.ephemeral Toy.aliceKey
     = Some {| Ephemeral.sessionId := Toy.aliceSessionId;
               Ephemeral.sessionCounter := 5 |}
  /\ 5 <= 5
  /\ Ephemeral.r_error r = None
  /\ r = Ephemeral.onlyValidSessions (Ephemeral.validSessions (Toy.bobSession 5)).
Proof.
  split; [toy_opens (Toy.plaintext x03 [x00; x00; x00; x05] [x16])|].
  split; [vm_compute; reflexivity|].
  split; [lia|].
  split; vm_compute; reflexivity.
Qed.

(** C7 (as amended).  An ephemeral message that passes signature
    verification and decryption and whose plaintext is long enough for its
    header (type, session id, counter) to be extracted, but which names
    another document than the current one, is dropped silently: the result
    carries the valid sessions it was given and nothing else, neither
    content, nor proof, nor error.  It is never applied: in whatever state
    the sync machine is when the message arrives, no apply callback of the
    host is called for it and the machine's valid sessions stay. *)
Theorem foreign_document_message_dropped
    (D : Ephemeral.Deps) (m : Ephemeral.EphemeralMessage) (key : bytes)
    (currentDocId : string) (session : Ephemeral.EphemeralMessagesSession)
    (keyPair : KeyPair) (pk : bytes) (type : option Z) (sid : string)
    (ctr : Z) (value : bytes) :
  Ephemeral.opens D m key pk type sid ctr value ->
  Ephemeral.docId (Ephemeral.publicData m) <> currentDocId ->
  let r := Ephemeral.verifyAndDecryptEphemeralMessage D m key currentDocId
             session keyPair in
  Ephemeral.r_content r = None
  /\ Ephemeral.r_proof r = None
  /\ Ephemeral.r_error r = None
  /\ Ephemeral.r_requestProof r = None
  /\ Ephemeral.r_validSessions r = Some (Ephemeral.validSessions session)
  /\ forall (E : SyncMachine.Env) (machine : SyncMachine.Machine),
       SyncMachine.ephemeralDeps E = D ->
       SyncMachine.ephemeralMessageKey E = key ->
       SyncMachine.documentId E = currentDocId ->
       let machine' :=
         SyncMachine.step E machine (SyncMachine.INCOMING_EPHEMERAL_MESSAGE m) in
       SyncMachine.hostCalls (SyncMachine.context machine')
       = SyncMachine.hostCalls (SyncMachine.context machine)
       /\ Ephemeral.validSessions
            (SyncMachine._ephemeralMessagesSession
               (SyncMachine.context machine'))
          = Ephemeral.validSessions
              (SyncMachine._ephemeralMessagesSession
                 (SyncMachine.context machine)).
Proof.
  intros Hopen Hdoc r. subst r.
  rewrite (opens_dispatch D _ _ _ _ _ _ _ _ _ _ Hopen).
  rewrite (dispatch_other_document D _ _ _ _ _ _ _ _ _ Hdoc).
  do 5 (split; [reflexivity|]).
  intros E [st ctx] HD Hkey Hid machine'. subst machine' D key currentDocId.
  destruct st; try (split; reflexivity).
  cbn [SyncMachine.step SyncMachine.state SyncMachine.context].
  unfold SyncMachine.handleEphemeralMessage.
  destruct (negb _); [split; reflexivity|].
  rewrite (opens_dispatch (SyncMachine.ephemeralDeps E) _ _ _ _ _ _ _ _ _ _
             Hopen).
  rewrite (dispatch_other_document (SyncMachine.ephemeralDeps E)
             _ _ _ _ _ _ _ _ _ Hdoc).
  split; reflexivity.
Qed.

(** A message of alice that names the document ["another"], received by bob
    on the document ["doc"]. *)
Lemma foreign_document_message_dropped_witness :
  let m := Toy.ephemeralMessage x03 [x00; x00; x00; x09] [x2c] "another" in
  let r := Ephemeral.verifyAndDecryptEphemeralMessage Toy.ephemeral m
             Toy.key "doc" (Toy.bobSession 5) Toy.bob in
  Ephemeral.r_content r = None
  /\ Ephemeral.r_proof r = None
  /\ Ephemeral.r_error r = None
  /\ Ephemeral.r_requestProof r = None
  /\ Ephemeral.r_validSessions r
     = Some (Ephemeral.validSessions (Toy.bobSession 5))
  /\ SyncMachine.hostCalls
       (SyncMachine.context
          (SyncMachine.step SampleMachine.env SampleMachine.connected
             (SyncMachine.INCOMING_EPHEMERAL_MESSAGE m)))
     = SyncMachine.hostCalls (SyncMachine.context SampleMachine.connected).
Proof.
  intros m r.
  destruct (foreign_document_message_dropped Toy.ephemeral
              (Toy.ephemeralMessage x03 [x00; x00; x00; x09] [x2c] "another")
              Toy.key "doc" (Toy.bobSession 5) Toy.bob Toy.aliceKey
              (Some Ephemeral.messageTypes.message) Toy.aliceSessionId 9 [x2c])
    as (H1 & H2 & H3 & H4 & H5 & H6).
  - toy_opens (Toy.plaintext x03 [x00; x00; x00; x09] [x2c]).
  - discriminate.
  - do 5 (split; [assumption|]).
    apply (H6 SampleMachine.env SampleMachine.connected); reflexivity.
Defined.

(** C7, the claim as stated, fails: a message that passes signature
    verification and decryption and names another document, but whose
    plaintext is too short to hold a header, is not dropped silently; the
    result is the error SECSYNC_ERROR_36, and it does not carry the valid
    sessions. *)
Lemma foreign_document_short_message_error :
  let m := Toy.sealedMessage [x03; x00] "another" in
  let r := Ephemeral.verifyAndDecryptEphemeralMessage Toy.ephemeral m
             Toy.key "doc" (Toy.bobSession 5) Toy.bob in
  Ephemeral.from_base64 Toy.ephemeral
    (Ephemeral.pubKey (Ephemeral.publicData m)) = Some Toy.aliceKey
  /\ Ephemeral.verifySignature Toy.ephemeral
       {| sc_nonce := Ephemeral.nonce m;
          sc_ciphertext := Ephemeral.ciphertext m;
          sc_publicData :=
            Ephemeral.string_to_base64 Toy.ephemeral
              (Ephemeral.canonicalize Toy.ephemeral (Ephemeral.publicData m)) |}
       (Ephemeral.signature m) Toy.aliceKey = Some true
  /\ Ephemeral.decryptContent Toy.ephemeral m Toy.key = Some [x03; x00]
  /\ Ephemeral.docId (Ephemeral.publicData m) = "another"
  /\ r = Ephemeral.errorResult "SECSYNC_ERROR_36"
  /\ Ephemeral.r_error r = Some "SECSYNC_ERROR_36"
  /\ Ephemeral.r_validSessions r = None.
Proof.
  repeat split; vm_compute; reflexivity.
Qed.

(** C8 (as amended).  When the receiver holds a valid session with counter
    [c] for a sender, a message-type ephemeral message of that sender for
    the current document, with the same session id and any counter [c' > c]
    (not only [c + 1]), is accepted: its content is returned, and the
    returned valid sessions are the stored ones with the sender's counter
    replaced by [c']. *)
Theorem newer_message_accepted
    (D : Ephemeral.Deps) (m : Ephemeral.EphemeralMessage) (key : bytes)
    (currentDocId : string) (session : Ephemeral.EphemeralMessagesSession)
    (keyPair : KeyPair) (pk : bytes) (sid : string) (c c' : Z)
    (value : bytes) :
  Ephemeral.opens D m key pk (Some Ephemeral.messageTypes.message) sid c' value ->
  Ephemeral.validSessions session !! Ephemeral.to_base64 D pk
  = Some {| Ephemeral.sessionId := sid; Ephemeral.sessionCounter := c |} ->
  c < c' ->
  Ephemeral.docId (Ephemeral.publicData m) = currentDocId ->
  Ephemeral.verifyAndDecryptEphemeralMessage D m key currentDocId session
    keyPair
  = {| Ephemeral.r_error := None;
       Ephemeral.r_content := Some value;
       Ephemeral.r_proof := None;
       Ephemeral.r_requestProof := None;
       Ephemeral.r_validSessions :=
         Some (<[Ephemeral.to_base64 D pk :=
                   {| Ephemeral.sessionId := sid;
                      Ephemeral.sessionCounter := c' |}]>
                 (Ephemeral.validSessions session)) |}.
Proof.
  intros Hopen Hsess Hlt Hdoc.
  rewrite (opens_dispatch D _ _ _ _ _ _ _ _ _ _ Hopen).
  rewrite (dispatch_message D _ _ _ _ _ _ c _ _ Hdoc Hsess).
  assert ((c >=? c') = false) as -> by lia.
  reflexivity.
Qed.

Lemma newer_message_accepted_witness :
  Ephemeral.verifyAndDecryptEphemeralMessage Toy.ephemeral
    (Toy.ephemeralMessage x03 [x00; x00; x01; x00] [x37] "doc")
    Toy.key "doc" (Toy.bobSession 5) Toy.bob
  = {| Ephemeral.r_error := None;
       Ephemeral.r_content := Some [x37];
       Ephemeral.r_proof := None;
       Ephemeral.r_requestProof := None;
       Ephemeral.r_validSessions :=
         Some (<[Ephemeral.to_base64 Toy.ephemeral Toy.aliceKey :=
                   {| Ephemeral.sessionId := Toy.aliceSessionId;
                      Ephemeral.sessionCounter := 256 |}]>
                 (Ephemeral.validSessions (Toy.bobSession 5))) |}.
Proof.
  apply (newer_message_accepted Toy.ephemeral
           (Toy.ephemeralMessage x03 [x00; x00; x01; x00] [x37] "doc")
           Toy.key "doc" (Toy.bobSession 5) Toy.bob Toy.aliceKey
           Toy.aliceSessionId 5 256 [x37]).
  - toy_opens (Toy.plaintext x03 [x00; x00; x01; x00] [x37]).
  - vm_compute; reflexivity.
  - lia.
  - reflexivity.
Defined.

(** C8, the claim as stated, fails: a message with a newer counter that
    names another document is not accepted; no content is returned and the
    stored counter stays. *)
Lemma newer_message_other_document_not_accepted :
  let m := Toy.ephemeralMessage x03 [x00; x00; x01; x00] [x37] "another" in
  let r := Ephemeral.verifyAndDecryptEphemeralMessage Toy.ephemeral m
             Toy.key "doc" (Toy.bobSession 5) Toy.bob in
  Ephemeral.opens Toy.ephemeral m Toy.key Toy.aliceKey
    (Some Ephemeral.messageTypes.message) Toy.aliceSessionId 256 [x37]
  /\ Ephemeral.validSessions (Toy.bobSession 5)
       !! Ephemeral.to_base64 Toy.ephemeral Toy.aliceKey
     = Some {| Ephemeral.sessionId := Toy.aliceSessionId;
               Ephemeral.sessionCounter := 5 |}
  /\ 5 < 256
  /\ Ephemeral.r_content r = None
  /\ Ephemeral.r_validSessions r
     = Some (Ephemeral.validSessions (Toy.bobSession 5)).
Proof.
  split; [toy_opens (Toy.plaintext x03 [x00; x00; x01; x00] [x37])|].
  split; [vm_compute; reflexivity|].
  split; [lia|].
  split; vm_compute; reflexivity.
Qed.

(** [dispatch] on a proof whose session proof does not verify. *)
Lemma dispatch_invalid_proof (D : Ephemeral.Deps) m currentDocId session
    keyPair pk type sid ctr value :
  type = Some Ephemeral.messageTypes.proof
  \/ type = Some Ephemeral.messageTypes.proofAndRequestProof ->
  Ephemeral.verifyEphemeralSessionProof D value (Ephemeral.id session) sid pk
  = false ->
  Ephemeral.dispatch D m currentDocId session keyPair pk type sid ctr value
  = Ephemeral.onlyValidSessions (Ephemeral.validSessions session).
Proof.
  intros Htype Hproof. unfold Ephemeral.dispatch.
  destruct (negb _); [reflexivity|].
  destruct Htype as [-> | ->]; simpl; rewrite Hproof; reflexivity.
Qed.

(** C10.  A [proof] or [proofAndRequestProof] message whose session proof
    fails verification against the receiver's session id, the sender's
    public key and the embedded session id changes nothing: the result
    carries the valid sessions it was given, and no error, no proof and no
    content; the sender is not added to the valid sessions. *)
Theorem invalid_session_proof_ignored
    (D : Ephemeral.Deps) (m : Ephemeral.EphemeralMessage) (key : bytes)
    (currentDocId : string) (session : Ephemeral.EphemeralMessagesSession)
    (keyPair : KeyPair) (pk : bytes) (type : option Z) (sid : string)
    (ctr : Z) (value : bytes) :
  Ephemeral.opens D m key pk type sid ctr value ->
  type = Some Ephemeral.messageTypes.proof
  \/ type = Some Ephemeral.messageTypes.proofAndRequestProof ->
  Ephemeral.verifyEphemeralSessionProof D value (Ephemeral.id session) sid pk
  = false ->
  let r := Ephemeral.verifyAndDecryptEphemeralMessage D m key currentDocId
             session keyPair in
  Ephemeral.r_validSessions r = Some (Ephemeral.validSessions session)
  /\ Ephemeral.r_error r = None
  /\ Ephemeral.r_proof r = None
  /\ Ephemeral.r_content r = None
  /\ Ephemeral.r_requestProof r = None.
Proof.
  intros Hopen Htype Hproof r. subst r.
  rewrite (opens_dispatch D _ _ _ _ _ _ _ _ _ _ Hopen).
  rewrite (dispatch_invalid_proof D _ _ _ _ _ _ _ _ _ Htype Hproof).
  repeat split.
Qed.

(** A proof message of alice that carries a proof made for another
    receiver session than bob's. *)
Lemma invalid_session_proof_ignored_witness :
  let r := Ephemeral.verifyAndDecryptEphemeralMessage Toy.ephemeral
             (Toy.ephemeralMessage x02 [x00; x00; x00; x00]
                (Toy.sessionProof "someone else" Toy.aliceSessionId
                   Toy.aliceKey) "doc")
             Toy.key "doc" (Toy.bobSession 5) Toy.bob in
  Ephemeral.r_validSessions r
  = Some (Ephemeral.validSessions (Toy.bobSession 5))
  /\ Ephemeral.r_error r = None
  /\ Ephemeral.r_proof r = None
  /\ Ephemeral.r_content r = None
  /\ Ephemeral.r_requestProof r = None.
Proof.
  apply (invalid_session_proof_ignored Toy.ephemeral
           (Toy.ephemeralMessage x02 [x00; x00; x00; x00]
              (Toy.sessionProof "someone else" Toy.aliceSessionId
                 Toy.aliceKey) "doc")
           Toy.key "doc" (Toy.bobSession 5) Toy.bob Toy.aliceKey
           (Some Ephemeral.messageTypes.proofAndRequestProof)
           Toy.aliceSessionId 0
           (Toy.sessionProof "someone else" Toy.aliceSessionId Toy.aliceKey)).
  - toy_opens (Toy.plaintext x02 [x00; x00; x00; x00]
                 (Toy.sessionProof "someone else" Toy.aliceSessionId
                    Toy.aliceKey)).
  - right; reflexivity.
  - vm_compute; reflexivity.
Defined.

(** The same message with the proof made for bob's session is accepted:
    the check that fails above is a real one. *)
Example valid_session_proof_accepted :
  Ephemeral.r_validSessions
    (Ephemeral.verifyAndDecryptEphemeralMessage Toy.ephemeral
       (Toy.ephemeralMessage x01 [x00; x00; x00; x07]
          (Toy.sessionProof Toy.bobSessionId Toy.aliceSessionId Toy.aliceKey)
          "doc")
       Toy.key "doc"
       {| Ephemeral.id := Toy.bobSessionId; Ephemeral.counter := 0;
          Ephemeral.validSessions := ∅ |} Toy.bob)
  = Some {[ string_of_list_byte Toy.aliceKey :=
              {| Ephemeral.sessionId := Toy.aliceSessionId;
                 Ephemeral.sessionCounter := 7 |} ]}.
Proof. vm_compute; reflexivity. Qed.

(** ** The backend's update store *)

Section ServerProperties.

Import Server.

Context {A : Type} (serializeUpdate : UpdateRow -> A).

(** An update that does not reference the active snapshot of a document is
    rejected and nothing is persisted. *)
Lemma createUpdate_not_active update db :
  (forall s d,
     snapshots db !! refSnapshotId (publicData update) = Some s ->
     documents db !! documentId s = Some d ->
     activeSnapshotId d <> Some (refSnapshotId (publicData update))) ->
  exists e, createUpdate serializeUpdate update db = (db, inl e).
Proof.
  intros Hna.
  unfold createUpdate, transaction, createUpdate_body, mbind, tx_bind,
    snapshot_findUniqueOrThrow.
  destruct (snapshots db !! refSnapshotId (publicData update)) as [s|] eqn:Hs;
    [|by eexists].
  destruct (documents db !! documentId s) as [d|] eqn:Hd; [|by eexists].
  rewrite bool_decide_eq_false_2 by (by eapply Hna). simpl. by eexists.
Qed.

(** [checkClocks] reads the store only: it throws, or returns clocks and
    the store it was given. *)
Lemma checkClocks_store stored update db :
  (exists e, checkClocks stored update db = inl e)
  \/ exists newClocks, checkClocks stored update db = inr (newClocks, db).
Proof.
  unfold checkClocks, getProperty, throw, mret, tx_ret.
  destruct stored; try (right; by eexists).
  destruct (entries !! _); [|destruct (isInherited _)]; try destruct (negb _);
    (by left; eexists) || (by right; eexists).
Qed.

(** What [createUpdate] does on an update that references the active
    snapshot, in terms of the clock check. *)
Lemma createUpdate_active update db s d :
  snapshots db !! refSnapshotId (publicData update) = Some s ->
  documents db !! documentId s = Some d ->
  activeSnapshotId d = Some (refSnapshotId (publicData update)) ->
  createUpdate serializeUpdate update db
  = match checkClocks (clocks s) update db with
    | inl e => (db, inl e)
    | inr (newClocks, _) =>
        (acceptedStore db s update newClocks,
         inr (serializeUpdate (acceptedRow s update)))
    end.
Proof.
  intros Hs Hd Hact.
  unfold createUpdate, transaction, createUpdate_body, mbind, tx_bind,
    snapshot_findUniqueOrThrow.
  rewrite Hs, Hd. rewrite bool_decide_eq_true_2 by done. simpl.
  destruct (checkClocks_store (clocks s) update db) as [[e He] | [c Hc]].
  - rewrite He. reflexivity.
  - rewrite Hc. unfold snapshot_update, update_create. rewrite Hs.
    reflexivity.
Qed.

(** [createUpdate] either rejects and leaves the store, or accepts an update
    of the active snapshot of a document with the clocks [checkClocks]
    returns. *)
Lemma createUpdate_cases update db :
  (exists e, createUpdate serializeUpdate update db = (db, inl e))
  \/ (exists s d newClocks,
        snapshots db !! refSnapshotId (publicData update) = Some s
        /\ documents db !! documentId s = Some d
        /\ activeSnapshotId d = Some (refSnapshotId (publicData update))
        /\ checkClocks (clocks s) update db = inr (newClocks, db)
        /\ createUpdate serializeUpdate update db
           = (acceptedStore db s update newClocks,
              inr (serializeUpdate (acceptedRow s update)))).
Proof.
  destruct (snapshots db !! refSnapshotId (publicData update)) as [s|] eqn:Hs.
  2: { left. apply createUpdate_not_active. intros s d Hs'. congruence. }
  destruct (documents db !! documentId s) as [d|] eqn:Hd.
  2: { left. apply createUpdate_not_active. intros s' d Hs' Hd'. congruence. }
  destruct (decide (activeSnapshotId d
                    = Some (refSnapshotId (publicData update)))) as [Hact|Hact].
  2: { left. apply createUpdate_not_active. intros s' d' Hs' Hd'. congruence. }
  rewrite (createUpdate_active update db s d Hs Hd Hact).
  destruct (checkClocks_store (clocks s) update db) as [[e He] | [c Hc]].
  - left. rewrite He. by exists e.
  - right. exists s, d, c. by rewrite Hc.
Qed.

(** What [checkClocks] returns when it does not throw. *)
Lemma checkClocks_accepts stored update db newClocks :
  checkClocks stored update db = inr (newClocks, db) ->
  match stored with
  | JsonObject entries =>
      newClocks
      = JsonObject (<[pubKey (publicData update) :=
                        clock (publicData update)]> entries)
      /\ (entries !! pubKey (publicData update) = None
          /\ isInherited (pubKey (publicData update)) = false
          /\ clock (publicData update) = 0
          \/ exists c, entries !! pubKey (publicData update) = Some c
                       /\ clock (publicData update) = c + 1)
  | other => newClocks = other
  end.
Proof.
  unfold checkClocks, getProperty, throw, mret, tx_ret.
  destruct stored; try (by intros [= <-]).
  destruct (entries !! _) as [c|] eqn:He.
  - destruct (c + 1 =? clock (publicData update)) eqn:Hc; simpl;
      [|discriminate].
    intros [= <-]. split; [done|]. right. exists c. split; [done|]. lia.
  - destruct (isInherited _) eqn:Hin; [discriminate|].
    destruct (clock (publicData update) =? 0) eqn:Hc; simpl; [|discriminate].
    intros [= <-]. split; [done|]. left. split; [done|]. split; [done|]. lia.
Qed.

(** An update with the expected clock is accepted. *)
Lemma createUpdate_expected update db s d entries :
  snapshots db !! refSnapshotId (publicData update) = Some s ->
  documents db !! documentId s = Some d ->
  activeSnapshotId d = Some (refSnapshotId (publicData update)) ->
  clocks s = JsonObject entries ->
  expectsClock entries (pubKey (publicData update))
    (clock (publicData update)) ->
  createUpdate serializeUpdate update db
  = (acceptedStore db s update
       (JsonObject (<[pubKey (publicData update) :=
                        clock (publicData update)]> entries)),
     inr (serializeUpdate (acceptedRow s update))).
Proof.
  intros Hs Hd Hact Hclocks Hexp.
  rewrite (createUpdate_active update db s d Hs Hd Hact).
  rewrite Hclocks. unfold checkClocks, getProperty, throw, mret, tx_ret.
  destruct Hexp as [(-> & -> & Hc) | ->].
  - by assert ((clock (publicData update) =? 0) = true) as -> by lia.
  - by assert ((clock (publicData update) - 1 + 1
                =? clock (publicData update)) = true) as -> by lia.
Qed.

(** An update with another clock than the expected one is rejected. *)
Lemma createUpdate_unexpected update db s d entries next :
  snapshots db !! refSnapshotId (publicData update) = Some s ->
  documents db !! documentId s = Some d ->
  activeSnapshotId d = Some (refSnapshotId (publicData update)) ->
  clocks s = JsonObject entries ->
  expectsClock entries (pubKey (publicData update)) next ->
  clock (publicData update) <> next ->
  createUpdate serializeUpdate update db = (db, inl "Update clock incorrect.").
Proof.
  intros Hs Hd Hact Hclocks Hexp Hne.
  rewrite (createUpdate_active update db s d Hs Hd Hact).
  rewrite Hclocks. unfold checkClocks, getProperty, throw, mret, tx_ret.
  destruct Hexp as [(-> & -> & Hc) | ->].
  - by assert ((clock (publicData update) =? 0) = false) as -> by lia.
  - by assert ((next - 1 + 1 =? clock (publicData update)) = false)
      as -> by lia.
Qed.

(** An update of an author without an entry is rejected when its clock is
    not 0, and also when the author's key is an inherited property name. *)
Lemma createUpdate_no_entry update db s d entries :
  snapshots db !! refSnapshotId (publicData update) = Some s ->
  documents db !! documentId s = Some d ->
  activeSnapshotId d = Some (refSnapshotId (publicData update)) ->
  clocks s = JsonObject entries ->
  entries !! pubKey (publicData update) = None ->
  clock (publicData update) <> 0
  \/ isInherited (pubKey (publicData update)) = true ->
  createUpdate serializeUpdate update db = (db, inl "Update clock incorrect.").
Proof.
  intros Hs Hd Hact Hclocks Hnone Hbad.
  rewrite (createUpdate_active update db s d Hs Hd Hact).
  rewrite Hclocks. unfold checkClocks, getProperty, throw, mret, tx_ret.
  rewrite Hnone. destruct (isInherited _); [done|].
  destruct Hbad as [Hc|?]; [|done].
  by assert ((clock (publicData update) =? 0) = false) as -> by lia.
Qed.

End ServerProperties.

(** C5 (as amended).  [createUpdate] rejects an update (the transaction
    throws and the store is unchanged) whose [refSnapshotId] is not the
    active snapshot of its document.  Every update it accepts is persisted
    as one more update row with the snapshot's previous [latestVersion] + 1
    as version.  When the clocks stored on that snapshot are a JSON object:
    an update of an author without an entry is rejected unless its clock is
    0, and an update of an author with an entry is rejected unless its clock
    is the stored clock + 1; every update that is accepted leaves the
    author's stored clock at the update's clock and the snapshot at its
    previous [latestVersion] + 1; and the updates that are accepted are those
    with the stored clock + 1 of an author with an entry, and those with
    clock 0 of an author without an entry whose key is not a property name
    the clocks object inherits (with such a key the update is rejected). *)
Theorem server_createUpdate_clock_discipline
    {A : Type} (serializeUpdate : Server.UpdateRow -> A)
    (update : Update) (db : Server.Database) :
  let ref := refSnapshotId (publicData update) in
  let author := pubKey (publicData update) in
  let c := clock (publicData update) in
  ((forall s d,
      Server.snapshots db !! ref = Some s ->
      Server.documents db !! Server.documentId s = Some d ->
      Server.activeSnapshotId d <> Some ref) ->
   exists e, Server.createUpdate serializeUpdate update db = (db, inl e))
  /\ (forall db' a,
        Server.createUpdate serializeUpdate update db = (db', inr a) ->
        exists s row,
          Server.snapshots db !! ref = Some s
          /\ a = serializeUpdate row
          /\ Server.updates db' = (Server.updates db ++ [row])%list
          /\ Server.data row = update
          /\ Server.version row = Server.latestVersion s + 1)
  /\ (forall s d entries,
        Server.snapshots db !! ref = Some s ->
        Server.documents db !! Server.documentId s = Some d ->
        Server.activeSnapshotId d = Some ref ->
        Server.clocks s = Server.JsonObject entries ->
        (entries !! author = None -> c <> 0 ->
         Server.createUpdate serializeUpdate update db
         = (db, inl "Update clock incorrect."))
        /\ (forall stored, entries !! author = Some stored -> c <> stored + 1 ->
            Server.createUpdate serializeUpdate update db
            = (db, inl "Update clock incorrect."))
        /\ (entries !! author = None -> Server.isInherited author = true ->
            Server.createUpdate serializeUpdate update db
            = (db, inl "Update clock incorrect."))
        /\ (forall db' a,
              Server.createUpdate serializeUpdate update db = (db', inr a) ->
              exists s',
                Server.snapshots db' !! ref = Some s'
                /\ Server.latestVersion s' = Server.latestVersion s + 1
                /\ Server.clocks s'
                   = Server.JsonObject (<[author := c]> entries)
                /\ (<[author := c]> entries) !! author = Some c)
        /\ ((entries !! author = None /\ Server.isInherited author = false
             /\ c = 0)
            \/ (exists stored, entries !! author = Some stored /\ c = stored + 1) ->
            Server.createUpdate serializeUpdate update db
            = (Server.acceptedStore db s update
                 (Server.JsonObject (<[author := c]> entries)),
               inr (serializeUpdate (Server.acceptedRow s update))))).
Proof.
  intros ref author c. split; [|split].
  - apply createUpdate_not_active.
  - intros db' a Hrun.
    destruct (createUpdate_cases serializeUpdate update db)
      as [[e Hrej] | (s & d & newClocks & Hs & Hd & Hact & Hck & Hacc)].
    { rewrite Hrej in Hrun. discriminate. }
    rewrite Hacc in Hrun. injection Hrun as <- <-.
    exists s, (Server.acceptedRow s update). by repeat split.
  - intros s d entries Hs Hd Hact Hclocks.
    split; [|split; [|split; [|split]]].
    + intros Hnone Hc.
      apply (createUpdate_no_entry serializeUpdate update db s d entries);
        auto.
    + intros stored Hsome Hc.
      apply (createUpdate_unexpected serializeUpdate update db s d entries
               (stored + 1)); auto.
      right. fold author. rewrite Hsome. f_equal. lia.
    + intros Hnone Hin.
      apply (createUpdate_no_entry serializeUpdate update db s d entries);
        auto.
    + intros db' a Hrun.
      destruct (createUpdate_cases serializeUpdate update db)
        as [[e Hrej] | (s0 & d0 & newClocks & Hs0 & Hd0 & Hact0 & Hck & Hacc)].
      { rewrite Hrej in Hrun. discriminate. }
      fold ref in Hs0. rewrite Hs in Hs0. injection Hs0 as <-.
      apply checkClocks_accepts in Hck. rewrite Hclocks in Hck.
      destruct Hck as [-> _].
      rewrite Hacc in Hrun. injection Hrun as <- _.
      eexists. split; [apply lookup_insert_eq|].
      split; [reflexivity|]. split; [reflexivity|]. apply lookup_insert_eq.
    + intros Hok.
      apply (createUpdate_expected serializeUpdate update db s d entries);
        auto.
      destruct Hok as [(Hnone & Hin & Hc) | (stored & Hsome & Hc)].
      * left. auto.
      * right. fold author c. rewrite Hsome. f_equal. lia.
Qed.

(** Alice's clock 7 after her clock 6 is accepted at version 4, her clock 9
    is not; a first update with clock 0 is accepted of ["alice"] and rejected
    of an author whose key is ["constructor"]. *)
Lemma server_createUpdate_clock_discipline_witness :
  Server.createUpdate (fun row => row) (Store.updateWithClock 7)
    (Store.withClocks (Server.JsonObject {[ "alice" := 6 ]}))
  = (Server.acceptedStore
       (Store.withClocks (Server.JsonObject {[ "alice" := 6 ]}))
       {| Server.documentId := "doc"; Server.latestVersion := 3;
          Server.clocks := Server.JsonObject {[ "alice" := 6 ]} |}
       (Store.updateWithClock 7)
       (Server.JsonObject (<[ "alice" := 7 ]> {[ "alice" := 6 ]})),
     inr (Store.rowWithClock 7))
  /\ Server.createUpdate (fun row => row) (Store.updateWithClock 9)
       (Store.withClocks (Server.JsonObject {[ "alice" := 6 ]}))
     = (Store.withClocks (Server.JsonObject {[ "alice" := 6 ]}),
        inl "Update clock incorrect.")
  /\ Server.createUpdate (fun row => row) (Store.updateOf "alice" 0)
       (Store.withClocks (Server.JsonObject ∅))
     = (Server.acceptedStore (Store.withClocks (Server.JsonObject ∅))
          {| Server.documentId := "doc"; Server.latestVersion := 3;
             Server.clocks := Server.JsonObject ∅ |}
          (Store.updateOf "alice" 0)
          (Server.JsonObject (<[ "alice" := 0 ]> ∅)),
        inr (Server.acceptedRow
               {| Server.documentId := "doc"; Server.latestVersion := 3;
                  Server.clocks := Server.JsonObject ∅ |}
               (Store.updateOf "alice" 0)))
  /\ Server.createUpdate (fun row => row) (Store.updateOf "constructor" 0)
       (Store.withClocks (Server.JsonObject ∅))
     = (Store.withClocks (Server.JsonObject ∅),
        inl "Update clock incorrect.").
Proof.
  split; [|split; [|split]].
  - destruct (server_createUpdate_clock_discipline (fun row => row)
                (Store.updateWithClock 7)
                (Store.withClocks (Server.JsonObject {[ "alice" := 6 ]})))
      as (_ & _ & H).
    destruct (H {| Server.documentId := "doc"; Server.latestVersion := 3;
                   Server.clocks := Server.JsonObject {[ "alice" := 6 ]} |}
                {| Server.activeSnapshotId := Some "snap" |}
                {[ "alice" := 6 ]})
      as (_ & _ & _ & _ & Hacc); [reflexivity..|].
    apply Hacc. right. exists 6. split; reflexivity.
  - destruct (server_createUpdate_clock_discipline (fun row => row)
                (Store.updateWithClock 9)
                (Store.withClocks (Server.JsonObject {[ "alice" := 6 ]})))
      as (_ & _ & H).
    destruct (H {| Server.documentId := "doc"; Server.latestVersion := 3;
                   Server.clocks := Server.JsonObject {[ "alice" := 6 ]} |}
                {| Server.activeSnapshotId := Some "snap" |}
                {[ "alice" := 6 ]})
      as (_ & Hrej & _); [reflexivity..|].
    apply (Hrej 6); [reflexivity|discriminate].
  - destruct (server_createUpdate_clock_discipline (fun row => row)
                (Store.updateOf "alice" 0)
                (Store.withClocks (Server.JsonObject ∅)))
      as (_ & _ & H).
    destruct (H {| Server.documentId := "doc"; Server.latestVersion := 3;
                   Server.clocks := Server.JsonObject ∅ |}
                {| Server.activeSnapshotId := Some "snap" |} ∅)
      as (_ & _ & _ & _ & Hacc); [reflexivity..|].
    apply Hacc. left. repeat split.
  - destruct (server_createUpdate_clock_discipline (fun row => row)
                (Store.updateOf "constructor" 0)
                (Store.withClocks (Server.JsonObject ∅)))
      as (_ & _ & H).
    destruct (H {| Server.documentId := "doc"; Server.latestVersion := 3;
                   Server.clocks := Server.JsonObject ∅ |}
                {| Server.activeSnapshotId := Some "snap" |} ∅)
      as (_ & _ & Hin & _); [reflexivity..|].
    apply Hin; reflexivity.
Defined.

(** C5, the claim as stated, fails: when the clocks stored on the snapshot
    are not a JSON object (here [null]) the clock of an update is not
    checked.  The author has no stored entry, the clock is 7, and the update
    is accepted and persisted. *)
Lemma server_createUpdate_unchecked_clock :
  Server.createUpdate (fun row => row) (Store.updateWithClock 7)
    (Store.withClocks Server.JsonNull)
  = ({| Server.documents :=
          {[ "doc" := {| Server.activeSnapshotId := Some "snap" |} ]};
        Server.snapshots :=
          {[ "snap" := {| Server.documentId := "doc";
                          Server.latestVersion := 4;
                          Server.clocks := Server.JsonNull |} ]};
        Server.updates := [Store.rowWithClock 7] |},
     inr (Store.rowWithClock 7)).
Proof. vm_compute; reflexivity. Qed.

(** ** The update codec *)

Section UpdateCodecProperties.

Import UpdateCodec.

Variable D : Deps.

(** An update that is not authentic is refused with SECSYNC_ERROR_212,
    whatever the other arguments are. *)
Lemma not_authentic_212 update key active author currentClock skipHigher
    skipAuthored :
  ~ authentic D update ->
  verifyAndDecryptUpdate D update key active author currentClock skipHigher
    skipAuthored
  = errorResult "SECSYNC_ERROR_212".
Proof.
  intros Hna. unfold verifyAndDecryptUpdate.
  destruct (from_base64 D (pubKey (publicData update))) as [pk|] eqn:Hpk;
    [|reflexivity].
  destruct (verifySignature D _ (signature update) pk) eqn:Hsig;
    [|reflexivity].
  exfalso. apply Hna. by exists pk.
Qed.

(** An authentic update gets past the signature check. *)
Lemma authentic_checks update key active author currentClock skipHigher
    skipAuthored :
  authentic D update ->
  verifyAndDecryptUpdate D update key active author currentClock skipHigher
    skipAuthored
  = if negb (String.eqb active (refSnapshotId (publicData update)))
    then errorResult "SECSYNC_ERROR_213"
    else if skipAuthored && String.eqb author (pubKey (publicData update))
    then ignored
    else if skipHigher && (clock (publicData update) <? currentClock)
    then ignored
    else if negb (currentClock + 1 =? clock (publicData update))
    then errorResult "SECSYNC_ERROR_214"
    else
      match
        ct ← from_base64 D (ciphertext update);
        decryptAead D ct (sc_publicData (signedContent D update)) key
          (nonce update)
      with
      | Some content =>
          {| u_content := Some content;
             u_clock := Some (clock (publicData update));
             u_error := None |}
      | None => errorResult "SECSYNC_ERROR_212"
      end.
Proof.
  intros (pk & Hpk & Hsig). unfold verifyAndDecryptUpdate.
  rewrite Hpk, Hsig. reflexivity.
Qed.

Lemma decryptsTo_bind update key content :
  decryptsTo D update key content ->
  (ct ← from_base64 D (ciphertext update);
   decryptAead D ct (sc_publicData (signedContent D update)) key
     (nonce update))
  = Some content.
Proof. intros (ct & -> & H). exact H. Qed.

Hypothesis L : Laws D.

(** What [createUpdate] makes is authentic and decrypts to its content. *)
Lemma createUpdate_authentic content pd key kp c n :
  publicKey kp = derivePublicKey D (privateKey kp) ->
  pubKey pd = to_base64 D (publicKey kp) ->
  authentic D (createUpdate D content pd key kp c n).
Proof.
  intros Hkp Hpk. exists (publicKey kp). simpl.
  split; [rewrite Hpk; apply (from_to_base64 D L)|].
  unfold signedContent; simpl. rewrite Hkp. apply (verify_sign D L).
Qed.

Lemma createUpdate_decryptsTo content pd key kp c n :
  decryptsTo D (createUpdate D content pd key kp c n) key content.
Proof.
  eexists. simpl. split; [apply (from_to_base64 D L)|].
  apply (decrypt_encrypt D L).
Qed.

(** With another signature, or with another ciphertext, a created update is
    not authentic any more. *)
Lemma createUpdate_other_signature content pd key kp c n s :
  publicKey kp = derivePublicKey D (privateKey kp) ->
  pubKey pd = to_base64 D (publicKey kp) ->
  s <> signature (createUpdate D content pd key kp c n) ->
  ~ authentic D (withSignature (createUpdate D content pd key kp c n) s).
Proof.
  intros Hkp Hpk Hs (pk & Hfrom & Hver). simpl in Hfrom.
  rewrite Hpk, (from_to_base64 D L) in Hfrom. injection Hfrom as <-.
  rewrite Hkp in Hver. apply (verify_unique D L) in Hver.
  apply Hs. exact Hver.
Qed.

Lemma createUpdate_other_ciphertext content pd key kp c n ct :
  publicKey kp = derivePublicKey D (privateKey kp) ->
  pubKey pd = to_base64 D (publicKey kp) ->
  ct <> ciphertext (createUpdate D content pd key kp c n) ->
  ~ authentic D (withCiphertext (createUpdate D content pd key kp c n) ct).
Proof.
  intros Hkp Hpk Hct (pk & Hfrom & Hver). simpl in Hfrom.
  rewrite Hpk, (from_to_base64 D L) in Hfrom. injection Hfrom as <-.
  rewrite Hkp in Hver. apply (verify_unique D L) in Hver.
  simpl in Hver. apply (sign_inj D L) in Hver.
  apply Hct. unfold signedContent in Hver; simpl in Hver.
  by injection Hver.
Qed.

End UpdateCodecProperties.

(** The executable instance satisfies the laws. *)
Lemma toy_bits_inj p q : Toy.bits p = Toy.bits q -> p = q.
Proof.
  revert q. induction p as [p IH|p IH|]; intros [q|q|]; simpl; try discriminate;
    intros H; try reflexivity; injection H as H; f_equal; by apply IH.
Qed.

Lemma toy_stripPrefix_app k m : Toy.stripPrefix k (k ++ m) = Some m.
Proof.
  induction k as [|b k IH]; simpl; [by destruct m|].
  by rewrite (Byte.byte_dec_lb (x:=b) (y:=b) eq_refl).
Qed.

Lemma toy_codec_laws : UpdateCodec.Laws Toy.codec.
Proof.
  split; simpl.
  - intros b. by rewrite list_byte_of_string_of_list_byte.
  - intros c sk. apply String.eqb_refl.
  - intros c s sk H. by apply String.eqb_eq in H.
  - intros [n1 c1 p1] [n2 c2 p2] sk H. unfold Toy.sign in H; simpl in H.
    apply toy_bits_inj, (inj encode) in H. by injection H as -> -> ->.
  - intros m ad k n. apply toy_stripPrefix_app.
Qed.

(** C1.  Round trip: an update made by [createUpdate] from a message, a key,
    a signing key pair and a clock [c] is verified and decrypted, with the
    same key, its own [refSnapshotId] as the active snapshot, the author's
    public key and the current clock [c - 1], to that message and [c].  With
    another signature, or with another ciphertext, the result is the error
    SECSYNC_ERROR_212, without content and clock.  (The update is not
    skipped as authored by the verifying client:
    [skipIfUpdateAuthoredByCurrentClient] is off, as in the tests of the
    round trip.) *)
Theorem update_roundtrip_and_tamper_detection
    (D : UpdateCodec.Deps) (L : UpdateCodec.Laws D) (content : bytes)
    (pd : UpdatePublicData) (key : bytes) (kp : KeyPair) (c : Z)
    (n : string) (skipIfCurrentClockIsHigher : bool) :
  publicKey kp = UpdateCodec.derivePublicKey D (privateKey kp) ->
  pubKey pd = UpdateCodec.to_base64 D (publicKey kp) ->
  let u := UpdateCodec.createUpdate D content pd key kp c n in
  UpdateCodec.verifyAndDecryptUpdate D u key (refSnapshotId pd) (pubKey pd)
    (c - 1) skipIfCurrentClockIsHigher false
  = {| UpdateCodec.u_content := Some content;
       UpdateCodec.u_clock := Some c;
       UpdateCodec.u_error := None |}
  /\ (forall s skipHigher skipAuthored,
        s <> signature u ->
        UpdateCodec.verifyAndDecryptUpdate D (UpdateCodec.withSignature u s)
          key (refSnapshotId pd) (pubKey pd) (c - 1) skipHigher skipAuthored
        = {| UpdateCodec.u_content := None; UpdateCodec.u_clock := None;
             UpdateCodec.u_error := Some "SECSYNC_ERROR_212" |})
  /\ (forall ct skipHigher skipAuthored,
        ct <> ciphertext u ->
        UpdateCodec.verifyAndDecryptUpdate D (UpdateCodec.withCiphertext u ct)
          key (refSnapshotId pd) (pubKey pd) (c - 1) skipHigher skipAuthored
        = {| UpdateCodec.u_content := None; UpdateCodec.u_clock := None;
             UpdateCodec.u_error := Some "SECSYNC_ERROR_212" |}).
Proof.
  intros Hkp Hpk u. split; [|split].
  - rewrite (authentic_checks D) by by apply createUpdate_authentic.
    rewrite (decryptsTo_bind D u key content)
      by apply (createUpdate_decryptsTo D L).
    rewrite String.eqb_refl; simpl.
    assert ((c <? c - 1) = false) as -> by lia.
    rewrite andb_false_r.
    assert ((c - 1 + 1 =? c) = true) as -> by lia.
    reflexivity.
  - intros s f1 f2 Hs. apply not_authentic_212.
    by apply createUpdate_other_signature.
  - intros ct f1 f2 Hct. apply not_authentic_212.
    by apply createUpdate_other_ciphertext.
Qed.

Lemma update_roundtrip_and_tamper_detection_witness :
  UpdateCodec.verifyAndDecryptUpdate Toy.codec (Sample.update 0) Toy.key
    "snap" (string_of_list_byte Toy.aliceKey) (0 - 1) false false
  = {| UpdateCodec.u_content := Some Sample.helloWorld;
       UpdateCodec.u_clock := Some 0;
       UpdateCodec.u_error := None |}
  /\ UpdateCodec.verifyAndDecryptUpdate Toy.codec
       (UpdateCodec.withSignature (Sample.update 0) "a") Toy.key
       "snap" (string_of_list_byte Toy.aliceKey) (0 - 1) false false
     = {| UpdateCodec.u_content := None; UpdateCodec.u_clock := None;
          UpdateCodec.u_error := Some "SECSYNC_ERROR_212" |}
  /\ UpdateCodec.verifyAndDecryptUpdate Toy.codec
       (UpdateCodec.withCiphertext (Sample.update 0) "aaa") Toy.key
       "snap" (string_of_list_byte Toy.aliceKey) (0 - 1) false false
     = {| UpdateCodec.u_content := None; UpdateCodec.u_clock := None;
          UpdateCodec.u_error := Some "SECSYNC_ERROR_212" |}.
Proof.
  destruct (update_roundtrip_and_tamper_detection Toy.codec toy_codec_laws
              Sample.helloWorld Sample.publicData Toy.key Toy.alice 0 "n"
              false eq_refl eq_refl) as (H1 & H2 & H3).
  split; [exact H1|]. split.
  - apply H2. vm_compute. discriminate.
  - apply H3. vm_compute. discriminate.
Defined.

(** C3.  For an authentic update whose [refSnapshotId] is the caller's
    active snapshot, verified with both skip flags off: when its clock is
    the current clock + 1 the result is its decrypted content and its clock,
    and when its clock is anything else the result is the error
    SECSYNC_ERROR_214. *)
Theorem update_clock_must_be_next
    (D : UpdateCodec.Deps) (update : Update) (key : bytes)
    (currentActiveSnapshotId authorPubKey : string) (currentClock : Z) :
  UpdateCodec.authentic D update ->
  refSnapshotId (publicData update) = currentActiveSnapshotId ->
  let r := UpdateCodec.verifyAndDecryptUpdate D update key
             currentActiveSnapshotId authorPubKey currentClock false false in
  (clock (publicData update) = currentClock + 1 ->
   forall content,
     UpdateCodec.decryptsTo D update key content ->
     r = {| UpdateCodec.u_content := Some content;
            UpdateCodec.u_clock := Some (clock (publicData update));
            UpdateCodec.u_error := None |})
  /\ (clock (publicData update) <> currentClock + 1 ->
      r = {| UpdateCodec.u_content := None; UpdateCodec.u_clock := None;
             UpdateCodec.u_error := Some "SECSYNC_ERROR_214" |}).
Proof.
  intros Hauth Href r. subst r.
  rewrite (authentic_checks D) by done.
  rewrite <- Href, String.eqb_refl. cbn [negb andb]. split.
  - intros Hc content Hdec.
    rewrite (decryptsTo_bind D update key content) by done.
    by assert ((currentClock + 1 =? clock (publicData update)) = true)
      as -> by lia.
  - intros Hc.
    by assert ((currentClock + 1 =? clock (publicData update)) = false)
      as -> by lia.
Qed.

(** Clock 10 against the current clock 9 succeeds; clock 0 against the
    current clock 10 is SECSYNC_ERROR_214. *)
Lemma update_clock_must_be_next_witness :
  UpdateCodec.verifyAndDecryptUpdate Toy.codec (Sample.update 10) Toy.key
    "snap" (string_of_list_byte Toy.aliceKey) 9 false false
  = {| UpdateCodec.u_content := Some Sample.helloWorld;
       UpdateCodec.u_clock := Some 10;
       UpdateCodec.u_error := None |}
  /\ UpdateCodec.verifyAndDecryptUpdate Toy.codec (Sample.update 0) Toy.key
       "snap" (string_of_list_byte Toy.aliceKey) 10 false false
     = {| UpdateCodec.u_content := None; UpdateCodec.u_clock := None;
          UpdateCodec.u_error := Some "SECSYNC_ERROR_214" |}.
Proof.
  split.
  - apply (update_clock_must_be_next Toy.codec (Sample.update 10) Toy.key
             "snap" (string_of_list_byte Toy.aliceKey) 9).
    + apply (createUpdate_authentic Toy.codec toy_codec_laws); reflexivity.
    + reflexivity.
    + reflexivity.
    + apply (createUpdate_decryptsTo Toy.codec toy_codec_laws).
  - apply (update_clock_must_be_next Toy.codec (Sample.update 0) Toy.key
             "snap" (string_of_list_byte Toy.aliceKey) 10).
    + apply (createUpdate_authentic Toy.codec toy_codec_laws); reflexivity.
    + reflexivity.
    + discriminate.
Defined.

(** C4.  For an authentic update whose [refSnapshotId] differs from the
    caller's active snapshot the result is the error SECSYNC_ERROR_213,
    without content and clock, whatever the current clock and the skip
    flags are: also when [skipIfCurrentClockIsHigher] is set and the
    update's clock is below the current clock. *)
Theorem update_foreign_snapshot_213
    (D : UpdateCodec.Deps) (update : Update) (key : bytes)
    (currentActiveSnapshotId authorPubKey : string) (currentClock : Z)
    (skipIfCurrentClockIsHigher skipIfUpdateAuthoredByCurrentClient : bool) :
  UpdateCodec.authentic D update ->
  refSnapshotId (publicData update) <> currentActiveSnapshotId ->
  UpdateCodec.verifyAndDecryptUpdate D update key currentActiveSnapshotId
    authorPubKey currentClock skipIfCurrentClockIsHigher
    skipIfUpdateAuthoredByCurrentClient
  = {| UpdateCodec.u_content := None; UpdateCodec.u_clock := None;
       UpdateCodec.u_error := Some "SECSYNC_ERROR_213" |}.
Proof.
  intros Hauth Href.
  rewrite (authentic_checks D) by done.
  destruct (String.eqb_spec currentActiveSnapshotId
              (refSnapshotId (publicData update))); [congruence|].
  reflexivity.
Qed.

(** The update of clock 0 against the active snapshot "somethingelse", the
    current clock 10 and [skipIfCurrentClockIsHigher] set. *)
Lemma update_foreign_snapshot_213_witness :
  UpdateCodec.verifyAndDecryptUpdate Toy.codec (Sample.update 0) Toy.key
    "somethingelse" (string_of_list_byte Toy.aliceKey) 10 true false
  = {| UpdateCodec.u_content := None; UpdateCodec.u_clock := None;
       UpdateCodec.u_error := Some "SECSYNC_ERROR_213" |}.
Proof.
  apply (update_foreign_snapshot_213 Toy.codec (Sample.update 0) Toy.key
           "somethingelse" (string_of_list_byte Toy.aliceKey) 10 true false).
  - apply (createUpdate_authentic Toy.codec toy_codec_laws); reflexivity.
  - discriminate.
Defined.

(** The sample updates run as the tests of the codec expect. *)
Example sample_update_skipped_when_clock_is_higher :
  UpdateCodec.verifyAndDecryptUpdate Toy.codec (Sample.update 0) Toy.key
    "snap" (string_of_list_byte Toy.aliceKey) 10 true false
  = UpdateCodec.ignored.
Proof. vm_compute; reflexivity. Qed.

Example sample_update_skipped_when_authored_by_client :
  UpdateCodec.verifyAndDecryptUpdate Toy.codec (Sample.update 0) Toy.key
    "snap" (string_of_list_byte Toy.aliceKey) (-1) false true
  = UpdateCodec.ignored.
Proof. vm_compute; reflexivity. Qed.

(** ** The sync machine *)

Section DocumentLoading.

Import SyncMachine.

Variable E : Env.

(** After updates that all apply, the loop goes on with what follows them,
    and the host has seen their contents, in order. *)
Lemma appliesAll_processUpdates ctx updates contents ctx' more :
  appliesAll E ctx updates contents ctx' ->
  processUpdates E ctx (updates ++ more) = processUpdates E ctx' more
  /\ hostCalls ctx' = (hostCalls ctx ++ map applyChanges contents)%list.
Proof.
  induction 1 as [ctx|ctx u content clock rest contents ctx' Hu _ IH]; simpl.
  - by rewrite app_nil_r.
  - rewrite Hu; simpl. destruct IH as [-> ->]. split; [done|].
    simpl. by rewrite <- app_assoc.
Qed.

End DocumentLoading.

(** C6.  A [document] frame whose snapshot decrypts: the attached updates
    are processed in order.  When the updates [good] all verify and decrypt
    and the next one, [bad], fails, the machine goes to [Failed] with
    [documentDecryptionState = partial]; the host has seen the snapshot and
    the contents of [good], in order, and nothing of [bad] or of what
    follows it.  When all attached updates verify and decrypt, the machine
    stays connected with [documentDecryptionState = complete]. *)
Theorem document_updates_partial_or_complete
    (E : SyncMachine.Env) (ctx : SyncMachine.Context)
    (snapshot : SyncMachine.Snapshot) (plaintext : bytes)
    (good : list SyncMachine.ServerUpdate) (contents : list bytes)
    (ctx' : SyncMachine.Context) :
  SyncMachine.verifyAndDecryptSnapshot E snapshot = inr plaintext ->
  SyncMachine.appliesAll E (SyncMachine.snapshotApplied ctx snapshot plaintext)
    good contents ctx' ->
  let connected :=
    {| SyncMachine.state := SyncMachine.ConnectedIdle;
       SyncMachine.context := ctx |} in
  let seen :=
    (SyncMachine.hostCalls ctx
     ++ SyncMachine.applySnapshot plaintext
        :: map SyncMachine.applyChanges contents)%list in
  (forall bad rest e,
     UpdateCodec.u_error (SyncMachine.verifyAttachedUpdate E ctx' bad) = Some e ->
     let m := SyncMachine.step E connected
                (SyncMachine.INCOMING_DOCUMENT snapshot (good ++ bad :: rest)) in
     SyncMachine.state m = SyncMachine.Failed
     /\ SyncMachine._documentDecryptionState (SyncMachine.context m)
        = SyncMachine.partial
     /\ SyncMachine.hostCalls (SyncMachine.context m) = seen)
  /\ (let m := SyncMachine.step E connected
                 (SyncMachine.INCOMING_DOCUMENT snapshot good) in
      SyncMachine.state m = SyncMachine.ConnectedIdle
      /\ SyncMachine._documentDecryptionState (SyncMachine.context m)
         = SyncMachine.complete
      /\ SyncMachine.hostCalls (SyncMachine.context m) = seen).
Proof.
  intros Hsnap Hgood connected seen. subst connected seen.
  unfold SyncMachine.step, SyncMachine.handleDocument; simpl.
  rewrite Hsnap. split.
  - intros bad rest e Hbad.
    destruct (appliesAll_processUpdates E _ _ _ _ (bad :: rest) Hgood)
      as [-> Hcalls].
    simpl. rewrite Hbad. simpl. rewrite Hcalls. simpl.
    by rewrite <- app_assoc.
  - destruct (appliesAll_processUpdates E _ _ _ _ [] Hgood) as [Hrun Hcalls].
    rewrite app_nil_r in Hrun. rewrite Hrun. simpl. rewrite Hcalls. simpl.
    by rewrite <- app_assoc.
Qed.

(** The frame of the test: the snapshot "Hello World" with the updates of
    clock 0 and of clock 1000.  The first is applied, the second fails. *)
Lemma document_updates_partial_or_complete_witness :
  let m := SyncMachine.step SampleMachine.env
             {| SyncMachine.state := SyncMachine.ConnectedIdle;
                SyncMachine.context :=
                  SyncMachine.context SampleMachine.connected |}
             (SyncMachine.INCOMING_DOCUMENT SampleMachine.snapshot
                ([SampleMachine.serverUpdate 0]
                 ++ SampleMachine.serverUpdate 1000 :: [])) in
  SyncMachine.state m = SyncMachine.Failed
  /\ SyncMachine._documentDecryptionState (SyncMachine.context m)
     = SyncMachine.partial
  /\ SyncMachine.hostCalls (SyncMachine.context m)
     = (SyncMachine.hostCalls (SyncMachine.context SampleMachine.connected)
        ++ SyncMachine.applySnapshot (list_byte_of_string "Hello World")
           :: map SyncMachine.applyChanges [Sample.helloWorld])%list.
Proof.
  eapply (document_updates_partial_or_complete SampleMachine.env
            (SyncMachine.context SampleMachine.connected)
            SampleMachine.snapshot (list_byte_of_string "Hello World")
            [SampleMachine.serverUpdate 0] [Sample.helloWorld]).
  - reflexivity.
  - eapply SyncMachine.appliesAll_cons.
    + vm_compute; reflexivity.
    + apply SyncMachine.appliesAll_nil.
  - vm_compute; reflexivity.
Defined.

Example document_rejected_update_is_214 :
  UpdateCodec.u_error
    (SyncMachine.verifyAttachedUpdate SampleMachine.env
       (SyncMachine.updateApplied
          (SyncMachine.snapshotApplied
             (SyncMachine.context SampleMachine.connected)
             SampleMachine.snapshot (list_byte_of_string "Hello World"))
          (SampleMachine.serverUpdate 0) Sample.helloWorld 0)
       (SampleMachine.serverUpdate 1000))
  = Some "SECSYNC_ERROR_214".
Proof. vm_compute; reflexivity. Qed.

Section ErrorBuffers.

Import SyncMachine.

Variable E : Env.

Lemma recordError_length error errors :
  (length (recordError error errors) <= 20)%nat.
Proof. unfold recordError, errorBufferCapacity. rewrite length_take. lia. Qed.

Lemma recordError_full error errors :
  length errors = 20%nat -> recordError error errors = error :: take 19 errors.
Proof. reflexivity. Qed.

Lemma recordError_take error errors :
  recordError error (take 20 errors) = recordError error errors.
Proof.
  unfold recordError, errorBufferCapacity. simpl. f_equal.
  rewrite take_take. reflexivity.
Qed.

(** Recording a non-empty list of errors leaves the newest 20 of the
    errors and of the buffer, newest first. *)
Lemma recordErrors_take errors error buffer :
  recordErrors (errors ++ [error]) buffer
  = take 20 (error :: rev errors ++ buffer)%list.
Proof.
  unfold recordErrors. revert error.
  induction errors as [|e errors IH] using rev_ind; intros error.
  - reflexivity.
  - rewrite fold_left_app. cbn [fold_left]. rewrite IH.
    rewrite rev_app_distr. cbn [rev app]. apply recordError_take.
Qed.

Lemma recordErrors_most_recent errors buffer :
  (20 < length errors)%nat ->
  length (recordErrors errors buffer) = 20%nat
  /\ recordErrors errors buffer = take 20 (rev errors).
Proof.
  intros Hlen.
  destruct errors as [|e errors] using rev_ind; [simpl in Hlen; lia|].
  clear IHerrors. rewrite recordErrors_take.
  rewrite length_app in Hlen; simpl in Hlen.
  rewrite rev_app_distr. cbn [rev app].
  change (e :: rev errors ++ buffer)%list
    with ((e :: rev errors) ++ buffer)%list.
  rewrite take_app_le by (cbn [length]; rewrite length_rev; lia).
  split; [|reflexivity].
  rewrite length_take. cbn [length]. rewrite length_rev. lia.
Qed.

Lemma processUpdates_errors ctx updates :
  _ephemeralMessageReceivingErrors (processUpdates E ctx updates).1
  = _ephemeralMessageReceivingErrors ctx
  /\ _ephemeralMessageAuthoringErrors (processUpdates E ctx updates).1
     = _ephemeralMessageAuthoringErrors ctx.
Proof.
  revert ctx. induction updates as [|u rest IH]; intros ctx; simpl; [done|].
  destruct (verifyAttachedUpdate E ctx u) as [[content|] [clock|] [e|]];
    simpl; try done; try apply IH.
  destruct (IH (updateApplied ctx u content clock)) as [-> ->]. done.
Qed.

Lemma handleEphemeralMessage_receiving ctx m :
  (_ephemeralMessageReceivingErrors (handleEphemeralMessage E ctx m)
   = _ephemeralMessageReceivingErrors ctx
   \/ exists e,
       _ephemeralMessageReceivingErrors (handleEphemeralMessage E ctx m)
       = recordError e (_ephemeralMessageReceivingErrors ctx))
  /\ _ephemeralMessageAuthoringErrors (handleEphemeralMessage E ctx m)
     = _ephemeralMessageAuthoringErrors ctx.
Proof.
  unfold handleEphemeralMessage.
  destruct (negb _); [split; [right; by eexists|done]|].
  destruct (Ephemeral.r_error _); simpl; [split; [right; by eexists|done]|].
  by split; [left|].
Qed.

(** A handled message records its failure, and nothing when it does not
    fail. *)
Lemma handleEphemeralMessage_records ctx m :
  _ephemeralMessageReceivingErrors (handleEphemeralMessage E ctx m)
  = match receivingFailure E ctx m with
    | Some e => recordError e (_ephemeralMessageReceivingErrors ctx)
    | None => _ephemeralMessageReceivingErrors ctx
    end.
Proof.
  unfold handleEphemeralMessage, receivingFailure.
  destruct (negb _); [reflexivity|].
  destruct (Ephemeral.r_error _); reflexivity.
Qed.

Lemma run_receiving_errors m msgs :
  state m = ConnectedIdle ->
  _ephemeralMessageReceivingErrors
    (context (run E m (map INCOMING_EPHEMERAL_MESSAGE msgs)))
  = recordErrors (receivingFailures E (context m) msgs)
      (_ephemeralMessageReceivingErrors (context m)).
Proof.
  unfold run, recordErrors. revert m.
  induction msgs as [|msg msgs IH]; intros [st ctx] Hm; simpl in *; [done|].
  subst st. cbn [step state context]. rewrite IH by reflexivity.
  cbn [context]. rewrite handleEphemeralMessage_records.
  destruct (receivingFailure E ctx msg); reflexivity.
Qed.

Lemma step_withinCapacity m ev :
  withinCapacity (context m) -> withinCapacity (context (step E m ev)).
Proof.
  intros [Hr Ha]. unfold step.
  destruct (state m), ev; simpl; try (split; simpl; (done || lia));
    try (split; [done|apply recordError_length]).
  - unfold handleDocument.
    destruct (verifyAndDecryptSnapshot E snapshot) as [e|plaintext];
      [by split|].
    destruct (processUpdates E _ updates) as [ctx' err] eqn:Hrun.
    pose proof (processUpdates_errors
                  (snapshotApplied (context m) snapshot plaintext) updates)
      as [H1 H2].
    rewrite Hrun in H1, H2; simpl in H1, H2.
    destruct err; simpl; split; simpl; congruence.
  - destruct (handleEphemeralMessage_receiving (context m) m0)
      as [[Heq | [e Heq]] Hauth];
      split; rewrite ?Hauth, ?Heq; try done; apply recordError_length.
Qed.

Lemma run_withinCapacity m events :
  withinCapacity (context m) -> withinCapacity (context (run E m events)).
Proof.
  unfold run. revert m.
  induction events as [|ev events IH]; intros m Hm; simpl; [done|].
  apply IH, step_withinCapacity, Hm.
Qed.

Lemma run_authoring_errors m errors :
  state m <> Failed ->
  _ephemeralMessageAuthoringErrors
    (context (run E m (map FAILED_CREATING_EPHEMERAL_UPDATE errors)))
  = recordErrors errors (_ephemeralMessageAuthoringErrors (context m)).
Proof.
  unfold run, recordErrors. revert m.
  induction errors as [|e errors IH]; intros [st ctx] Hm; simpl in *; [done|].
  rewrite IH.
  - by destruct st.
  - by destruct st.
Qed.

End ErrorBuffers.

(** C9.  The two ephemeral error buffers hold at most 20 entries in every
    reachable state of the machine.  Recording an error in a buffer that
    holds 20 evicts the oldest entry (the last one: the newest is at index
    0).  After more than 20 errors were recorded, whatever the buffer held
    before, exactly 20 remain, and they are the 20 most recent ones.  Both
    buffers of the machine are filled in this way: the authoring buffer
    records the error of every [FAILED_CREATING_EPHEMERAL_UPDATE], and the
    receiving buffer records the error of every incoming ephemeral message
    that fails, and only those, in the order the messages arrive. *)
Theorem error_buffers_keep_20_most_recent (E : SyncMachine.Env) :
  (forall m,
     SyncMachine.reachable E m ->
     (length (SyncMachine._ephemeralMessageReceivingErrors
                (SyncMachine.context m)) <= 20)%nat
     /\ (length (SyncMachine._ephemeralMessageAuthoringErrors
                   (SyncMachine.context m)) <= 20)%nat)
  /\ (forall error errors,
        length errors = 20%nat ->
        SyncMachine.recordError error errors = error :: take 19 errors)
  /\ (forall errors buffer,
        (20 < length errors)%nat ->
        length (SyncMachine.recordErrors errors buffer) = 20%nat
        /\ SyncMachine.recordErrors errors buffer = take 20 (rev errors))
  /\ (forall m errors,
        SyncMachine.state m <> SyncMachine.Failed ->
        SyncMachine._ephemeralMessageAuthoringErrors
          (SyncMachine.context
             (SyncMachine.run E m
                (map SyncMachine.FAILED_CREATING_EPHEMERAL_UPDATE errors)))
        = SyncMachine.recordErrors errors
            (SyncMachine._ephemeralMessageAuthoringErrors
               (SyncMachine.context m)))
  /\ (forall ctx msg,
        SyncMachine._ephemeralMessageReceivingErrors
          (SyncMachine.handleEphemeralMessage E ctx msg)
        = match SyncMachine.receivingFailure E ctx msg with
          | Some e =>
              SyncMachine.recordError e
                (SyncMachine._ephemeralMessageReceivingErrors ctx)
          | None => SyncMachine._ephemeralMessageReceivingErrors ctx
          end)
  /\ (forall m msgs,
        SyncMachine.state m = SyncMachine.ConnectedIdle ->
        SyncMachine._ephemeralMessageReceivingErrors
          (SyncMachine.context
             (SyncMachine.run E m
                (map SyncMachine.INCOMING_EPHEMERAL_MESSAGE msgs)))
        = SyncMachine.recordErrors
            (SyncMachine.receivingFailures E (SyncMachine.context m) msgs)
            (SyncMachine._ephemeralMessageReceivingErrors
               (SyncMachine.context m))).
Proof.
  split; [|split; [|split; [|split; [|split]]]].
  - intros m (session & events & ->).
    apply (run_withinCapacity E). split; simpl; lia.
  - apply recordError_full.
  - apply recordErrors_most_recent.
  - apply run_authoring_errors.
  - apply handleEphemeralMessage_records.
  - apply run_receiving_errors.
Qed.

(** The runs of the two tests.  24 failures to create an ephemeral message,
    #0 to #23: the authoring buffer holds 20 errors, #23 at index 0 and #4 at
    index 19.  25 incoming messages that fail, five with a signature that is
    not alice's and then twenty with a signature that cannot be read: the
    receiving buffer holds 20 errors, those of the last twenty messages. *)
Lemma error_buffers_keep_20_most_recent_witness :
  let authoring :=
    SyncMachine._ephemeralMessageAuthoringErrors
      (SyncMachine.context
         (SyncMachine.run SampleMachine.env SampleMachine.connected
            (map SyncMachine.FAILED_CREATING_EPHEMERAL_UPDATE
               (SampleMachine.keyErrors 0 24)))) in
  let message := Toy.ephemeralMessage x03 [x00; x00; x00; x01] [x16] "doc" in
  let receiving :=
    SyncMachine._ephemeralMessageReceivingErrors
      (SyncMachine.context
         (SyncMachine.run SampleMachine.env SampleMachine.connected
            (map SyncMachine.INCOMING_EPHEMERAL_MESSAGE
               (replicate 5 (Toy.withSignature message "0110")
                ++ replicate 20 (Toy.withSignature message "BROKEN"))))) in
  length authoring = 20%nat
  /\ authoring !! 0%nat = Some "Wrong ephemeral message key #23"
  /\ authoring !! 19%nat = Some "Wrong ephemeral message key #4"
  /\ length receiving = 20%nat
  /\ receiving = replicate 20 "SECSYNC_ERROR_36".
Proof.
  destruct (error_buffers_keep_20_most_recent SampleMachine.env)
    as (_ & _ & Hrecent & Hauthoring & _ & Hreceiving).
  cbv zeta. rewrite Hauthoring by (vm_compute; discriminate).
  rewrite Hreceiving by (vm_compute; reflexivity).
  destruct (Hrecent (SampleMachine.keyErrors 0 24)
              (SyncMachine._ephemeralMessageAuthoringErrors
                 (SyncMachine.context SampleMachine.connected)))
    as [_ ->]; [vm_compute; lia|].
  destruct (Hrecent
              (SyncMachine.receivingFailures SampleMachine.env
                 (SyncMachine.context SampleMachine.connected)
                 (replicate 5
                    (Toy.withSignature
                       (Toy.ephemeralMessage x03 [x00; x00; x00; x01] [x16]
                          "doc") "0110")
                  ++ replicate 20
                       (Toy.withSignature
                          (Toy.ephemeralMessage x03 [x00; x00; x00; x01] [x16]
                             "doc") "BROKEN")))
              (SyncMachine._ephemeralMessageReceivingErrors
                 (SyncMachine.context SampleMachine.connected)))
    as [_ ->]; [vm_compute; lia|].
  repeat split; vm_compute; reflexivity.
Defined.

(** The five errors of the wrongly signed messages are recorded first and then
    evicted: after the first seven messages of the run above the receiving
    buffer holds two errors of the unreadable signature before five of the
    wrong one. *)
Example receiving_errors_newest_first :
  SyncMachine._ephemeralMessageReceivingErrors
    (SyncMachine.context
       (SyncMachine.run SampleMachine.env SampleMachine.connected
          (map SyncMachine.INCOMING_EPHEMERAL_MESSAGE
             (replicate 5
                (Toy.withSignature
                   (Toy.ephemeralMessage x03 [x00; x00; x00; x01] [x16] "doc")
                   "0110")
              ++ replicate 2
                   (Toy.withSignature
                      (Toy.ephemeralMessage x03 [x00; x00; x00; x01] [x16]
                         "doc") "BROKEN")))))
  = (replicate 2 "SECSYNC_ERROR_36" ++ replicate 5 "SECSYNC_ERROR_38")%list.
Proof. vm_compute; reflexivity. Qed.

(** An incoming replay lands in the receiving buffer of the machine. *)
Example replay_recorded_by_machine :
  SyncMachine._ephemeralMessageReceivingErrors
    (SyncMachine.handleEphemeralMessage SampleMachine.env
       (SyncMachine.setReceivingErrors []
          {| SyncMachine._documentDecryptionState := SyncMachine.complete;
             SyncMachine._activeSnapshotId := Some "snap";
             SyncMachine._latestServerVersion := None;
             SyncMachine._snapshotInfosWithUpdateClocks := ∅;
             SyncMachine._updatesLocalClock := -1;
             SyncMachine._ephemeralMessagesSession := Toy.bobSession 5;
             SyncMachine._ephemeralMessageReceivingErrors := [];
             SyncMachine._ephemeralMessageAuthoringErrors := [];
             SyncMachine.hostCalls := [] |})
       (Toy.ephemeralMessage x03 [x00; x00; x00; x05] [x16] "doc"))
  = ["SECSYNC_ERROR_23"].
Proof. vm_compute; reflexivity. Qed.

(* ===================================================================== *)
(** * Further properties *)
(* ===================================================================== *)

(** ** Ephemeral messages: the other outcomes *)

(** Every result is an error alone, or the [dispatch] of a message that
    opens. *)
Lemma ephemeral_result_cases (D : Ephemeral.Deps) m key currentDocId session
    keyPair :
  (exists code,
     Ephemeral.verifyAndDecryptEphemeralMessage D m key currentDocId session
       keyPair = Ephemeral.errorResult code)
  \/ (exists pk type sid ctr value,
        Ephemeral.opens D m key pk type sid ctr value
        /\ Ephemeral.verifyAndDecryptEphemeralMessage D m key currentDocId
             session keyPair
           = Ephemeral.dispatch D m currentDocId session keyPair pk type sid
               ctr value).
Proof.
  unfold Ephemeral.verifyAndDecryptEphemeralMessage,
    Ephemeral.verifyAndDecryptEphemeralMessage_try.
  destruct (Ephemeral.from_base64 D _) as [pk|] eqn:Hpk; simpl;
    [|left; by eexists].
  destruct (Ephemeral.verifySignature D _ _ pk) as [[|]|] eqn:Hsig; simpl;
    [|left; by eexists..].
  destruct (Ephemeral.decryptContent D m key) as [content|] eqn:Hdec;
    [|left; by eexists].
  destruct (Ephemeral.decodeHeader D content) as [[[[type sid] ctr] value]|]
    eqn:Hhdr; simpl; [|left; by eexists].
  right. exists pk, type, sid, ctr, value. split; [|reflexivity].
  split; [done|]. split; [done|]. by exists content.
Qed.

(** The header and the key of a message are functions of the message. *)
Lemma opens_inj (D : Ephemeral.Deps) m key pk pk' type type' sid sid' ctr ctr'
    value value' :
  Ephemeral.opens D m key pk type sid ctr value ->
  Ephemeral.opens D m key pk' type' sid' ctr' value' ->
  pk = pk' /\ type = type' /\ sid = sid' /\ ctr = ctr' /\ value = value'.
Proof.
  intros (Hpk & _ & content & Hdec & Hhdr) (Hpk' & _ & content' & Hdec' & Hhdr').
  rewrite Hpk in Hpk'. injection Hpk' as <-.
  rewrite Hdec in Hdec'. injection Hdec' as <-.
  rewrite Hhdr in Hhdr'. by injection Hhdr' as <- <- <- <-.
Qed.

(** X1.  The failures before a message is looked at, in the order they are
    detected: a public key that is not base64 is SECSYNC_ERROR_36; then a
    signature check that throws is SECSYNC_ERROR_36, and one that says the
    signature is invalid is SECSYNC_ERROR_38, whatever the ciphertext is;
    then a ciphertext that is not base64 or does not decrypt is
    SECSYNC_ERROR_21; then a plaintext whose header cannot be extracted is
    SECSYNC_ERROR_36.  Each is the error alone: no content, no proof, no
    valid sessions. *)
Theorem ephemeral_early_failures
    (D : Ephemeral.Deps) (m : Ephemeral.EphemeralMessage) (key : bytes)
    (currentDocId : string) (session : Ephemeral.EphemeralMessagesSession)
    (keyPair : KeyPair) :
  let r := Ephemeral.verifyAndDecryptEphemeralMessage D m key currentDocId
             session keyPair in
  let signed :=
    {| sc_nonce := Ephemeral.nonce m;
       sc_ciphertext := Ephemeral.ciphertext m;
       sc_publicData :=
         Ephemeral.string_to_base64 D
           (Ephemeral.canonicalize D (Ephemeral.publicData m)) |} in
  (Ephemeral.from_base64 D (Ephemeral.pubKey (Ephemeral.publicData m)) = None ->
   r = Ephemeral.errorResult "SECSYNC_ERROR_36")
  /\ (forall pk,
        Ephemeral.from_base64 D (Ephemeral.pubKey (Ephemeral.publicData m))
        = Some pk ->
        (Ephemeral.verifySignature D signed (Ephemeral.signature m) pk = None ->
         r = Ephemeral.errorResult "SECSYNC_ERROR_36")
        /\ (Ephemeral.verifySignature D signed (Ephemeral.signature m) pk
            = Some false ->
            r = Ephemeral.errorResult "SECSYNC_ERROR_38")
        /\ (Ephemeral.verifySignature D signed (Ephemeral.signature m) pk
            = Some true ->
            (Ephemeral.from_base64 D (Ephemeral.ciphertext m) = None ->
             r = Ephemeral.errorResult "SECSYNC_ERROR_21")
            /\ (forall ct,
                  Ephemeral.from_base64 D (Ephemeral.ciphertext m) = Some ct ->
                  Ephemeral.decryptAead D ct (sc_publicData signed) key
                    (Ephemeral.nonce m) = None ->
                  r = Ephemeral.errorResult "SECSYNC_ERROR_21")
            /\ (forall content,
                  Ephemeral.decryptContent D m key = Some content ->
                  Ephemeral.decodeHeader D content = None ->
                  r = Ephemeral.errorResult "SECSYNC_ERROR_36"))).
Proof.
  intros r signed. subst r signed.
  unfold Ephemeral.verifyAndDecryptEphemeralMessage,
    Ephemeral.verifyAndDecryptEphemeralMessage_try.
  split.
  - intros ->. reflexivity.
  - intros pk ->. simpl. split; [|split].
    + intros ->. reflexivity.
    + intros ->. reflexivity.
    + intros ->. simpl. unfold Ephemeral.decryptContent. repeat split.
      * intros ->. reflexivity.
      * intros ct -> Hdec. simpl. simpl in Hdec. rewrite Hdec. reflexivity.
      * intros content -> ->. reflexivity.
Qed.

(** A message of alice with a signature the check cannot read, with a
    readable signature that is not hers, and one sealed under another key
    than the receiver's. *)
Lemma ephemeral_early_failures_witness :
  Ephemeral.verifyAndDecryptEphemeralMessage Toy.ephemeral
    {| Ephemeral.ciphertext :=
         Ephemeral.ciphertext
           (Toy.ephemeralMessage x03 [x00; x00; x00; x01] [x16] "doc");
       Ephemeral.nonce := "n";
       Ephemeral.signature := "BROKEN";
       Ephemeral.publicData :=
         Ephemeral.publicData
           (Toy.ephemeralMessage x03 [x00; x00; x00; x01] [x16] "doc") |}
    Toy.key "doc" (Toy.bobSession 0) Toy.bob
  = Ephemeral.errorResult "SECSYNC_ERROR_36"
  /\ Ephemeral.verifyAndDecryptEphemeralMessage Toy.ephemeral
       {| Ephemeral.ciphertext :=
            Ephemeral.ciphertext
              (Toy.ephemeralMessage x03 [x00; x00; x00; x01] [x16] "doc");
          Ephemeral.nonce := "n";
          Ephemeral.signature := "0110";
          Ephemeral.publicData :=
            Ephemeral.publicData
              (Toy.ephemeralMessage x03 [x00; x00; x00; x01] [x16] "doc") |}
       Toy.key "doc" (Toy.bobSession 0) Toy.bob
     = Ephemeral.errorResult "SECSYNC_ERROR_38"
  /\ Ephemeral.verifyAndDecryptEphemeralMessage Toy.ephemeral
       (Toy.ephemeralMessage x03 [x00; x00; x00; x01] [x16] "doc")
       Toy.bobKey "doc" (Toy.bobSession 0) Toy.bob
     = Ephemeral.errorResult "SECSYNC_ERROR_21".
Proof.
  split; [|split].
  - destruct (ephemeral_early_failures Toy.ephemeral
                {| Ephemeral.ciphertext :=
                     Ephemeral.ciphertext
                       (Toy.ephemeralMessage x03 [x00; x00; x00; x01] [x16]
                          "doc");
                   Ephemeral.nonce := "n";
                   Ephemeral.signature := "BROKEN";
                   Ephemeral.publicData :=
                     Ephemeral.publicData
                       (Toy.ephemeralMessage x03 [x00; x00; x00; x01] [x16]
                          "doc") |}
                Toy.key "doc" (Toy.bobSession 0) Toy.bob) as [_ H].
    destruct (H Toy.aliceKey eq_refl) as (H36 & _ & _).
    apply H36. vm_compute; reflexivity.
  - destruct (ephemeral_early_failures Toy.ephemeral
                {| Ephemeral.ciphertext :=
                     Ephemeral.ciphertext
                       (Toy.ephemeralMessage x03 [x00; x00; x00; x01] [x16]
                          "doc");
                   Ephemeral.nonce := "n";
                   Ephemeral.signature := "0110";
                   Ephemeral.publicData :=
                     Ephemeral.publicData
                       (Toy.ephemeralMessage x03 [x00; x00; x00; x01] [x16]
                          "doc") |}
                Toy.key "doc" (Toy.bobSession 0) Toy.bob) as [_ H].
    destruct (H Toy.aliceKey eq_refl) as (_ & H38 & _).
    apply H38. vm_compute; reflexivity.
  - destruct (ephemeral_early_failures Toy.ephemeral
                (Toy.ephemeralMessage x03 [x00; x00; x00; x01] [x16] "doc")
                Toy.bobKey "doc" (Toy.bobSession 0) Toy.bob) as [_ H].
    destruct (H Toy.aliceKey eq_refl) as (_ & _ & H21).
    destruct H21 as (_ & Hdec & _); [vm_compute; reflexivity|].
    eapply Hdec; [reflexivity|vm_compute; reflexivity].
Defined.

(** [dispatch] on a message of the current document passes the document
    check. *)
Ltac dispatch_current Hopen Hdoc :=
  rewrite (opens_dispatch _ _ _ _ _ _ _ _ _ _ _ Hopen);
  unfold Ephemeral.dispatch;
  rewrite Hdoc, String.eqb_refl; cbn [negb].

(** X2.  An [initialize] message of the current document is answered with a
    proof for the sender's session id and a request for the sender's proof;
    the valid sessions are returned as they were, and the sender is not yet
    trusted: there is no content and no error. *)
Theorem initialize_answered_with_proof
    (D : Ephemeral.Deps) (m : Ephemeral.EphemeralMessage) (key : bytes)
    (currentDocId : string) (session : Ephemeral.EphemeralMessagesSession)
    (keyPair : KeyPair) (pk : bytes) (sid : string) (ctr : Z) (value : bytes) :
  Ephemeral.opens D m key pk (Some Ephemeral.messageTypes.initialize) sid ctr
    value ->
  Ephemeral.docId (Ephemeral.publicData m) = currentDocId ->
  Ephemeral.verifyAndDecryptEphemeralMessage D m key currentDocId session
    keyPair
  = {| Ephemeral.r_error := None;
       Ephemeral.r_content := None;
       Ephemeral.r_proof :=
         Some (Ephemeral.createEphemeralMessageProof D sid
                 (Ephemeral.id session) keyPair);
       Ephemeral.r_requestProof := Some true;
       Ephemeral.r_validSessions := Some (Ephemeral.validSessions session) |}.
Proof.
  intros Hopen Hdoc. dispatch_current Hopen Hdoc. reflexivity.
Qed.

Lemma initialize_answered_with_proof_witness :
  Ephemeral.verifyAndDecryptEphemeralMessage Toy.ephemeral
    (Toy.ephemeralMessage x00 [x00; x00; x00; x00] [] "doc")
    Toy.key "doc" SampleMachine.session Toy.bob
  = {| Ephemeral.r_error := None;
       Ephemeral.r_content := None;
       Ephemeral.r_proof :=
         Some (Toy.sessionProof Toy.aliceSessionId Toy.bobSessionId Toy.bobKey);
       Ephemeral.r_requestProof := Some true;
       Ephemeral.r_validSessions := Some ∅ |}.
Proof.
  apply (initialize_answered_with_proof Toy.ephemeral
           (Toy.ephemeralMessage x00 [x00; x00; x00; x00] [] "doc")
           Toy.key "doc" SampleMachine.session Toy.bob Toy.aliceKey
           Toy.aliceSessionId 0 []).
  - toy_opens (Toy.plaintext x00 [x00; x00; x00; x00] []).
  - reflexivity.
Defined.

(** X3.  A [proof] or [proofAndRequestProof] message of the current document
    whose session proof verifies makes the sender's session valid: the
    returned valid sessions map the sender's key to the session id and the
    counter of this very message, whatever was stored for the sender before
    (also a higher counter), and every other entry is kept.  A proof is
    returned only for [proofAndRequestProof], and no proof is requested. *)
Theorem valid_proof_sets_session
    (D : Ephemeral.Deps) (m : Ephemeral.EphemeralMessage) (key : bytes)
    (currentDocId : string) (session : Ephemeral.EphemeralMessagesSession)
    (keyPair : KeyPair) (pk : bytes) (type : option Z) (sid : string)
    (ctr : Z) (value : bytes) :
  Ephemeral.opens D m key pk type sid ctr value ->
  type = Some Ephemeral.messageTypes.proof
  \/ type = Some Ephemeral.messageTypes.proofAndRequestProof ->
  Ephemeral.docId (Ephemeral.publicData m) = currentDocId ->
  Ephemeral.verifyEphemeralSessionProof D value (Ephemeral.id session) sid pk
  = true ->
  Ephemeral.verifyAndDecryptEphemeralMessage D m key currentDocId session
    keyPair
  = {| Ephemeral.r_error := None;
       Ephemeral.r_content := None;
       Ephemeral.r_proof :=
         if bool_decide (type = Some Ephemeral.messageTypes.proofAndRequestProof)
         then Some (Ephemeral.createEphemeralMessageProof D sid
                      (Ephemeral.id session) keyPair)
         else None;
       Ephemeral.r_requestProof := Some false;
       Ephemeral.r_validSessions :=
         Some (<[Ephemeral.to_base64 D pk :=
                   {| Ephemeral.sessionId := sid;
                      Ephemeral.sessionCounter := ctr |}]>
                 (Ephemeral.validSessions session)) |}.
Proof.
  intros Hopen Htype Hdoc Hproof. dispatch_current Hopen Hdoc.
  destruct Htype as [-> | ->]; simpl; rewrite Hproof; reflexivity.
Qed.

(** Alice proves her session to bob, who had it with counter 5 already: the
    counter becomes the 2 of the proof message. *)
Lemma valid_proof_sets_session_witness :
  Ephemeral.verifyAndDecryptEphemeralMessage Toy.ephemeral
    (Toy.ephemeralMessage x01 [x00; x00; x00; x02]
       (Toy.sessionProof Toy.bobSessionId Toy.aliceSessionId Toy.aliceKey)
       "doc")
    Toy.key "doc" (Toy.bobSession 5) Toy.bob
  = {| Ephemeral.r_error := None;
       Ephemeral.r_content := None;
       Ephemeral.r_proof := None;
       Ephemeral.r_requestProof := Some false;
       Ephemeral.r_validSessions :=
         Some (<[Ephemeral.to_base64 Toy.ephemeral Toy.aliceKey :=
                   {| Ephemeral.sessionId := Toy.aliceSessionId;
                      Ephemeral.sessionCounter := 2 |}]>
                 (Ephemeral.validSessions (Toy.bobSession 5))) |}.
Proof.
  apply (valid_proof_sets_session Toy.ephemeral
           (Toy.ephemeralMessage x01 [x00; x00; x00; x02]
              (Toy.sessionProof Toy.bobSessionId Toy.aliceSessionId
                 Toy.aliceKey) "doc")
           Toy.key "doc" (Toy.bobSession 5) Toy.bob Toy.aliceKey
           (Some Ephemeral.messageTypes.proof) Toy.aliceSessionId 2
           (Toy.sessionProof Toy.bobSessionId Toy.aliceSessionId Toy.aliceKey)).
  - toy_opens (Toy.plaintext x01 [x00; x00; x00; x02]
                 (Toy.sessionProof Toy.bobSessionId Toy.aliceSessionId
                    Toy.aliceKey)).
  - left; reflexivity.
  - reflexivity.
  - vm_compute; reflexivity.
Defined.

(** X4.  A [message] of the current document from a sender without a valid
    session, or with another session id than the valid one, is not
    delivered: the result is SECSYNC_ERROR_22 together with a proof for the
    sender's session id and a request for the sender's proof, and the valid
    sessions as they were. *)
Theorem message_without_session_22
    (D : Ephemeral.Deps) (m : Ephemeral.EphemeralMessage) (key : bytes)
    (currentDocId : string) (session : Ephemeral.EphemeralMessagesSession)
    (keyPair : KeyPair) (pk : bytes) (sid : string) (ctr : Z) (value : bytes) :
  Ephemeral.opens D m key pk (Some Ephemeral.messageTypes.message) sid ctr
    value ->
  Ephemeral.docId (Ephemeral.publicData m) = currentDocId ->
  (forall stored,
     Ephemeral.validSessions session !! Ephemeral.to_base64 D pk = Some stored ->
     Ephemeral.sessionId stored <> sid) ->
  Ephemeral.verifyAndDecryptEphemeralMessage D m key currentDocId session
    keyPair
  = {| Ephemeral.r_error := Some "SECSYNC_ERROR_22";
       Ephemeral.r_content := None;
       Ephemeral.r_proof :=
         Some (Ephemeral.createEphemeralMessageProof D sid
                 (Ephemeral.id session) keyPair);
       Ephemeral.r_requestProof := Some true;
       Ephemeral.r_validSessions := Some (Ephemeral.validSessions session) |}.
Proof.
  intros Hopen Hdoc Hnone. dispatch_current Hopen Hdoc. simpl.
  destruct (Ephemeral.validSessions session !! Ephemeral.to_base64 D pk)
    as [stored|] eqn:Hs; [|reflexivity].
  destruct (String.eqb_spec (Ephemeral.sessionId stored) sid) as [Heq|Hne];
    [|reflexivity].
  by destruct (Hnone stored eq_refl).
Qed.

Lemma message_without_session_22_witness :
  Ephemeral.verifyAndDecryptEphemeralMessage Toy.ephemeral
    (Toy.ephemeralMessage x03 [x00; x00; x00; x01] [x16] "doc")
    Toy.key "doc" SampleMachine.session Toy.bob
  = {| Ephemeral.r_error := Some "SECSYNC_ERROR_22";
       Ephemeral.r_content := None;
       Ephemeral.r_proof :=
         Some (Toy.sessionProof Toy.aliceSessionId Toy.bobSessionId Toy.bobKey);
       Ephemeral.r_requestProof := Some true;
       Ephemeral.r_validSessions := Some ∅ |}.
Proof.
  apply (message_without_session_22 Toy.ephemeral
           (Toy.ephemeralMessage x03 [x00; x00; x00; x01] [x16] "doc")
           Toy.key "doc" SampleMachine.session Toy.bob Toy.aliceKey
           Toy.aliceSessionId 1 [x16]).
  - toy_opens (Toy.plaintext x03 [x00; x00; x00; x01] [x16]).
  - reflexivity.
  - intros stored H. vm_compute in H. discriminate.
Defined.

(** X5.  A message of the current document whose type is none of
    initialize, proof, proofAndRequestProof and message (also a missing
    type) is SECSYNC_ERROR_25, the error alone. *)
Theorem unknown_type_25
    (D : Ephemeral.Deps) (m : Ephemeral.EphemeralMessage) (key : bytes)
    (currentDocId : string) (session : Ephemeral.EphemeralMessagesSession)
    (keyPair : KeyPair) (pk : bytes) (type : option Z) (sid : string)
    (ctr : Z) (value : bytes) :
  Ephemeral.opens D m key pk type sid ctr value ->
  Ephemeral.docId (Ephemeral.publicData m) = currentDocId ->
  (forall t, type = Some t -> t < 0 \/ 3 < t) ->
  Ephemeral.verifyAndDecryptEphemeralMessage D m key currentDocId session
    keyPair
  = Ephemeral.errorResult "SECSYNC_ERROR_25".
Proof.
  intros Hopen Hdoc Htype. dispatch_current Hopen Hdoc.
  destruct type as [t|]; [|reflexivity].
  specialize (Htype t eq_refl).
  unfold Ephemeral.typeIs, Ephemeral.messageTypes.initialize,
    Ephemeral.messageTypes.proof, Ephemeral.messageTypes.proofAndRequestProof,
    Ephemeral.messageTypes.message.
  assert ((t =? 0) = false) as -> by lia.
  assert ((t =? 1) = false) as -> by lia.
  assert ((t =? 2) = false) as -> by lia.
  assert ((t =? 3) = false) as -> by lia.
  reflexivity.
Qed.

Lemma unknown_type_25_witness :
  Ephemeral.verifyAndDecryptEphemeralMessage Toy.ephemeral
    (Toy.ephemeralMessage x04 [x00; x00; x00; x09] [x16] "doc")
    Toy.key "doc" (Toy.bobSession 5) Toy.bob
  = Ephemeral.errorResult "SECSYNC_ERROR_25".
Proof.
  apply (unknown_type_25 Toy.ephemeral
           (Toy.ephemeralMessage x04 [x00; x00; x00; x09] [x16] "doc")
           Toy.key "doc" (Toy.bobSession 5) Toy.bob Toy.aliceKey
           (Some 4) Toy.aliceSessionId 9 [x16]).
  - toy_opens (Toy.plaintext x04 [x00; x00; x00; x09] [x16]).
  - reflexivity.
  - intros t [= <-]. lia.
Defined.

(** What [dispatch] returns as valid sessions: the ones it was given, or
    those with the sender's entry set to the header of the message. *)
Lemma dispatch_validSessions (D : Ephemeral.Deps) m currentDocId session
    keyPair pk type sid ctr value vs' :
  Ephemeral.r_validSessions
    (Ephemeral.dispatch D m currentDocId session keyPair pk type sid ctr value)
  = Some vs' ->
  vs' = Ephemeral.validSessions session
  \/ vs' = <[Ephemeral.to_base64 D pk :=
               {| Ephemeral.sessionId := sid;
                  Ephemeral.sessionCounter := ctr |}]>
             (Ephemeral.validSessions session).
Proof.
  unfold Ephemeral.dispatch.
  repeat match goal with
         | |- context [if ?b then _ else _] => destruct b
         | |- context [match ?o with Some _ => _ | None => _ end] =>
             destruct o
         end; simpl; intros [= <-]; auto.
Qed.

(** The only way to a content. *)
Lemma content_inversion
    (D : Ephemeral.Deps) (m : Ephemeral.EphemeralMessage) (key : bytes)
    (currentDocId : string) (session : Ephemeral.EphemeralMessagesSession)
    (keyPair : KeyPair) (content : bytes) :
  let r := Ephemeral.verifyAndDecryptEphemeralMessage D m key currentDocId
             session keyPair in
  Ephemeral.r_content r = Some content ->
  exists pk sid ctr stored,
    Ephemeral.opens D m key pk (Some Ephemeral.messageTypes.message) sid ctr
      content
    /\ Ephemeral.docId (Ephemeral.publicData m) = currentDocId
    /\ Ephemeral.validSessions session !! Ephemeral.to_base64 D pk = Some stored
    /\ Ephemeral.sessionId stored = sid
    /\ Ephemeral.sessionCounter stored < ctr
    /\ Ephemeral.r_error r = None
    /\ Ephemeral.r_proof r = None
    /\ Ephemeral.r_validSessions r
       = Some (<[Ephemeral.to_base64 D pk :=
                   {| Ephemeral.sessionId := sid;
                      Ephemeral.sessionCounter := ctr |}]>
                 (Ephemeral.validSessions session)).
Proof.
  intros r Hcontent. subst r.
  destruct (ephemeral_result_cases D m key currentDocId session keyPair)
    as [[code Herr] | (pk & type & sid & ctr & value & Hopen & Hres)].
  { rewrite Herr in Hcontent. discriminate. }
  rewrite Hres in Hcontent |- *. clear Hres.
  unfold Ephemeral.dispatch in *.
  destruct (String.eqb_spec (Ephemeral.docId (Ephemeral.publicData m))
              currentDocId) as [Hdoc|Hdoc]; cbn [negb] in *; [|discriminate].
  destruct (Ephemeral.typeIs type Ephemeral.messageTypes.initialize);
    [discriminate|].
  destruct (Ephemeral.typeIs type Ephemeral.messageTypes.proof
            || Ephemeral.typeIs type Ephemeral.messageTypes.proofAndRequestProof).
  { destruct (Ephemeral.verifyEphemeralSessionProof D _ _ _ _);
      discriminate. }
  destruct (Ephemeral.typeIs type Ephemeral.messageTypes.message) eqn:Htype;
    [|discriminate].
  destruct (Ephemeral.validSessions session !! Ephemeral.to_base64 D pk)
    as [stored|] eqn:Hs; [|discriminate].
  destruct (String.eqb_spec (Ephemeral.sessionId stored) sid) as [Hsid|Hsid];
    cbn [negb] in *; [|discriminate].
  destruct (Ephemeral.sessionCounter stored >=? ctr) eqn:Hctr;
    [discriminate|].
  simpl in Hcontent. injection Hcontent as ->.
  assert (type = Some Ephemeral.messageTypes.message) as ->.
  { destruct type as [t|]; [|discriminate]. simpl in Htype.
    apply Z.eqb_eq in Htype. by subst t. }
  exists pk, sid, ctr, stored.
  split; [exact Hopen|]. repeat split; try done. lia.
Qed.

(** X6.  Content is returned only for a [message] of the current document
    whose sender has a valid session with the message's session id and a
    stored counter below the message's counter; it then comes without an
    error and without a proof, and with the sender's stored counter
    advanced to the message's. *)
Theorem content_only_from_valid_session
    (D : Ephemeral.Deps) (m : Ephemeral.EphemeralMessage) (key : bytes)
    (currentDocId : string) (session : Ephemeral.EphemeralMessagesSession)
    (keyPair : KeyPair) (content : bytes) :
  let r := Ephemeral.verifyAndDecryptEphemeralMessage D m key currentDocId
             session keyPair in
  Ephemeral.r_content r = Some content ->
  exists pk sid ctr stored,
    Ephemeral.opens D m key pk (Some Ephemeral.messageTypes.message) sid ctr
      content
    /\ Ephemeral.docId (Ephemeral.publicData m) = currentDocId
    /\ Ephemeral.validSessions session !! Ephemeral.to_base64 D pk = Some stored
    /\ Ephemeral.sessionId stored = sid
    /\ Ephemeral.sessionCounter stored < ctr
    /\ Ephemeral.r_error r = None
    /\ Ephemeral.r_proof r = None
    /\ Ephemeral.r_validSessions r
       = Some (<[Ephemeral.to_base64 D pk :=
                   {| Ephemeral.sessionId := sid;
                      Ephemeral.sessionCounter := ctr |}]>
                 (Ephemeral.validSessions session)).
Proof. apply content_inversion. Qed.

Lemma content_only_from_valid_session_witness :
  exists pk sid ctr stored,
    Ephemeral.opens Toy.ephemeral
      (Toy.ephemeralMessage x03 [x00; x00; x01; x00] [x37] "doc") Toy.key pk
      (Some Ephemeral.messageTypes.message) sid ctr [x37]
    /\ Ephemeral.validSessions (Toy.bobSession 5)
         !! Ephemeral.to_base64 Toy.ephemeral pk = Some stored
    /\ Ephemeral.sessionId stored = sid
    /\ Ephemeral.sessionCounter stored < ctr.
Proof.
  destruct (content_only_from_valid_session Toy.ephemeral
              (Toy.ephemeralMessage x03 [x00; x00; x01; x00] [x37] "doc")
              Toy.key "doc" (Toy.bobSession 5) Toy.bob [x37])
    as (pk & sid & ctr & stored & H1 & _ & H2 & H3 & H4 & _).
  - vm_compute; reflexivity.
  - exists pk, sid, ctr, stored. auto.
Defined.

(** X7.  Whatever the message is, the valid sessions that are returned
    differ from the stored ones at most in the entry of the message's
    author: the sessions of all other peers are kept. *)
Theorem other_peers_sessions_kept
    (D : Ephemeral.Deps) (m : Ephemeral.EphemeralMessage) (key : bytes)
    (currentDocId : string) (session : Ephemeral.EphemeralMessagesSession)
    (keyPair : KeyPair) (pk : bytes) (vs' : gmap string Ephemeral.Session)
    (peer : string) :
  Ephemeral.r_validSessions
    (Ephemeral.verifyAndDecryptEphemeralMessage D m key currentDocId session
       keyPair) = Some vs' ->
  Ephemeral.from_base64 D (Ephemeral.pubKey (Ephemeral.publicData m)) = Some pk ->
  peer <> Ephemeral.to_base64 D pk ->
  vs' !! peer = Ephemeral.validSessions session !! peer.
Proof.
  intros Hvs Hpk Hpeer.
  destruct (ephemeral_result_cases D m key currentDocId session keyPair)
    as [[code Herr] | (pk' & type & sid & ctr & value & Hopen & Hres)].
  { rewrite Herr in Hvs. discriminate. }
  rewrite Hres in Hvs. apply dispatch_validSessions in Hvs.
  destruct Hopen as (Hpk' & _). rewrite Hpk in Hpk'. injection Hpk' as <-.
  destruct Hvs as [-> | ->]; [done|]. by rewrite lookup_insert_ne.
Qed.

(** Bob holds the sessions of alice (counter 5) and of carol (counter 40);
    alice's message with counter 256 is delivered, and carol's session is
    as it was. *)
Lemma other_peers_sessions_kept_witness :
  let vs' :=
    <[Ephemeral.to_base64 Toy.ephemeral Toy.aliceKey :=
        {| Ephemeral.sessionId := Toy.aliceSessionId;
           Ephemeral.sessionCounter := 256 |}]>
      (Ephemeral.validSessions (Toy.bobSessionWithCarol 5)) in
  Ephemeral.r_validSessions
    (Ephemeral.verifyAndDecryptEphemeralMessage Toy.ephemeral
       (Toy.ephemeralMessage x03 [x00; x00; x01; x00] [x37] "doc")
       Toy.key "doc" (Toy.bobSessionWithCarol 5) Toy.bob) = Some vs'
  /\ vs' !! Ephemeral.to_base64 Toy.ephemeral Toy.carolKey
     = Some {| Ephemeral.sessionId := Toy.carolSessionId;
               Ephemeral.sessionCounter := 40 |}.
Proof.
  intros vs'. split; [vm_compute; reflexivity|].
  rewrite (other_peers_sessions_kept Toy.ephemeral
             (Toy.ephemeralMessage x03 [x00; x00; x01; x00] [x37] "doc")
             Toy.key "doc" (Toy.bobSessionWithCarol 5) Toy.bob Toy.aliceKey
             vs' (Ephemeral.to_base64 Toy.ephemeral Toy.carolKey)).
  - vm_compute; reflexivity.
  - vm_compute; reflexivity.
  - reflexivity.
  - vm_compute. discriminate.
Defined.

(** X8.  A message that was delivered is not delivered twice: verified
    again against the valid sessions that its delivery returned, the same
    message is SECSYNC_ERROR_23. *)
Theorem delivered_message_replay_23
    (D : Ephemeral.Deps) (m : Ephemeral.EphemeralMessage) (key : bytes)
    (currentDocId : string)
    (session session' : Ephemeral.EphemeralMessagesSession)
    (keyPair keyPair' : KeyPair) (content : bytes) :
  let r := Ephemeral.verifyAndDecryptEphemeralMessage D m key currentDocId
             session keyPair in
  Ephemeral.r_content r = Some content ->
  Ephemeral.r_validSessions r = Some (Ephemeral.validSessions session') ->
  Ephemeral.verifyAndDecryptEphemeralMessage D m key currentDocId session'
    keyPair'
  = Ephemeral.errorResult "SECSYNC_ERROR_23".
Proof.
  intros r Hcontent Hnext.
  destruct (content_inversion D m key currentDocId session keyPair content
              Hcontent)
    as (pk & sid & ctr & stored & Hopen & Hdoc & _ & _ & _ & _ & _ & Hvs).
  fold r in Hvs. rewrite Hvs in Hnext. injection Hnext as Hnext.
  rewrite (opens_dispatch D _ _ _ _ _ _ _ _ _ _ Hopen).
  rewrite (dispatch_message D _ _ _ _ _ sid ctr ctr _ Hdoc).
  - by assert ((ctr >=? ctr) = true) as -> by lia.
  - rewrite <- Hnext. apply lookup_insert_eq.
Qed.

(** The message [22] with counter 6 is delivered to bob, who holds alice's
    session with counter 5; the same message against the returned sessions
    is SECSYNC_ERROR_23. *)
Lemma delivered_message_replay_23_witness :
  Ephemeral.verifyAndDecryptEphemeralMessage Toy.ephemeral
    (Toy.ephemeralMessage x03 [x00; x00; x00; x06] [x16] "doc")
    Toy.key "doc" (Toy.bobSession 6) Toy.bob
  = Ephemeral.errorResult "SECSYNC_ERROR_23".
Proof.
  apply (delivered_message_replay_23 Toy.ephemeral
           (Toy.ephemeralMessage x03 [x00; x00; x00; x06] [x16] "doc")
           Toy.key "doc" (Toy.bobSession 5) (Toy.bobSession 6) Toy.bob
           Toy.bob [x16]).
  - vm_compute; reflexivity.
  - vm_compute; reflexivity.
Defined.

(** X9.  A valid proof reopens the window: when the receiver holds the
    sender's session with a counter [c1], a message of that session with a
    counter [ctr <= c1] is refused as a replay; but once a proof message of
    the same session with a counter [c0 < ctr] was processed, which sets the
    stored counter to [c0], the same message is delivered against the
    returned valid sessions. *)
Theorem proof_resets_counter
    (D : Ephemeral.Deps) (p m : Ephemeral.EphemeralMessage) (key : bytes)
    (currentDocId : string)
    (session session' : Ephemeral.EphemeralMessagesSession)
    (keyPair : KeyPair) (pk : bytes) (type : option Z) (sid : string)
    (c0 c1 ctr : Z) (proof value : bytes) :
  Ephemeral.opens D p key pk type sid c0 proof ->
  type = Some Ephemeral.messageTypes.proof
  \/ type = Some Ephemeral.messageTypes.proofAndRequestProof ->
  Ephemeral.verifyEphemeralSessionProof D proof (Ephemeral.id session) sid pk
  = true ->
  Ephemeral.opens D m key pk (Some Ephemeral.messageTypes.message) sid ctr
    value ->
  Ephemeral.docId (Ephemeral.publicData p) = currentDocId ->
  Ephemeral.docId (Ephemeral.publicData m) = currentDocId ->
  Ephemeral.validSessions session !! Ephemeral.to_base64 D pk
  = Some {| Ephemeral.sessionId := sid; Ephemeral.sessionCounter := c1 |} ->
  c0 < ctr <= c1 ->
  Ephemeral.r_validSessions
    (Ephemeral.verifyAndDecryptEphemeralMessage D p key currentDocId session
       keyPair) = Some (Ephemeral.validSessions session') ->
  Ephemeral.verifyAndDecryptEphemeralMessage D m key currentDocId session
    keyPair = Ephemeral.errorResult "SECSYNC_ERROR_23"
  /\ Ephemeral.r_content
       (Ephemeral.verifyAndDecryptEphemeralMessage D m key currentDocId
          session' keyPair) = Some value.
Proof.
  intros Hp Htype Hproof Hm Hdocp Hdocm Hstored Hc Hnext. split.
  - rewrite (opens_dispatch D _ _ _ _ _ _ _ _ _ _ Hm).
    rewrite (dispatch_message D _ _ _ _ _ sid c1 ctr _ Hdocm Hstored).
    by assert ((c1 >=? ctr) = true) as -> by lia.
  - revert Hnext. dispatch_current Hp Hdocp.
    assert (Ephemeral.typeIs type Ephemeral.messageTypes.initialize = false)
      as -> by (by destruct Htype as [-> | ->]).
    assert (Ephemeral.typeIs type Ephemeral.messageTypes.proof
            || Ephemeral.typeIs type Ephemeral.messageTypes.proofAndRequestProof
            = true) as -> by (by destruct Htype as [-> | ->]).
    rewrite Hproof. cbn [Ephemeral.r_validSessions]. intros [= Hnext].
    rewrite (opens_dispatch D _ _ _ _ _ _ _ _ _ _ Hm).
    rewrite (dispatch_message D _ _ _ _ _ sid c0 ctr _ Hdocm).
    + by assert ((c0 >=? ctr) = false) as -> by lia.
    + rewrite <- Hnext. apply lookup_insert_eq.
Qed.

(** Bob holds alice's session with counter 5.  Her message with counter 3
    is a replay; after her proof message with counter 2 it is delivered. *)
Lemma proof_resets_counter_witness :
  Ephemeral.verifyAndDecryptEphemeralMessage Toy.ephemeral
    (Toy.ephemeralMessage x03 [x00; x00; x00; x03] [x16] "doc")
    Toy.key "doc" (Toy.bobSession 5) Toy.bob
  = Ephemeral.errorResult "SECSYNC_ERROR_23"
  /\ Ephemeral.r_content
       (Ephemeral.verifyAndDecryptEphemeralMessage Toy.ephemeral
          (Toy.ephemeralMessage x03 [x00; x00; x00; x03] [x16] "doc")
          Toy.key "doc" (Toy.bobSession 2) Toy.bob) = Some [x16].
Proof.
  apply (proof_resets_counter Toy.ephemeral
           (Toy.ephemeralMessage x01 [x00; x00; x00; x02]
              (Toy.sessionProof Toy.bobSessionId Toy.aliceSessionId
                 Toy.aliceKey) "doc")
           (Toy.ephemeralMessage x03 [x00; x00; x00; x03] [x16] "doc")
           Toy.key "doc" (Toy.bobSession 5) (Toy.bobSession 2) Toy.bob
           Toy.aliceKey (Some Ephemeral.messageTypes.proof)
           Toy.aliceSessionId 2 5 3
           (Toy.sessionProof Toy.bobSessionId Toy.aliceSessionId Toy.aliceKey)
           [x16]).
  - toy_opens (Toy.plaintext x01 [x00; x00; x00; x02]
                 (Toy.sessionProof Toy.bobSessionId Toy.aliceSessionId
                    Toy.aliceKey)).
  - left; reflexivity.
  - vm_compute; reflexivity.
  - toy_opens (Toy.plaintext x03 [x00; x00; x00; x03] [x16]).
  - reflexivity.
  - reflexivity.
  - vm_compute; reflexivity.
  - lia.
  - vm_compute; reflexivity.
Defined.

(** ** The backend's update store: what an accepted update changes *)

(** X10.  What [createUpdate] persists.  A rejected update leaves the
    store as it was.  An accepted update leaves the documents, every other
    snapshot and the stored updates; it appends exactly one update row,
    which holds the update itself, its author and clock, and the snapshot's
    previous [latestVersion] + 1 as version; and on the referenced snapshot,
    which is the active one of its document, it raises [latestVersion] by
    one and changes in the stored clocks at most the entry of the update's
    author. *)
Theorem server_createUpdate_frame
    {A : Type} (serializeUpdate : Server.UpdateRow -> A)
    (update : Update) (db db' : Server.Database) (outcome : string + A) :
  Server.createUpdate serializeUpdate update db = (db', outcome) ->
  match outcome with
  | inl _ => db' = db
  | inr a =>
      exists s d s',
        Server.snapshots db !! refSnapshotId (publicData update) = Some s
        /\ Server.documents db !! Server.documentId s = Some d
        /\ Server.activeSnapshotId d = Some (refSnapshotId (publicData update))
        /\ a = serializeUpdate (Server.acceptedRow s update)
        /\ Server.documents db' = Server.documents db
        /\ (forall id, id <> refSnapshotId (publicData update) ->
            Server.snapshots db' !! id = Server.snapshots db !! id)
        /\ Server.updates db'
           = (Server.updates db ++ [Server.acceptedRow s update])%list
        /\ Server.snapshots db' !! refSnapshotId (publicData update) = Some s'
        /\ Server.documentId s' = Server.documentId s
        /\ Server.latestVersion s' = Server.latestVersion s + 1
        /\ match Server.clocks s, Server.clocks s' with
           | Server.JsonObject entries, Server.JsonObject entries' =>
               forall author, author <> pubKey (publicData update) ->
                              entries' !! author = entries !! author
           | stored, stored' => stored' = stored
           end
  end.
Proof.
  intros Hrun.
  destruct (createUpdate_cases serializeUpdate update db)
    as [[e Hrej] | (s & d & newClocks & Hs & Hd & Hact & Hck & Hacc)].
  - rewrite Hrej in Hrun. by injection Hrun as <- <-.
  - rewrite Hacc in Hrun. injection Hrun as <- <-.
    exists s, d,
      {| Server.documentId := Server.documentId s;
         Server.latestVersion := Server.latestVersion s + 1;
         Server.clocks := newClocks |}.
    repeat split; try done.
    + intros id Hid. simpl. by rewrite lookup_insert_ne.
    + simpl. apply lookup_insert_eq.
    + apply checkClocks_accepts in Hck. simpl.
      destruct (Server.clocks s); try (by subst newClocks).
      destruct Hck as [-> _]. intros author Hauthor.
      by rewrite lookup_insert_ne.
Qed.

(** Alice's update of clock 7 after her clock 6, next to bob's clock 2. *)
Lemma server_createUpdate_frame_witness :
  exists s',
    Server.snapshots
      (Server.createUpdate (fun row => row) (Store.updateWithClock 7)
         (Store.withClocks
            (Server.JsonObject {[ "alice" := 6; "bob" := 2 ]}))).1
      !! "snap" = Some s'
    /\ Server.latestVersion s' = 3 + 1.
Proof.
  pose proof (server_createUpdate_frame (fun row => row)
                (Store.updateWithClock 7)
                (Store.withClocks
                   (Server.JsonObject {[ "alice" := 6; "bob" := 2 ]}))
                (Server.createUpdate (fun row => row) (Store.updateWithClock 7)
                   (Store.withClocks
                      (Server.JsonObject {[ "alice" := 6; "bob" := 2 ]}))).1
                (inr (Store.rowWithClock 7))) as H.
  destruct H as (s & d & s' & Hs & _ & _ & _ & _ & _ & _ & Hs' & _ & Hv & _).
  - vm_compute; reflexivity.
  - exists s'. split.
    + exact Hs'.
    + rewrite Hv. vm_compute in Hs. by injection Hs as <-.
Defined.

(** X11.  When the clocks stored on the active snapshot are not a JSON
    object (null, an array, a primitive), [createUpdate] accepts every
    update that references the snapshot, whatever its clock, and persists
    the clocks value unchanged. *)
Theorem server_createUpdate_without_clock_object
    {A : Type} (serializeUpdate : Server.UpdateRow -> A)
    (update : Update) (db : Server.Database)
    (s : Server.SnapshotRow) (d : Server.DocumentRow) :
  Server.snapshots db !! refSnapshotId (publicData update) = Some s ->
  Server.documents db !! Server.documentId s = Some d ->
  Server.activeSnapshotId d = Some (refSnapshotId (publicData update)) ->
  Server.isJsonObject (Server.clocks s) = false ->
  Server.createUpdate serializeUpdate update db
  = (Server.acceptedStore db s update (Server.clocks s),
     inr (serializeUpdate (Server.acceptedRow s update))).
Proof.
  intros Hs Hd Hact Hobj.
  rewrite (createUpdate_active serializeUpdate update db s d Hs Hd Hact).
  by destruct (Server.clocks s).
Qed.

Lemma server_createUpdate_without_clock_object_witness :
  Server.createUpdate (fun row => row) (Store.updateWithClock 1000)
    (Store.withClocks (Server.JsonArray [1; 2]))
  = (Server.acceptedStore (Store.withClocks (Server.JsonArray [1; 2]))
       {| Server.documentId := "doc"; Server.latestVersion := 3;
          Server.clocks := Server.JsonArray [1; 2] |}
       (Store.updateWithClock 1000) (Server.JsonArray [1; 2]),
     inr (Store.rowWithClock 1000)).
Proof.
  apply (server_createUpdate_without_clock_object (fun row => row)
           (Store.updateWithClock 1000)
           (Store.withClocks (Server.JsonArray [1; 2]))
           {| Server.documentId := "doc"; Server.latestVersion := 3;
              Server.clocks := Server.JsonArray [1; 2] |}
           {| Server.activeSnapshotId := Some "snap" |});
    reflexivity.
Defined.

(** The store after an accepted update expects the author's next clock. *)
Lemma acceptedStore_expects (db : Server.Database) (s : Server.SnapshotRow)
    (d : Server.DocumentRow) (update : Update) (entries : gmap string Z) :
  Server.documents db !! Server.documentId s = Some d ->
  let db' := Server.acceptedStore db s update
               (Server.JsonObject (<[pubKey (publicData update) :=
                                       clock (publicData update)]> entries)) in
  let s' := {| Server.documentId := Server.documentId s;
               Server.latestVersion := Server.latestVersion s + 1;
               Server.clocks :=
                 Server.JsonObject (<[pubKey (publicData update) :=
                                        clock (publicData update)]> entries) |} in
  Server.snapshots db' !! refSnapshotId (publicData update) = Some s'
  /\ Server.documents db' !! Server.documentId s' = Some d
  /\ Server.expectsClock (<[pubKey (publicData update) :=
                              clock (publicData update)]> entries)
       (pubKey (publicData update)) (clock (publicData update) + 1).
Proof.
  intros Hd db' s'. split; [apply lookup_insert_eq|]. split; [exact Hd|].
  right. rewrite lookup_insert_eq. f_equal. lia.
Qed.

(** X12.  After [createUpdate] accepted an update on a snapshot whose
    clocks are a JSON object, the next update of the same author on that
    snapshot is accepted only with the following clock: with any other
    clock, and so the same update once more, it is rejected with "Update
    clock incorrect." and the store stays; with the following clock it is
    accepted and gets the version after the one of the first update. *)
Theorem server_update_after_accepted
    {A : Type} (serializeUpdate : Server.UpdateRow -> A)
    (update next : Update) (db db' : Server.Database) (a : A)
    (s : Server.SnapshotRow) (entries : gmap string Z) :
  Server.snapshots db !! refSnapshotId (publicData update) = Some s ->
  Server.clocks s = Server.JsonObject entries ->
  Server.createUpdate serializeUpdate update db = (db', inr a) ->
  refSnapshotId (publicData next) = refSnapshotId (publicData update) ->
  pubKey (publicData next) = pubKey (publicData update) ->
  (clock (publicData next) <> clock (publicData update) + 1 ->
   Server.createUpdate serializeUpdate next db'
   = (db', inl "Update clock incorrect."))
  /\ (clock (publicData next) = clock (publicData update) + 1 ->
      exists db'' row,
        Server.createUpdate serializeUpdate next db'
        = (db'', inr (serializeUpdate row))
        /\ Server.data row = next
        /\ Server.version row = Server.latestVersion s + 2).
Proof.
  intros Hs Hclocks Hrun Href Hpk.
  destruct (createUpdate_cases serializeUpdate update db)
    as [[e Hrej] | (s0 & d & newClocks & Hs0 & Hd & Hact & Hck & Hacc)].
  { rewrite Hrej in Hrun. discriminate. }
  rewrite Hs in Hs0. injection Hs0 as <-.
  apply checkClocks_accepts in Hck. rewrite Hclocks in Hck.
  destruct Hck as [-> _].
  rewrite Hacc in Hrun. injection Hrun as <- _.
  destruct (acceptedStore_expects db s d update entries Hd)
    as (Hs' & Hd' & Hexp).
  split.
  - intros Hne.
    eapply (createUpdate_unexpected serializeUpdate next);
      rewrite ?Href, ?Hpk; eauto.
  - intros Heq. rewrite <- Heq in Hexp.
    eexists _, _. split; [|split].
    + eapply (createUpdate_expected serializeUpdate next);
        rewrite ?Href, ?Hpk; eauto.
    + reflexivity.
    + simpl. lia.
Qed.

(** Alice's clock 7 is accepted at version 4; then clock 7 once more is
    rejected, and clock 8 gets version 5. *)
Lemma server_update_after_accepted_witness :
  let db := Store.withClocks (Server.JsonObject {[ "alice" := 6 ]}) in
  let db' := (Server.createUpdate (fun row => row)
                (Store.updateWithClock 7) db).1 in
  Server.createUpdate (fun row => row) (Store.updateWithClock 7) db'
  = (db', inl "Update clock incorrect.")
  /\ exists db'' row,
       Server.createUpdate (fun row => row) (Store.updateWithClock 8) db'
       = (db'', inr row)
       /\ Server.data row = Store.updateWithClock 8
       /\ Server.version row = 3 + 2.
Proof.
  intros db db'. split.
  - eapply (server_update_after_accepted (fun row => row)
              (Store.updateWithClock 7) (Store.updateWithClock 7) db db'
              (Store.rowWithClock 7)).
    + reflexivity.
    + reflexivity.
    + vm_compute; reflexivity.
    + reflexivity.
    + reflexivity.
    + simpl. lia.
  - eapply (server_update_after_accepted (fun row => row)
              (Store.updateWithClock 7) (Store.updateWithClock 8) db db'
              (Store.rowWithClock 7)
              {| Server.documentId := "doc"; Server.latestVersion := 3;
                 Server.clocks := Server.JsonObject {[ "alice" := 6 ]} |}).
    + reflexivity.
    + reflexivity.
    + vm_compute; reflexivity.
    + reflexivity.
    + reflexivity.
    + reflexivity.
Defined.

Lemma acceptedRows_cons latest update rest :
  Server.acceptedRows latest (update :: rest)
  = Server.acceptedRow
      {| Server.documentId := ""; Server.latestVersion := latest;
         Server.clocks := Server.JsonNull |} update
    :: Server.acceptedRows (latest + 1) rest.
Proof.
  unfold Server.acceptedRows, Server.acceptedRow. rewrite imap_cons.
  apply (f_equal2 cons).
  - simpl. f_equal. lia.
  - apply imap_ext. intros i u _. simpl. f_equal. lia.
Qed.

Lemma consecutiveFrom_cons ref author next update rest :
  Server.consecutiveFrom ref author next (update :: rest) ->
  refSnapshotId (publicData update) = ref
  /\ pubKey (publicData update) = author
  /\ clock (publicData update) = next
  /\ Server.consecutiveFrom ref author (next + 1) rest.
Proof.
  intros H. destruct (H 0%nat update eq_refl) as (Hr & Hp & Hc).
  split; [done|]. split; [done|]. split; [simpl in Hc; lia|].
  intros i u Hu. destruct (H (S i) u Hu) as (Hr' & Hp' & Hc').
  split; [done|]. split; [done|]. lia.
Qed.

(** X13.  On a snapshot that is active and whose clocks are a JSON object,
    the updates of one author that carry the clocks the store expects next
    ([next], [next + 1], ..., where [next] is the stored clock + 1 of an
    author with an entry, and 0 for an author without an entry whose key is
    not a property name the clocks object inherits), submitted in this
    order, are all accepted:
    they are stored in this order with the versions [latestVersion + 1],
    [latestVersion + 2], ..., the snapshot's [latestVersion] grows by their
    number, and the store then expects the clock after the last. *)
Theorem server_consecutive_updates_accepted
    {A : Type} (serializeUpdate : Server.UpdateRow -> A)
    (updates : list Update) (ref author : string) (next : Z)
    (db : Server.Database) (s : Server.SnapshotRow) (d : Server.DocumentRow)
    (entries : gmap string Z) :
  Server.snapshots db !! ref = Some s ->
  Server.documents db !! Server.documentId s = Some d ->
  Server.activeSnapshotId d = Some ref ->
  Server.clocks s = Server.JsonObject entries ->
  Server.expectsClock entries author next ->
  Server.consecutiveFrom ref author next updates ->
  exists db' s' entries',
    Server.createUpdates serializeUpdate updates db
    = (db', map (fun row => inr (serializeUpdate row))
              (Server.acceptedRows (Server.latestVersion s) updates))
    /\ Server.updates db'
       = (Server.updates db
          ++ Server.acceptedRows (Server.latestVersion s) updates)%list
    /\ Server.snapshots db' !! ref = Some s'
    /\ Server.latestVersion s'
       = Server.latestVersion s + Z.of_nat (length updates)
    /\ Server.clocks s' = Server.JsonObject entries'
    /\ Server.expectsClock entries' author (next + Z.of_nat (length updates)).
Proof.
  revert next db s entries.
  induction updates as [|update rest IH];
    intros next db s entries Hs Hd Hact Hclocks Hexp Hcons.
  - exists db, s, entries. simpl. rewrite app_nil_r, !Z.add_0_r. done.
  - apply consecutiveFrom_cons in Hcons as (Href & Hpk & Hclock & Hrest).
    subst ref author next.
    pose proof (createUpdate_expected serializeUpdate update db s d entries
                  Hs Hd Hact Hclocks Hexp) as Hacc.
    destruct (acceptedStore_expects db s d update entries Hd)
      as (Hs1 & Hd1 & Hexp1).
    destruct (IH _ _ _ _ Hs1 Hd1 Hact eq_refl Hexp1 Hrest)
      as (db' & s' & entries' & Hrun & Hupd & Hs' & Hver & Hcl & Hexp').
    exists db', s', entries'.
    split.
    { rewrite acceptedRows_cons. simpl. rewrite Hacc.
      simpl in Hrun. rewrite Hrun. reflexivity. }
    split.
    { rewrite Hupd, acceptedRows_cons. simpl. by rewrite <- app_assoc. }
    split; [done|]. split.
    { rewrite Hver. cbn [length Server.latestVersion]. lia. }
    split; [done|].
    replace (clock (publicData update) + Z.of_nat (length (update :: rest)))
      with (clock (publicData update) + 1 + Z.of_nat (length rest))
      by (cbn [length]; lia).
    exact Hexp'.
Qed.

(** Alice's first three updates on a snapshot at version 3. *)
Lemma server_consecutive_updates_accepted_witness :
  exists db' s',
    Server.createUpdates (fun row => row)
      [Store.updateWithClock 0; Store.updateWithClock 1;
       Store.updateWithClock 2]
      (Store.withClocks (Server.JsonObject ∅))
    = (db', [inr {| Server.data := Store.updateWithClock 0;
                    Server.version := 4; Server.snapshotId := "snap";
                    Server.snapshotVersion := 0;
                    Server.row_pubKey := "alice" |};
             inr {| Server.data := Store.updateWithClock 1;
                    Server.version := 5; Server.snapshotId := "snap";
                    Server.snapshotVersion := 1;
                    Server.row_pubKey := "alice" |};
             inr {| Server.data := Store.updateWithClock 2;
                    Server.version := 6; Server.snapshotId := "snap";
                    Server.snapshotVersion := 2;
                    Server.row_pubKey := "alice" |}])
    /\ Server.snapshots db' !! "snap" = Some s'
    /\ Server.latestVersion s' = 3 + 3.
Proof.
  destruct (server_consecutive_updates_accepted (fun row => row)
              [Store.updateWithClock 0; Store.updateWithClock 1;
               Store.updateWithClock 2] "snap" "alice" 0
              (Store.withClocks (Server.JsonObject ∅))
              {| Server.documentId := "doc"; Server.latestVersion := 3;
                 Server.clocks := Server.JsonObject ∅ |}
              {| Server.activeSnapshotId := Some "snap" |} ∅)
    as (db' & s' & entries' & Hrun & _ & Hs' & Hver & _).
  - reflexivity.
  - reflexivity.
  - reflexivity.
  - reflexivity.
  - left. split; [|split]; reflexivity.
  - intros [|[|[|i]]] u; simpl; intros [= <-]; repeat split.
  - exists db', s'. split; [exact Hrun|]. split; [exact Hs'|exact Hver].
Defined.

(** ** The backend's websocket endpoint *)

Lemma splitHead_no_sep sep s : Backend.occurs sep (Backend.splitHead sep s) = false.
Proof.
  induction s as [|c s IH]; simpl; [done|].
  destruct (Ascii.eqb c sep) eqn:Hc; simpl; [done|]. by rewrite Hc.
Qed.

Lemma splitHead_app sep s rest :
  Backend.occurs sep s = false ->
  Backend.splitHead sep (s ++ String sep rest) = s.
Proof.
  induction s as [|c s IH]; simpl.
  - by rewrite Ascii.eqb_refl.
  - destruct (Ascii.eqb c sep); simpl; [discriminate|].
    intros H. by rewrite IH.
Qed.

Lemma splitHead_id sep s :
  Backend.occurs sep s = false -> Backend.splitHead sep s = s.
Proof.
  induction s as [|c s IH]; simpl; [done|].
  destruct (Ascii.eqb c sep); simpl; [discriminate|].
  intros H. by rewrite IH.
Qed.

(** X14.  The document id of a connection is the part of the request's url
    between its first character, which is dropped unexamined, and the first
    question mark: for an id without question mark, the urls [c id] and
    [c id ? query] both give [id], whatever the character [c] and the query
    are.  The id never contains a question mark, and a request without url
    gives the empty id. *)
Theorem documentId_of_url :
  (forall (c : ascii) (id query : string),
     Backend.occurs "?" id = false ->
     Backend.documentIdOfUrl (Some (String c (id ++ String "?" query))) = id
     /\ Backend.documentIdOfUrl (Some (String c id)) = id)
  /\ (forall url, Backend.occurs "?" (Backend.documentIdOfUrl url) = false)
  /\ Backend.documentIdOfUrl None = "".
Proof.
  split; [|split].
  - intros c id query Hid. unfold Backend.documentIdOfUrl. simpl.
    rewrite (splitHead_app _ _ _ Hid), (splitHead_id _ _ Hid).
    destruct (String.eqb_spec id ""); by subst.
  - intros [u|]; [|done]. unfold Backend.documentIdOfUrl.
    destruct (String.eqb _ ""); [done|]. apply splitHead_no_sep.
  - reflexivity.
Qed.

Example documentId_of_url_example :
  Backend.documentIdOfUrl
    (Some "/6e46c006-5541-11ec-bf63-0242ac130002?sessionKey=abc?x")
  = "6e46c006-5541-11ec-bf63-0242ac130002".
Proof. reflexivity. Qed.

(** ** The client's websocket service *)

Section WebsocketServiceProperties.

Import WebsocketService.

Context {Json : Type} (D : Deps) (context : Config)
  (session : Ephemeral.EphemeralMessagesSession).

Lemma send_consistent (event : MachineEvent Json) s :
  isSend event = false ->
  consistent D context session s ->
  consistent D context session (send event s).
Proof.
  intros Hev (Hc & Hn & Hs & Hw). repeat split; try done.
  cbn [send sent]. rewrite List.filter_app. cbn [List.filter].
  rewrite Hev, app_nil_r. exact Hs.
Qed.

Lemma resume_consistent call outcome (s : Service Json) :
  consistent D context session s ->
  consistent D context session
    (prepareAndSendEphemeralMessage_resume D context session call outcome s).
Proof.
  intros (Hc & Hn & Hs & Hw). unfold prepareAndSendEphemeralMessage_resume.
  destruct outcome as [reason|key]; [done|].
  destruct (createEphemeralMessage D _ _ _ _ _ _ _) as [reason|m] eqn:Hm;
    [done|].
  unfold consistent.
  cbn [send reject sent created ephemeralSessionCounter].
  rewrite !length_app, !map_app, List.filter_app, Hc, Hs.
  cbn [length map List.filter isSend fst snd].
  replace (length (created s) + 1)%nat with (S (length (created s))) by lia.
  rewrite seqZ_S, Hn. repeat split; try done; try lia.
  apply Forall_app. split; [done|]. apply Forall_singleton.
  exists (data call), (messageType call), key. rewrite <- Hn. exact Hm.
Qed.

Lemma step_consistent (s : Service Json) st :
  consistent D context session s ->
  consistent D context session (step D context session s st).
Proof.
  intros Hs. destruct st as [| | | |parsed|d t|i outcome|i]; cbn [step].
  - by apply send_consistent.
  - by apply send_consistent.
  - by apply send_consistent.
  - destruct (negb _); [by apply send_consistent|done].
  - destruct parsed as [| |[t|] d]; cbn [onWebsocketMessage]; try done;
      [|by apply send_consistent].
    repeat (destruct (_ : bool); [by apply send_consistent|]).
    by apply send_consistent.
  - done.
  - destruct (awaiting s !! i); [|done]. by apply resume_consistent.
  - destruct (rejected s !! i); [|done]. by apply send_consistent.
Qed.

Lemma run_consistent (s : Service Json) steps :
  consistent D context session s ->
  consistent D context session (run D context session s steps).
Proof.
  unfold run. revert s.
  induction steps as [|st steps IH]; intros s Hs; simpl; [done|].
  apply IH, step_consistent, Hs.
Qed.

(** The call a frame started is the last suspended one; when its key
    lookup settles it resumes in the service as it is then. *)
Lemma step_settle_started (s : Service Json) event call outcome :
  step D context session
    (send event (prepareAndSendEphemeralMessage_call call s))
    (KeySettled (length (awaiting s)) outcome)
  = prepareAndSendEphemeralMessage_resume D context session call outcome
      (send event s).
Proof.
  destruct s as [counter conn calls reasons events messages].
  cbn [step send prepareAndSendEphemeralMessage_call awaiting].
  rewrite list_lookup_middle by reflexivity.
  unfold resumed, send, prepareAndSendEphemeralMessage_call.
  cbn [awaiting sent rejected created connected ephemeralSessionCounter].
  rewrite delete_middle, app_nil_r. reflexivity.
Qed.

Lemma step_caught_rejected (s : Service Json) reason i :
  i = length (rejected s) ->
  step D context session (reject reason s) (Caught i)
  = send (FAILED_CREATING_EPHEMERAL_UPDATE reason) s.
Proof.
  intros ->. destruct s as [counter conn calls reasons events messages].
  cbn [step reject rejected].
  rewrite list_lookup_middle by reflexivity.
  unfold handled, send. cbn [reject awaiting sent rejected created connected
                               ephemeralSessionCounter].
  rewrite delete_middle, app_nil_r. reflexivity.
Qed.

End WebsocketServiceProperties.

(** X15.  What the service does with a frame.  A frame whose data does not
    parse, or parses to [null], sends nothing and starts nothing.  Every
    other frame sends exactly one event at once.  It is the frame itself on
    the incoming queue exactly when its type is [document], [snapshot],
    [snapshot-saved], [snapshot-save-failed], [update], [update-saved],
    [update-save-failed] or [ephemeral-message]; one of the three terminal
    signals, without the frame, exactly for [document-not-found],
    [unauthorized] and [document-error]; and the frame itself on the custom
    message queue for every other type and for a frame without a type.
    Exactly a [document] frame also starts an [initialize] ephemeral message
    with empty data, and nothing else of the service changes.  That message
    is sent after the frame's event, when its key lookup settles, with the
    counter the service has then, which it raises; when the lookup is
    rejected or the message cannot be created, the counter stays and
    FAILED_CREATING_EPHEMERAL_UPDATE with the reason is sent once the
    [catch] handler runs. *)
Theorem frame_routing {Json : Type} (D : WebsocketService.Deps)
    (context : WebsocketService.Config)
    (session : Ephemeral.EphemeralMessagesSession)
    (s : WebsocketService.Service Json) (type : option string) (data : Json) :
  WebsocketService.onWebsocketMessage WebsocketService.ParseError s = s
  /\ WebsocketService.onWebsocketMessage WebsocketService.ParsedNull s = s
  /\ (let s' :=
        WebsocketService.onWebsocketMessage
          (WebsocketService.ParsedValue type data) s in
      exists event,
        WebsocketService.sent s' = (WebsocketService.sent s ++ [event])%list
        /\ (event = WebsocketService.WEBSOCKET_ADD_TO_INCOMING_QUEUE data
            <-> exists t, type = Some t
                          /\ In t ("document" :: WebsocketService.incomingTypes))
        /\ (event = WebsocketService.WEBSOCKET_DOCUMENT_NOT_FOUND
            <-> type = Some "document-not-found")
        /\ (event = WebsocketService.WEBSOCKET_UNAUTHORIZED
            <-> type = Some "unauthorized")
        /\ (event = WebsocketService.WEBSOCKET_DOCUMENT_ERROR
            <-> type = Some "document-error")
        /\ (event = WebsocketService.WEBSOCKET_ADD_TO_CUSTOM_MESSAGE_QUEUE data
            <-> forall t, type = Some t ->
                          ~ In t ("document" :: "document-not-found"
                                  :: "unauthorized" :: "document-error"
                                  :: WebsocketService.incomingTypes))
        /\ WebsocketService.awaiting s'
           = (WebsocketService.awaiting s
              ++ if bool_decide (type = Some "document")
                 then [{| WebsocketService.data := [];
                          WebsocketService.messageType := "initialize" |}]
                 else [])%list
        /\ WebsocketService.ephemeralSessionCounter s'
           = WebsocketService.ephemeralSessionCounter s
        /\ WebsocketService.connected s' = WebsocketService.connected s
        /\ WebsocketService.rejected s' = WebsocketService.rejected s
        /\ WebsocketService.created s' = WebsocketService.created s)
  /\ (forall outcome : string + bytes,
        let s1 :=
          WebsocketService.onWebsocketMessage
            (WebsocketService.ParsedValue (Some "document") data) s in
        let s2 :=
          WebsocketService.step D context session s1
            (WebsocketService.KeySettled
               (length (WebsocketService.awaiting s)) outcome) in
        let attempt :=
          match outcome with
          | inl reason => inl reason
          | inr key =>
              WebsocketService.createEphemeralMessage D [] "initialize"
                {| Ephemeral.docId := WebsocketService.documentId context;
                   Ephemeral.pubKey :=
                     WebsocketService.to_base64 D
                       (publicKey (WebsocketService.signatureKeyPair context)) |}
                key (WebsocketService.signatureKeyPair context)
                (Ephemeral.id session)
                (WebsocketService.ephemeralSessionCounter s)
          end in
        WebsocketService.awaiting s2 = WebsocketService.awaiting s
        /\ match attempt with
           | inr message =>
               WebsocketService.sent s2
               = (WebsocketService.sent s
                  ++ [WebsocketService.WEBSOCKET_ADD_TO_INCOMING_QUEUE data;
                      WebsocketService.SEND
                        (WebsocketService.stringify D message)])%list
               /\ WebsocketService.ephemeralSessionCounter s2
                  = WebsocketService.ephemeralSessionCounter s + 1
               /\ WebsocketService.rejected s2 = WebsocketService.rejected s
           | inl reason =>
               WebsocketService.sent s2
               = (WebsocketService.sent s
                  ++ [WebsocketService.WEBSOCKET_ADD_TO_INCOMING_QUEUE data])%list
               /\ WebsocketService.ephemeralSessionCounter s2
                  = WebsocketService.ephemeralSessionCounter s
               /\ WebsocketService.rejected s2
                  = (WebsocketService.rejected s ++ [reason])%list
               /\ WebsocketService.sent
                    (WebsocketService.step D context session s2
                       (WebsocketService.Caught
                          (length (WebsocketService.rejected s))))
                  = (WebsocketService.sent s
                     ++ [WebsocketService.WEBSOCKET_ADD_TO_INCOMING_QUEUE data;
                         WebsocketService.FAILED_CREATING_EPHEMERAL_UPDATE
                           reason])%list
           end).
Proof.
  split; [reflexivity|]. split; [reflexivity|]. split.
  - cbv zeta. unfold WebsocketService.onWebsocketMessage.
    destruct type as [t|].
    2: { eexists. split; [reflexivity|]. rewrite bool_decide_eq_false_2 by done.
         rewrite app_nil_r. simpl. naive_solver. }
    destruct (String.eqb_spec t "document-not-found") as [->|H1].
    { eexists. split; [reflexivity|]. rewrite bool_decide_eq_false_2 by done.
      rewrite app_nil_r. simpl. naive_solver. }
    destruct (String.eqb_spec t "unauthorized") as [->|H2].
    { eexists. split; [reflexivity|]. rewrite bool_decide_eq_false_2 by done.
      rewrite app_nil_r. simpl. naive_solver. }
    destruct (String.eqb_spec t "document-error") as [->|H3].
    { eexists. split; [reflexivity|]. rewrite bool_decide_eq_false_2 by done.
      rewrite app_nil_r. simpl. naive_solver. }
    destruct (String.eqb_spec t "document") as [->|H4].
    { eexists. split; [reflexivity|]. rewrite bool_decide_eq_true_2 by done.
      simpl. naive_solver. }
    rewrite bool_decide_eq_false_2 by congruence. rewrite app_nil_r.
    destruct (existsb (String.eqb t) WebsocketService.incomingTypes) eqn:Hin.
    + apply existsb_exists in Hin as (t' & Hin & Heq).
      apply String.eqb_eq in Heq. subst t'.
      eexists. split; [reflexivity|]. simpl in *. naive_solver.
    + assert (~ In t WebsocketService.incomingTypes) as Hnin.
      { intros Hi. apply not_true_iff_false in Hin. apply Hin.
        apply existsb_exists. exists t. split; [done|].
        apply String.eqb_refl. }
      eexists. split; [reflexivity|]. simpl in *. naive_solver.
  - intros outcome s1 s2 attempt. subst s1 s2 attempt.
    cbn [WebsocketService.onWebsocketMessage String.eqb Ascii.eqb Bool.eqb].
    rewrite step_settle_started.
    unfold WebsocketService.prepareAndSendEphemeralMessage_resume.
    cbn [WebsocketService.data WebsocketService.messageType].
    change (WebsocketService.ephemeralSessionCounter
              (WebsocketService.send
                 (WebsocketService.WEBSOCKET_ADD_TO_INCOMING_QUEUE data) s))
      with (WebsocketService.ephemeralSessionCounter s).
    destruct (match outcome with
              | inl reason => inl reason
              | inr key => _
              end) as [reason|message] eqn:Hattempt.
    + assert (match outcome with
              | inl reason => WebsocketService.reject reason _
              | inr key => _
              end
              = WebsocketService.reject reason
                  (WebsocketService.send
                     (WebsocketService.WEBSOCKET_ADD_TO_INCOMING_QUEUE data) s))
        as ->.
      { destruct outcome as [r|key]; [by injection Hattempt as ->|].
        by rewrite Hattempt. }
      rewrite (step_caught_rejected D context session
                 (WebsocketService.send
                    (WebsocketService.WEBSOCKET_ADD_TO_INCOMING_QUEUE data) s)
                 reason (length (WebsocketService.rejected s)) eq_refl).
      cbn [WebsocketService.reject WebsocketService.send
             WebsocketService.awaiting WebsocketService.sent
             WebsocketService.rejected
             WebsocketService.ephemeralSessionCounter].
      rewrite <- app_assoc. done.
    + destruct outcome as [r|key]; [discriminate|]. rewrite Hattempt.
      cbn [WebsocketService.send WebsocketService.awaiting
             WebsocketService.sent WebsocketService.rejected
             WebsocketService.ephemeralSessionCounter].
      rewrite <- app_assoc. done.
Qed.

(** A [document] frame on a fresh service, then the key of the
    [initialize] message it started. *)
Example document_frame_then_key :
  WebsocketService.sent
    (WebsocketService.run SampleService.deps SampleService.config
       SampleMachine.session (WebsocketService.start SampleMachine.session)
       [WebsocketService.SocketOpen;
        WebsocketService.SocketMessage
          (WebsocketService.ParsedValue (Some "document") "{document}");
        WebsocketService.SocketMessage WebsocketService.ParseError;
        WebsocketService.KeySettled 0 (inr Toy.key)])
  = [WebsocketService.WEBSOCKET_CONNECTED;
     WebsocketService.WEBSOCKET_ADD_TO_INCOMING_QUEUE "{document}";
     WebsocketService.SEND "0:"].
Proof. vm_compute; reflexivity. Qed.

(** X16.  The counters of the ephemeral messages a service sends never
    repeat, in whatever order the socket's events, the machine's requests
    to send and the key lookups of the suspended calls come.  The messages
    are created with the counters from the one of the session on, one after
    the other in the order in which their calls resume; a call that is
    rejected uses up no counter; the service's counter is the next one; and
    the [SEND] events are those of the created messages, in the order of
    their counters. *)
Theorem ephemeral_counters_never_repeat {Json : Type}
    (D : WebsocketService.Deps) (context : WebsocketService.Config)
    (session : Ephemeral.EphemeralMessagesSession)
    (steps : list (WebsocketService.Step Json)) :
  let s := WebsocketService.run D context session
             (WebsocketService.start session) steps in
  map fst (WebsocketService.created s)
  = seqZ (Ephemeral.counter session)
      (Z.of_nat (length (WebsocketService.created s)))
  /\ NoDup (map fst (WebsocketService.created s))
  /\ WebsocketService.ephemeralSessionCounter s
     = Ephemeral.counter session
       + Z.of_nat (length (WebsocketService.created s))
  /\ List.filter WebsocketService.isSend (WebsocketService.sent s)
     = map (fun entry =>
              WebsocketService.SEND (WebsocketService.stringify D entry.2))
         (WebsocketService.created s)
  /\ Forall (WebsocketService.createdWith D context session)
       (WebsocketService.created s).
Proof.
  intros s.
  destruct (run_consistent D context session
              (WebsocketService.start session) steps)
    as (Hc & Hn & Hs & Hw).
  { split; [reflexivity|]. split; [simpl; lia|].
    split; [reflexivity|apply Forall_nil_2]. }
  fold s in Hc, Hn, Hs, Hw.
  split; [exact Hc|]. split; [rewrite Hc; apply NoDup_seqZ|].
  split; [exact Hn|]. split; [exact Hs|exact Hw].
Qed.

(** Three updates ["a"], ["b"], ["c"] are handed to a fresh service; the
    key lookup of ["c"] settles first, the one of ["a"] is rejected, the
    one of ["b"] settles last.  ["c"] is sent with the counter 0 and ["b"]
    with the counter 1, and the counter is then 2. *)
Lemma ephemeral_counters_never_repeat_witness :
  let s := WebsocketService.run SampleService.deps SampleService.config
             SampleMachine.session
             (WebsocketService.start SampleMachine.session)
             SampleService.schedule in
  WebsocketService.sent s
  = [WebsocketService.SEND "0:c"; WebsocketService.SEND "1:b";
     WebsocketService.FAILED_CREATING_EPHEMERAL_UPDATE
       "Wrong ephemeral message key"]
  /\ map fst (WebsocketService.created s) = [0; 1]
  /\ WebsocketService.ephemeralSessionCounter s = 2.
Proof.
  intros s.
  destruct (ephemeral_counters_never_repeat SampleService.deps
              SampleService.config SampleMachine.session
              SampleService.schedule) as (Hc & _ & Hn & _).
  fold s in Hc, Hn.
  split; [vm_compute; reflexivity|].
  split; [rewrite Hc|rewrite Hn]; vm_compute; reflexivity.
Defined.
